(** * Cluster health scripts: a shallow embedding and its properties

    The repository holds two standalone Python scripts:

    - [scripts/health-check.py] (class [K8sHealthManager]): polls Prometheus
      and the Kubernetes API, accumulates issues and warnings in a report and
      exits with a status code;
    - [roles/cluster_health_reporter/files/generate_health_report.py]
      (class [ClusterHealthReporter]): polls Prometheus, renders a daily or
      weekly text report and posts it to a webhook.

    Both are embedded as functions in a state-and-exception monad over a
    trace of I/O events.  The answers of the network are an explicit
    argument (the [world]); the few interpreter builtins whose full behaviour
    is outside the repository ([int], [float], the [.1f] format, [str] of a
    non-string value) are the fields of the class [PyRuntime]. *)

From Stdlib Require Import ZArith NArith List String Ascii Floats Lia Bool.
From stdpp Require Import base option list gmap.
Import ListNotations.

Local Open Scope Z_scope.
Set Warnings "-register-all".

(* ===================================================================== *)
(** * Python values                                                       *)
(* ===================================================================== *)

Module Py.

(** A Python [str] is a sequence of Unicode code points: [len] and slicing
    count code points, not bytes. *)
Abbreviation pystr := (list N).

(** Literals are written as UTF-8 text and decoded once. *)
Fixpoint utf8_decode (bs : list N) : pystr :=
  match bs with
  | [] => []
  | b0 :: r0 =>
    if (b0 <? 0x80)%N then b0 :: utf8_decode r0
    else if (b0 <? 0xE0)%N then
      match r0 with
      | b1 :: r1 =>
        N.lor (N.shiftl (N.land b0 0x1F) 6) (N.land b1 0x3F) :: utf8_decode r1
      | [] => [b0]
      end
    else if (b0 <? 0xF0)%N then
      match r0 with
      | b1 :: b2 :: r2 =>
        N.lor (N.shiftl (N.land b0 0x0F) 12)
          (N.lor (N.shiftl (N.land b1 0x3F) 6) (N.land b2 0x3F))
        :: utf8_decode r2
      | _ => [b0]
      end
    else
      match r0 with
      | b1 :: b2 :: b3 :: r3 =>
        N.lor (N.shiftl (N.land b0 0x07) 18)
          (N.lor (N.shiftl (N.land b1 0x3F) 12)
             (N.lor (N.shiftl (N.land b2 0x3F) 6) (N.land b3 0x3F)))
        :: utf8_decode r3
      | _ => [b0]
      end
  end.

Definition py (s : string) : pystr :=
  utf8_decode (List.map N_of_ascii (list_ascii_of_string s)).
Arguments py s : simpl never.

(** Characters a Rocq string literal cannot hold. *)
Definition nl : pystr := [10%N].
Definition dquote : pystr := [34%N].

Definition str_eqb (a b : pystr) : bool := bool_decide (a = b).

(** [s.startswith(p)] and [p in s] *)
Fixpoint starts_with (p s : pystr) : bool :=
  match p, s with
  | [], _ => true
  | _ :: _, [] => false
  | a :: p', b :: s' => (a =? b)%N && starts_with p' s'
  end.

Fixpoint contains (p s : pystr) : bool :=
  starts_with p s ||
  match s with
  | [] => false
  | _ :: s' => contains p s'
  end.

(** [sep.join(parts)] *)
Fixpoint join (sep : pystr) (parts : list pystr) : pystr :=
  match parts with
  | [] => []
  | [p] => p
  | p :: rest => p ++ sep ++ join sep rest
  end.

(** [s * n] for a one-character banner: ["=" * 60]. *)
Definition repeat_str (s : pystr) (n : nat) : pystr := List.concat (List.repeat s n).

(** [str.isspace] on one code point (CPython's [_PyUnicode_IsWhitespace]). *)
Definition is_whitespace (c : N) : bool :=
  ((0x09 <=? c) && (c <=? 0x0D) || (0x1C <=? c) && (c <=? 0x20)
   || (c =? 0x85) || (c =? 0xA0) || (c =? 0x1680)
   || (0x2000 <=? c) && (c <=? 0x200A)
   || (c =? 0x2028) || (c =? 0x2029) || (c =? 0x202F) || (c =? 0x205F)
   || (c =? 0x3000))%N.

Fixpoint lstrip (s : pystr) : pystr :=
  match s with
  | c :: r => if is_whitespace c then lstrip r else s
  | [] => []
  end.

(** [s.strip()] *)
Definition strip (s : pystr) : pystr := rev (lstrip (rev (lstrip s))).

(** [s.rstrip('/')] *)
Fixpoint lstrip_char (ch : N) (s : pystr) : pystr :=
  match s with
  | c :: r => if (c =? ch)%N then lstrip_char ch r else s
  | [] => []
  end.

Definition rstrip_char (ch : N) (s : pystr) : pystr := rev (lstrip_char ch (rev s)).

(** [s.upper()] on the ASCII letters; the scripts apply it to the literal
    keys ['cpu'], ['memory'] and ['disk'] only. *)
Definition upper (s : pystr) : pystr :=
  List.map (fun c => if (0x61 <=? c)%N && (c <=? 0x7A)%N then (c - 0x20)%N else c) s.

(** [str(n)] for an [int]. *)
Fixpoint digits_pos (fuel : nat) (p : positive) (acc : pystr) : pystr :=
  match fuel with
  | O => acc
  | S fuel' =>
    let q := (Npos p / 10)%N in
    let d := (0x30 + Npos p mod 10)%N in
    match q with
    | N0 => d :: acc
    | Npos q' => digits_pos fuel' q' (d :: acc)
    end
  end.

Definition str_of_int (z : Z) : pystr :=
  match z with
  | Z0 => py "0"
  | Zpos p => digits_pos (Pos.size_nat p) p []
  | Zneg p => py "-" ++ digits_pos (Pos.size_nat p) p []
  end.

(** [str(n).zfill(w)] for the non-negative fields of [strftime]. *)
Definition zero_pad (w : nat) (z : Z) : pystr :=
  let d := str_of_int z in
  List.repeat 0x30%N (w - length d) ++ d.

(** ** Values that [json.loads] produces, plus [None] *)

Inductive pyval :=
| PNone
| PBool (b : bool)
| PInt (z : Z)
| PFloat (f : float)
| PStr (s : pystr)
| PList (l : list pyval)
| PDict (d : list (pystr * pyval)).

(** ** Exceptions *)

Inductive exn_class :=
| KeyError | IndexError | TypeError | ValueError | AttributeError | OverflowError
| RequestException   (* requests.RequestException and its transport subclasses *)
| HTTPError          (* requests.HTTPError, a RequestException *)
| OtherException.    (* any other subclass of Exception *)

Record exn := mk_exn { exn_class_of : exn_class; exn_str : pystr }.

(** [isinstance(e, requests.RequestException)] *)
Definition is_RequestException (e : exn) : bool :=
  match exn_class_of e with
  | RequestException | HTTPError => true
  | _ => false
  end.

(** [isinstance(e, Exception)] *)
Definition is_Exception (e : exn) : bool := true.

Inductive res (A : Type) :=
| Return (a : A)
| Raise (e : exn).
Arguments Return {A} a.
Arguments Raise {A} e.

(** Sequencing of operations that may raise. *)
Definition rbind {A B} (r : res A) (k : A -> res B) : res B :=
  match r with
  | Return a => k a
  | Raise e => Raise e
  end.

Declare Scope py_scope.
Delimit Scope py_scope with py.
Notation "x <~ r ;; k" := (rbind r (fun x => k))
  (at level 100, r at next level, right associativity) : py_scope.

(** [acc = init; for x in xs: acc = body acc x], for a body without effects. *)
Fixpoint rfold {A B} (xs : list A) (acc : B) (body : B -> A -> res B) : res B :=
  match xs with
  | [] => Return acc
  | x :: rest => rbind (body acc x) (fun acc' => rfold rest acc' body)
  end.

Definition type_name (v : pyval) : pystr :=
  match v with
  | PNone => py "NoneType"
  | PBool _ => py "bool"
  | PInt _ => py "int"
  | PFloat _ => py "float"
  | PStr _ => py "str"
  | PList _ => py "list"
  | PDict _ => py "dict"
  end.

(** [bool(v)] *)
Definition truthy (v : pyval) : bool :=
  match v with
  | PNone => false
  | PBool b => b
  | PInt z => negb (z =? 0)
  | PFloat f => negb (PrimFloat.eqb f 0%float)
  | PStr s => negb (bool_decide (s = []))
  | PList l => negb (Nat.eqb (length l) 0)
  | PDict d => negb (Nat.eqb (length d) 0)
  end.

Fixpoint assoc {A : Type} (k : pystr) (d : list (pystr * A)) : option A :=
  match d with
  | [] => None
  | (k', v) :: r => if str_eqb k' k then Some v else assoc k r
  end.

(** [v[k]] for a [str] key [k] *)
Definition getitem (v : pyval) (k : pystr) : res pyval :=
  match v with
  | PDict d =>
    match assoc k d with
    | Some x => Return x
    | None => Raise (mk_exn KeyError (py "'" ++ k ++ py "'"))
    end
  | PList _ =>
    Raise (mk_exn TypeError (py "list indices must be integers or slices, not str"))
  | PStr _ =>
    Raise (mk_exn TypeError (py "string indices must be integers, not 'str'"))
  | _ =>
    Raise (mk_exn TypeError (py "'" ++ type_name v ++ py "' object is not subscriptable"))
  end.

(** [v[i]] for a literal index [i >= 0] *)
Definition getindex (v : pyval) (i : nat) : res pyval :=
  match v with
  | PList l =>
    match nth_error l i with
    | Some x => Return x
    | None => Raise (mk_exn IndexError (py "list index out of range"))
    end
  | PStr s =>
    match nth_error s i with
    | Some c => Return (PStr [c])
    | None => Raise (mk_exn IndexError (py "string index out of range"))
    end
  | PDict _ => Raise (mk_exn KeyError (str_of_int (Z.of_nat i)))
  | _ =>
    Raise (mk_exn TypeError (py "'" ++ type_name v ++ py "' object is not subscriptable"))
  end.

(** [v.get(k, default)] *)
Definition dict_get (v : pyval) (k : pystr) (default : pyval) : res pyval :=
  match v with
  | PDict d =>
    match assoc k d with
    | Some x => Return x
    | None => Return default
    end
  | _ =>
    Raise (mk_exn AttributeError
             (py "'" ++ type_name v ++ py "' object has no attribute 'get'"))
  end.

(** The items a [for] loop over [v] visits. *)
Definition iter (v : pyval) : res (list pyval) :=
  match v with
  | PList l => Return l
  | PDict d => Return (List.map (fun kv => PStr (fst kv)) d)
  | PStr s => Return (List.map (fun c => PStr [c]) s)
  | _ =>
    Raise (mk_exn TypeError (py "'" ++ type_name v ++ py "' object is not iterable"))
  end.

(** [len(v)] *)
Definition py_len (v : pyval) : res Z :=
  match v with
  | PList l => Return (Z.of_nat (length l))
  | PStr s => Return (Z.of_nat (length s))
  | PDict d => Return (Z.of_nat (length d))
  | _ =>
    Raise (mk_exn TypeError (py "object of type '" ++ type_name v ++ py "' has no len()"))
  end.

(** [v == s] for a [str] literal [s] *)
Definition eq_str (v : pyval) (s : pystr) : bool :=
  match v with
  | PStr t => str_eqb t s
  | _ => false
  end.

(** [v in nodes] for a list of [str] *)
Definition in_str_list (v : pyval) (nodes : list pystr) : bool :=
  match v with
  | PStr t => bool_decide (t ∈ nodes)
  | _ => false
  end.

(** [d[k] = b] on a dict that is afterwards read at [str] keys only: a key
    that is no [str] can never be found by such a read, a key that is not
    hashable raises. *)
Definition setitem (d : gmap pystr bool) (k : pyval) (b : bool) : res (gmap pystr bool) :=
  match k with
  | PStr s => Return (<[s := b]> d)
  | PList _ | PDict _ =>
    Raise (mk_exn TypeError (py "unhashable type: '" ++ type_name k ++ py "'"))
  | _ => Return d
  end.

(** ** Builtins taken from the interpreter *)

Class PyRuntime := {
  (** [int(v)] *)
  py_int : pyval -> res Z;
  (** [float(v)] *)
  py_float : pyval -> res float;
  (** [format(x, '.1f')] *)
  format_1f : float -> pystr;
  (** [str(v)] for a value that is no [str] *)
  str_other : pyval -> pystr
}.

(** [str(v)], what an f-string field [{v}] inserts *)
Definition py_str {RT : PyRuntime} (v : pyval) : pystr :=
  match v with
  | PStr s => s
  | _ => str_other v
  end.

End Py.

(* ===================================================================== *)
(** * Effects: the network, the output channels, exceptions               *)
(* ===================================================================== *)

Module Eff.
Import Py.

(** What [requests.get] and [requests.post] are called with. *)
Record request := {
  req_url : pystr;
  req_params : list (pystr * pyval);
  req_verify : bool;
  req_timeout : Z
}.

(** The parts of a [requests.Response] the scripts read.  [resp_json] is
    what [response.json()] does: it returns the parsed body or raises. *)
Record response := {
  status_code : Z;
  reason : pystr;
  resp_url : pystr;
  text : pystr;
  resp_json : res pyval
}.

(** The network: the outcome of one request, a response or the exception
    [requests] raises.  No script issues the same request twice in a run,
    so one answer per request describes every run. *)
Record world := {
  http_get : request -> res response;
  http_post : request -> pyval -> res response
}.

Inductive channel := Stdout | Stderr.

Inductive event :=
| Print (ch : channel) (line : pystr)
| Get (rq : request)
| Post (rq : request) (payload : pyval).

(** The state of a run: the object the methods mutate ([self]) and the
    trace of what the process has done so far. *)
Record state (O : Type) := mk_state { self : O; trace : list event }.
Arguments mk_state {O} self trace.
Arguments self {O} s.
Arguments trace {O} s.

(** A computation returns or raises, and leaves a state either way. *)
Definition M (O A : Type) : Type := state O -> res A * state O.

Definition ret {O A} (a : A) : M O A := fun s => (Return a, s).

Definition raise {O A} (e : exn) : M O A := fun s => (Raise e, s).

Definition bind {O A B} (m : M O A) (k : A -> M O B) : M O B :=
  fun s =>
    match m s with
    | (Return a, s') => k a s'
    | (Raise e, s') => (Raise e, s')
    end.

(** A pure operation that may raise. *)
Definition lift {O A} (r : res A) : M O A := fun s => (r, s).

(** [try: body  except C as e: handler e] where [catches] decides
    [isinstance(e, C)]. *)
Definition try_except {O A} (body : M O A) (catches : exn -> bool)
    (handler : exn -> M O A) : M O A :=
  fun s =>
    match body s with
    | (Return a, s') => (Return a, s')
    | (Raise e, s') => if catches e then handler e s' else (Raise e, s')
    end.

Definition get_self {O} : M O O := fun s => (Return (self s), s).

Definition set_self {O} (o : O) : M O unit :=
  fun s => (Return tt, mk_state o (trace s)).

Definition emit {O} (ev : event) : M O unit :=
  fun s => (Return tt, mk_state (self s) (trace s ++ [ev])).

(** [print(line)] and [print(line, file=sys.stderr)] *)
Definition print {O} (line : pystr) : M O unit := emit (Print Stdout line).
Definition eprint {O} (line : pystr) : M O unit := emit (Print Stderr line).

(** [requests.get(url, params=..., verify=..., timeout=...)] *)
Definition requests_get {O} (w : world) (rq : request) : M O response :=
  bind (emit (Get rq)) (fun _ => lift (http_get w rq)).

(** [requests.post(url, json=payload, timeout=...)] *)
Definition requests_post {O} (w : world) (rq : request) (payload : pyval) : M O response :=
  bind (emit (Post rq payload)) (fun _ => lift (http_post w rq payload)).

(** The [HTTPError] that [response.raise_for_status()] raises, if any. *)
Definition status_error (r : response) : option exn :=
  let msg (kind : string) :=
    str_of_int (status_code r) ++ py kind ++ reason r ++ py " for url: " ++ resp_url r in
  if (400 <=? status_code r) && (status_code r <? 500)
  then Some (mk_exn HTTPError (msg " Client Error: "%string))
  else if (500 <=? status_code r) && (status_code r <? 600)
  then Some (mk_exn HTTPError (msg " Server Error: "%string))
  else None.

(** [response.raise_for_status()] *)
Definition raise_for_status {O} (r : response) : M O unit :=
  match status_error r with
  | Some e => raise e
  | None => ret tt
  end.

(** The requests among the events of a trace, in order. *)
Fixpoint requests_of (t : list event) : list request :=
  match t with
  | [] => []
  | Get rq :: t' => rq :: requests_of t'
  | Post rq _ :: t' => rq :: requests_of t'
  | Print _ _ :: t' => requests_of t'
  end.

(** [acc = init; for x in xs: acc = body acc x] *)
Fixpoint for_each {O A B} (xs : list A) (acc : B) (body : B -> A -> M O B) : M O B :=
  match xs with
  | [] => ret acc
  | x :: rest => bind (body acc x) (fun acc' => for_each rest acc' body)
  end.

(** [m] moves the object along [R], whether it returns or raises. *)
Definition steps {O A} (R : O -> O -> Prop) (m : M O A) : Prop :=
  forall s, R (self s) (self (snd (m s))).

(** What [m] returns, and the object it leaves, depend on the object it
    starts from and not on the trace so far. *)
Definition reads_self_only {O A} (m : M O A) : Prop :=
  forall s1 s2, self s1 = self s2 ->
    fst (m s1) = fst (m s2) /\ self (snd (m s1)) = self (snd (m s2)).

(** The relation of an invariant [P]: if it held before, it holds after. *)
Definition keeps {O} (P : O -> Prop) : O -> O -> Prop := fun o o' => P o -> P o'.

(** Every exception that [m] ends with satisfies [P]. *)
Definition raises_only {O A} (P : exn -> Prop) (m : M O A) : Prop :=
  forall s e s', m s = (Raise e, s') -> P e.

(** The same for an operation without effects. *)
Definition fails_only {A} (P : exn -> Prop) (r : res A) : Prop :=
  forall e, r = Raise e -> P e.

Notation "x <- m ;; k" := (bind m (fun x => k))
  (at level 100, m at next level, right associativity) : py_scope.
Notation "m ;; k" := (bind m (fun _ => k))
  (at level 100, right associativity) : py_scope.

End Eff.

(* ===================================================================== *)
(** * scripts/health-check.py                                             *)
(* ===================================================================== *)

Module K8sHealthManager.
Import Py Eff.
Local Open Scope py_scope.

(** [self.health_report] *)
Record HealthReport := {
  timestamp : pystr;
  overall_status : pystr;
  issues : list pystr;
  warnings : list pystr;
  actions_taken : list pystr
}.

(** The attributes of a [K8sHealthManager]. *)
Record manager := {
  prometheus_url : pystr;
  loki_url : pystr;
  k8s_api_url : pystr;
  cluster_nodes : list pystr;
  health_report : HealthReport
}.

(** [__init__]; [now_iso] is [datetime.now().isoformat()]. *)
Definition init (now_iso : pystr) : manager :=
  {| prometheus_url := py "http://prometheus.home";
     loki_url := py "http://192.168.1.143:3100";
     k8s_api_url := py "https://192.168.1.99:6443";
     cluster_nodes :=
       [py "kube501.home"; py "kube502.home"; py "kube503.home"; py "kube511.home"];
     health_report :=
       {| timestamp := now_iso;
          overall_status := py "HEALTHY";
          issues := [];
          warnings := [];
          actions_taken := [] |} |}.

(** [self.health_report[...] = ...] and [.append] on its lists *)
Definition with_report (o : manager) (r : HealthReport) : manager :=
  {| prometheus_url := prometheus_url o;
     loki_url := loki_url o;
     k8s_api_url := k8s_api_url o;
     cluster_nodes := cluster_nodes o;
     health_report := r |}.

Definition update_report (f : HealthReport -> HealthReport) : M manager unit :=
  o <- get_self ;;
  set_self (with_report o (f (health_report o))).

Definition append_issue (message : pystr) (r : HealthReport) : HealthReport :=
  {| timestamp := timestamp r; overall_status := overall_status r;
     issues := issues r ++ [message]; warnings := warnings r;
     actions_taken := actions_taken r |}.

Definition append_warning (message : pystr) (r : HealthReport) : HealthReport :=
  {| timestamp := timestamp r; overall_status := overall_status r;
     issues := issues r; warnings := warnings r ++ [message];
     actions_taken := actions_taken r |}.

Definition append_action (message : pystr) (r : HealthReport) : HealthReport :=
  {| timestamp := timestamp r; overall_status := overall_status r;
     issues := issues r; warnings := warnings r;
     actions_taken := actions_taken r ++ [message] |}.

Definition set_status (status : pystr) (r : HealthReport) : HealthReport :=
  {| timestamp := timestamp r; overall_status := status;
     issues := issues r; warnings := warnings r;
     actions_taken := actions_taken r |}.

Definition add_issue (message : pystr) : M manager unit :=
  update_report (append_issue message) ;;
  update_report (set_status (py "UNHEALTHY")) ;;
  print (py "  ❌ ISSUE: " ++ message).

Definition add_warning (message : pystr) : M manager unit :=
  update_report (append_warning message) ;;
  o <- get_self ;;
  (if str_eqb (overall_status (health_report o)) (py "HEALTHY")
   then update_report (set_status (py "WARNING"))
   else ret tt) ;;
  print (py "  ⚠️  WARNING: " ++ message).

Definition add_action (message : pystr) : M manager unit :=
  update_report (append_action message) ;;
  print (py "  🔧 ACTION: " ++ message).

(** Lines 31-33: [requests.get(f"{self.prometheus_url}/api/v1/query",
    params={"query": query}, timeout=10)]. *)
Definition prometheus_request (o : manager) (query : pystr) : request :=
  {| req_url := prometheus_url o ++ py "/api/v1/query";
     req_params := [(py "query", PStr query)];
     req_verify := true;
     req_timeout := 10 |}.

(** Lines 114-115: [requests.get(f"{self.k8s_api_url}/healthz",
    verify=False, timeout=5)]. *)
Definition healthz_request (o : manager) : request :=
  {| req_url := k8s_api_url o ++ py "/healthz";
     req_params := [];
     req_verify := false;
     req_timeout := 5 |}.

Section Checks.
Context {RT : PyRuntime}.
Variable w : world.

Definition query_prometheus (query : pystr) : M manager pyval :=
  try_except
    (o <- get_self ;;
     response <- requests_get w (prometheus_request o query) ;;
     if status_code response =? 200
     then lift (resp_json response)
     else ret PNone)
    is_RequestException
    (fun e =>
       add_issue (py "Prometheus query failed: " ++ exn_str e) ;;
       ret PNone).

(** [result['data']['result']], as the list a [for] loop visits *)
Definition samples_of (result : pyval) : res (list pyval) :=
  data <~ getitem result (py "data") ;;
  rows <~ getitem data (py "result") ;;
  iter rows.

(** [metric['metric']['instance']] *)
Definition instance_of (metric : pyval) : res pyval :=
  m <~ getitem metric (py "metric") ;;
  getitem m (py "instance").

(** [metric['value'][1]] *)
Definition sample_value (metric : pyval) : res pyval :=
  v <~ getitem metric (py "value") ;;
  getindex v 1.

(** Lines 83-91, the body of the loop over the CPU samples. *)
Definition cpu_sample (metric : pyval) : M manager unit :=
  instance <- lift (instance_of metric) ;;
  o <- get_self ;;
  if in_str_list instance (cluster_nodes o) then
    v1 <- lift (sample_value metric) ;;
    cpu_usage <- lift (py_float v1) ;;
    (if PrimFloat.ltb 90 cpu_usage then
       add_issue (py "High CPU usage on " ++ py_str instance ++ py ": "
                  ++ format_1f cpu_usage ++ py "%")
     else if PrimFloat.ltb 75 cpu_usage then
       add_warning (py "Elevated CPU usage on " ++ py_str instance ++ py ": "
                    ++ format_1f cpu_usage ++ py "%")
     else ret tt) ;;
    print (py "  💾 " ++ py_str instance ++ py " CPU: " ++ format_1f cpu_usage ++ py "%")
  else ret tt.

(** Lines 98-106, the body of the loop over the memory samples. *)
Definition memory_sample (metric : pyval) : M manager unit :=
  instance <- lift (instance_of metric) ;;
  o <- get_self ;;
  if in_str_list instance (cluster_nodes o) then
    v1 <- lift (sample_value metric) ;;
    memory_usage <- lift (py_float v1) ;;
    (if PrimFloat.ltb 90 memory_usage then
       add_issue (py "High memory usage on " ++ py_str instance ++ py ": "
                  ++ format_1f memory_usage ++ py "%")
     else if PrimFloat.ltb 80 memory_usage then
       add_warning (py "Elevated memory usage on " ++ py_str instance ++ py ": "
                    ++ format_1f memory_usage ++ py "%")
     else ret tt) ;;
    print (py "  🧠 " ++ py_str instance ++ py " Memory: "
           ++ format_1f memory_usage ++ py "%")
  else ret tt.

(** [for metric in result['data']['result']: body metric] *)
Definition for_samples (result : pyval) (body : pyval -> M manager unit) : M manager unit :=
  metrics <- lift (samples_of result) ;;
  for_each metrics tt (fun _ metric => body metric).

Definition cpu_query : pystr :=
  py "(1 - avg(rate(node_cpu_seconds_total{mode=" ++ dquote ++ py "idle" ++ dquote
  ++ py "}[5m])) by (instance)) * 100".

Definition memory_query : pystr :=
  py "(1 - (node_memory_MemAvailable_bytes / node_memory_MemTotal_bytes)) * 100".

Definition check_node_resources : M manager unit :=
  print (py "📊 Checking Node Resources...") ;;
  result <- query_prometheus cpu_query ;;
  (if truthy result then for_samples result cpu_sample else ret tt) ;;
  result <- query_prometheus memory_query ;;
  (if truthy result then for_samples result memory_sample else ret tt).

(** Lines 51-53 and 137-139, the body of the loop that fills the dict from
    instance to [status == 1]. *)
Definition up_sample (node_status : gmap pystr bool) (metric : pyval)
    : res (gmap pystr bool) :=
  instance <~ instance_of metric ;;
  v1 <~ sample_value metric ;;
  status <~ py_int v1 ;;
  setitem node_status instance (status =? 1).

(** Lines 49-53 and 135-139. *)
Definition up_status (result : pyval) : res (gmap pystr bool) :=
  metrics <~ samples_of result ;;
  rfold metrics ∅ up_sample.

(** Lines 57-68, the body of the loop over [self.cluster_nodes]. *)
Definition node_verdict (node_status : gmap pystr bool) (all_healthy : bool)
    (node : pystr) : M manager bool :=
  match node_status !! node with
  | Some true =>
    print (py "  ✅ " ++ node ++ py " - UP") ;;
    ret all_healthy
  | Some false =>
    print (py "  ❌ " ++ node ++ py " - DOWN") ;;
    add_issue (py "Node exporter down on " ++ node) ;;
    ret false
  | None =>
    print (py "  ⚠️  " ++ node ++ py " - NO METRICS") ;;
    add_warning (py "No metrics found for " ++ node) ;;
    ret false
  end.

Definition check_node_health : M manager bool :=
  print (py "🖥️  Checking Node Health...") ;;
  result <- query_prometheus (py "up{job='node_exporter'}") ;;
  if negb (truthy result) then ret false else
  node_status <- lift (up_status result) ;;
  o <- get_self ;;
  all_healthy <- for_each (cluster_nodes o) true (node_verdict node_status) ;;
  check_node_resources ;;
  ret all_healthy.

Definition check_kubernetes_api : M manager bool :=
  print (py "🎛️  Checking Kubernetes API Health...") ;;
  try_except
    (o <- get_self ;;
     response <- requests_get w (healthz_request o) ;;
     if (status_code response =? 200) && str_eqb (strip (text response)) (py "ok")
     then
       print (py "  ✅ API Server - HEALTHY") ;;
       ret true
     else
       add_issue (py "API server health check failed: "
                  ++ str_of_int (status_code response)) ;;
       ret false)
    is_RequestException
    (fun e =>
       add_issue (py "Cannot reach Kubernetes API: " ++ exn_str e) ;;
       ret false).

(** Lines 142-153, the body of the loop over [self.cluster_nodes]. *)
Definition cadvisor_verdict (cadvisor_status : gmap pystr bool) (all_healthy : bool)
    (node : pystr) : M manager bool :=
  match cadvisor_status !! node with
  | Some true =>
    print (py "  ✅ " ++ node ++ py " cAdvisor - UP") ;;
    ret all_healthy
  | Some false =>
    print (py "  ❌ " ++ node ++ py " cAdvisor - DOWN") ;;
    add_issue (py "cAdvisor down on " ++ node) ;;
    ret false
  | None =>
    print (py "  ⚠️  " ++ node ++ py " cAdvisor - NO METRICS") ;;
    add_warning (py "cAdvisor not reporting from " ++ node) ;;
    ret false
  end.

Definition check_container_metrics : M manager bool :=
  print (py "🐳 Checking Container Metrics...") ;;
  result <- query_prometheus (py "up{job='cadvisor'}") ;;
  if negb (truthy result) then ret false else
  cadvisor_status <- lift (up_status result) ;;
  o <- get_self ;;
  for_each (cluster_nodes o) true (cadvisor_verdict cadvisor_status).

Definition critical_patterns : list pystr :=
  [py "kubelet.*failed"; py "apiserver.*error"; py "etcd.*error";
   py "scheduler.*failed"; py "controller.*error"].

(** Lines 175-195, the body of the loop over the patterns.  [start_ns] and
    [end_ns] are [int(start_time.timestamp() * 1000000000)] and
    [int(now.timestamp() * 1000000000)], the clock read fifteen minutes
    back and now. *)
Definition critical_pattern (start_ns end_ns : Z) (pattern : pystr) : M manager unit :=
  try_except
    (let query :=
       py "{job=" ++ dquote ++ py "node_exporter" ++ dquote ++ py "} |~ "
       ++ dquote ++ pattern ++ dquote in
     o <- get_self ;;
     response <- requests_get w
       {| req_url := loki_url o ++ py "/loki/api/v1/query_range";
          req_params := [(py "query", PStr query); (py "start", PInt start_ns);
                         (py "end", PInt end_ns); (py "limit", PInt 10)];
          req_verify := true;
          req_timeout := 10 |} ;;
     if status_code response =? 200 then
       data <- lift (resp_json response) ;;
       d <- lift (getitem data (py "data")) ;;
       streams <- lift (getitem d (py "result")) ;;
       if truthy streams then
         items <- lift (iter streams) ;;
         count <- for_each items 0 (fun acc stream =>
                    values <- lift (getitem stream (py "values")) ;;
                    n <- lift (py_len values) ;;
                    ret (acc + n)) ;;
         if 0 <? count
         then add_warning (py "Found " ++ str_of_int count
                           ++ py " critical log entries for pattern: " ++ pattern)
         else ret tt
       else ret tt
     else ret tt)
    is_RequestException
    (fun _ => ret tt).

Definition check_critical_logs (start_ns end_ns : Z) : M manager unit :=
  print (py "📜 Checking Critical Logs...") ;;
  for_each critical_patterns tt (fun _ pattern => critical_pattern start_ns end_ns pattern).

Definition print_bullets (items : list pystr) : M manager unit :=
  for_each items tt (fun _ item => print (py "   • " ++ item)).

Definition run_health_check (start_ns end_ns : Z) : M manager HealthReport :=
  print (py "🏥 Kubernetes Health Manager - Health Check Starting") ;;
  print (repeat_str (py "=") 60) ;;
  node_health <- check_node_health ;;
  api_health <- check_kubernetes_api ;;
  container_health <- check_container_metrics ;;
  check_critical_logs start_ns end_ns ;;
  print (repeat_str (py "=") 60) ;;
  o <- get_self ;;
  print (py "🎯 Overall Status: " ++ overall_status (health_report o)) ;;
  (if negb (Nat.eqb (length (issues (health_report o))) 0) then
     print (nl ++ py "❌ CRITICAL ISSUES:") ;;
     print_bullets (issues (health_report o))
   else ret tt) ;;
  (if negb (Nat.eqb (length (warnings (health_report o))) 0) then
     print (nl ++ py "⚠️  WARNINGS:") ;;
     print_bullets (warnings (health_report o))
   else ret tt) ;;
  (if negb (Nat.eqb (length (actions_taken (health_report o))) 0) then
     print (nl ++ py "🔧 ACTIONS TAKEN:") ;;
     print_bullets (actions_taken (health_report o))
   else ret tt) ;;
  ret (health_report o).

(** The [__main__] block's mapping from the report to [sys.exit]'s code. *)
Definition exit_code (report : HealthReport) : Z :=
  if str_eqb (overall_status report) (py "UNHEALTHY") then 1
  else if str_eqb (overall_status report) (py "WARNING") then 2
  else 0.

(** The [__main__] block: the exit code of a run that completes, or the
    exception that ends it. *)
Definition main (now_iso : pystr) (start_ns end_ns : Z) : res Z * state manager :=
  (report <- run_health_check start_ns end_ns ;;
   ret (exit_code report)) (mk_state (init now_iso) []).

End Checks.

(** ** Vocabulary for the properties *)

(** The overall status of the report in a state. *)
Definition status_of (s : state manager) : pystr :=
  overall_status (health_report (self s)).

Definition report_of (s : state manager) : HealthReport := health_report (self s).

(** The three levels, ordered by severity; any other string counts as the
    lowest. *)
Definition severity (status : pystr) : nat :=
  if str_eqb status (py "UNHEALTHY") then 2
  else if str_eqb status (py "WARNING") then 1
  else 0.

(** The three values the overall status is meant to take. *)
Definition valid_status (st : pystr) : Prop :=
  st = py "HEALTHY" \/ st = py "WARNING" \/ st = py "UNHEALTHY".

(** The object after [add_issue(message)] and after [add_warning(message)]. *)
Definition record_issue (message : pystr) (o : manager) : manager :=
  with_report o (set_status (py "UNHEALTHY") (append_issue message (health_report o))).

Definition record_warning (message : pystr) (o : manager) : manager :=
  with_report o
    ((if str_eqb (overall_status (health_report o)) (py "HEALTHY")
      then set_status (py "WARNING") else id)
       (append_warning message (health_report o))).

(** The lines the two operations print. *)
Definition issue_line (message : pystr) : event :=
  Print Stdout (py "  ❌ ISSUE: " ++ message).

Definition warning_line (message : pystr) : event :=
  Print Stdout (py "  ⚠️  WARNING: " ++ message).

(** The API server answered as a healthy one does. *)
Definition api_healthy (r : response) : Prop :=
  status_code r = 200 /\ strip (text r) = py "ok".

(** The lines [check_kubernetes_api] prints first and on success. *)
Definition api_banner : event :=
  Print Stdout (py "🎛️  Checking Kubernetes API Health...").

Definition api_ok_line : event := Print Stdout (py "  ✅ API Server - HEALTHY").

(** The messages and the line of the CPU check, lines 88-91. *)
Definition high_cpu {RT : PyRuntime} (instance : pystr) (p : float) : pystr :=
  py "High CPU usage on " ++ instance ++ py ": " ++ format_1f p ++ py "%".

Definition elevated_cpu {RT : PyRuntime} (instance : pystr) (p : float) : pystr :=
  py "Elevated CPU usage on " ++ instance ++ py ": " ++ format_1f p ++ py "%".

Definition cpu_line {RT : PyRuntime} (instance : pystr) (p : float) : event :=
  Print Stdout (py "  💾 " ++ instance ++ py " CPU: " ++ format_1f p ++ py "%").

(** The report only grows: issues and warnings are appended, never removed,
    and the configuration of the manager is left alone. *)
Definition grows (o o' : manager) : Prop :=
  issues (health_report o) `prefix_of` issues (health_report o')
  /\ warnings (health_report o) `prefix_of` warnings (health_report o')
  /\ cluster_nodes o' = cluster_nodes o
  /\ prometheus_url o' = prometheus_url o.

(** The banners and the per-node messages of the two up/down checks. *)
Definition node_banner : event := Print Stdout (py "🖥️  Checking Node Health...").
Definition cadvisor_banner : event := Print Stdout (py "🐳 Checking Container Metrics...").

Definition node_missing (node : pystr) : pystr := py "No metrics found for " ++ node.
Definition node_down (node : pystr) : pystr := py "Node exporter down on " ++ node.
Definition cadvisor_missing (node : pystr) : pystr := py "cAdvisor not reporting from " ++ node.
Definition cadvisor_down (node : pystr) : pystr := py "cAdvisor down on " ++ node.

(** No sample of the result set is about [node]. *)
Definition absent_from (node : pystr) (metrics : list pyval) : Prop :=
  Forall (fun metric => instance_of metric <> Return (PStr node)) metrics.

(** The backend answers [query] with status 200 and the parsed body [result]. *)
Definition answers (w : world) (o : manager) (query : pystr) (result : pyval) : Prop :=
  exists r, http_get w (prometheus_request o query) = Return r
            /\ status_code r = 200 /\ resp_json r = Return result.

(** The status that the findings of a report call for. *)
Definition expected_status (r : HealthReport) : pystr :=
  match issues r, warnings r with
  | _ :: _, _ => py "UNHEALTHY"
  | [], _ :: _ => py "WARNING"
  | [], [] => py "HEALTHY"
  end.

(** The status of the report agrees with its findings. *)
Definition consistent (o : manager) : Prop :=
  overall_status (health_report o) = expected_status (health_report o).

(** What the checks may do to the manager: append issues and warnings.
    The actions, the timestamp and the configuration stay as they are. *)
Definition appends_findings (o o' : manager) : Prop :=
  issues (health_report o) `prefix_of` issues (health_report o')
  /\ warnings (health_report o) `prefix_of` warnings (health_report o')
  /\ actions_taken (health_report o') = actions_taken (health_report o)
  /\ timestamp (health_report o') = timestamp (health_report o)
  /\ cluster_nodes o' = cluster_nodes o
  /\ prometheus_url o' = prometheus_url o
  /\ loki_url o' = loki_url o
  /\ k8s_api_url o' = k8s_api_url o.

(** What the log scan may do: append warnings, and with the first of them
    turn HEALTHY into WARNING. *)
Definition warns_only (o o' : manager) : Prop :=
  issues (health_report o') = issues (health_report o)
  /\ warnings (health_report o) `prefix_of` warnings (health_report o')
  /\ (overall_status (health_report o') = overall_status (health_report o)
      \/ overall_status (health_report o) = py "HEALTHY"
         /\ overall_status (health_report o') = py "WARNING").

(** The messages and the line of the memory check, lines 103-106. *)
Definition high_memory {RT : PyRuntime} (instance : pystr) (p : float) : pystr :=
  py "High memory usage on " ++ instance ++ py ": " ++ format_1f p ++ py "%".

Definition elevated_memory {RT : PyRuntime} (instance : pystr) (p : float) : pystr :=
  py "Elevated memory usage on " ++ instance ++ py ": " ++ format_1f p ++ py "%".

Definition memory_line {RT : PyRuntime} (instance : pystr) (p : float) : event :=
  Print Stdout (py "  🧠 " ++ instance ++ py " Memory: " ++ format_1f p ++ py "%").

(** The request of lines 176-185 for one pattern. *)
Definition loki_request (o : manager) (start_ns end_ns : Z) (pattern : pystr) : request :=
  {| req_url := loki_url o ++ py "/loki/api/v1/query_range";
     req_params :=
       [(py "query",
         PStr (py "{job=" ++ dquote ++ py "node_exporter" ++ dquote ++ py "} |~ "
               ++ dquote ++ pattern ++ dquote));
        (py "start", PInt start_ns); (py "end", PInt end_ns); (py "limit", PInt 10)];
     req_verify := true;
     req_timeout := 10 |}.

Definition logs_banner : event := Print Stdout (py "📜 Checking Critical Logs...").

(** The warning of line 192. *)
Definition found_entries (count : Z) (pattern : pystr) : pystr :=
  py "Found " ++ str_of_int count ++ py " critical log entries for pattern: " ++ pattern.

(** Line 190: [sum(len(stream['values']) for stream in streams)]. *)
Definition values_total (streams : list pyval) : res Z :=
  rfold streams 0 (fun acc stream =>
    values <~ getitem stream (py "values") ;;
    n <~ py_len values ;;
    Return (acc + n)).

(** The streams of a log answer: [data['data']['result']]. *)
Definition streams_of (data : pyval) : res pyval :=
  d <~ getitem data (py "data") ;;
  getitem d (py "result").

(** The number of entries an answer of the log backend holds, lines
    188-190; an answer without streams holds none. *)
Definition match_count (r : response) : res Z :=
  data <~ resp_json r ;;
  streams <~ streams_of data ;;
  if truthy streams then
    items <~ iter streams ;;
    values_total items
  else Return 0.

(** The lines that end a run, lines 226-242. *)
Definition bullet (item : pystr) : event := Print Stdout (py "   • " ++ item).

Definition summary_section (heading : pystr) (items : list pystr) : list event :=
  match items with
  | [] => []
  | _ => Print Stdout (nl ++ heading) :: List.map bullet items
  end.

Definition summary_of (r : HealthReport) : list event :=
  [Print Stdout (repeat_str (py "=") 60);
   Print Stdout (py "🎯 Overall Status: " ++ overall_status r)]
  ++ summary_section (py "❌ CRITICAL ISSUES:") (issues r)
  ++ summary_section (py "⚠️  WARNINGS:") (warnings r)
  ++ summary_section (py "🔧 ACTIONS TAKEN:") (actions_taken r).

(** An exception that is no [requests.RequestException]. *)
Definition not_transport (e : exn) : Prop := is_RequestException e = false.

(** One call of a mutation operation of the report. *)
Inductive mutation :=
| AddIssue (message : pystr)
| AddWarning (message : pystr)
| AddAction (message : pystr).

Definition mutate (op : mutation) : M manager unit :=
  match op with
  | AddIssue m => add_issue m
  | AddWarning m => add_warning m
  | AddAction m => add_action m
  end.

(** A sequence of such calls, in order. *)
Definition mutate_all (ops : list mutation) : M manager unit :=
  for_each ops tt (fun _ op => mutate op).

End K8sHealthManager.

(* ===================================================================== *)
(** * roles/cluster_health_reporter/files/generate_health_report.py       *)
(* ===================================================================== *)

Module ClusterHealthReporter.
Import Py Eff.
Local Open Scope py_scope.

(** ** The parts of [datetime] the script uses *)

Record datetime := {
  year : Z; month : Z; day : Z;
  hour : Z; minute : Z; second : Z; microsecond : Z
}.

Definition is_leap (y : Z) : bool :=
  (y mod 4 =? 0) && (negb (y mod 100 =? 0) || (y mod 400 =? 0)).

Definition days_in_month (y m : Z) : Z :=
  if m =? 2 then (if is_leap y then 29 else 28)
  else if (m =? 4) || (m =? 6) || (m =? 9) || (m =? 11) then 30
  else 31.

Definition days_before_month (y m : Z) : Z :=
  fold_left (fun acc k => acc + days_in_month y (Z.of_nat k)) (seq 1 (Z.to_nat m - 1)) 0.

Definition days_before_year (y : Z) : Z :=
  let y1 := y - 1 in y1 * 365 + y1 / 4 - y1 / 100 + y1 / 400.

(** [date.toordinal()]: day 1 is 0001-01-01. *)
Definition toordinal (y m d : Z) : Z :=
  days_before_year y + days_before_month y m + d.

(** [date.fromordinal(n)] *)
Definition fromordinal (n : Z) : Z * Z * Z :=
  let n := n - 1 in
  let n400 := n / 146097 in let n := n mod 146097 in
  let n100 := n / 36524 in let n := n mod 36524 in
  let n4 := n / 1461 in let n := n mod 1461 in
  let n1 := n / 365 in let n := n mod 365 in
  let y := n400 * 400 + 1 + n100 * 100 + n4 * 4 + n1 in
  if (n1 =? 4) || (n100 =? 4) then (y - 1, 12, 31)
  else
    let leapyear := (n1 =? 3) && (negb (n4 =? 24) || (n100 =? 3)) in
    let m := Z.shiftr (n + 50) 5 in
    let preceding :=
      days_before_month 1 m + (if (2 <? m) && leapyear then 1 else 0) in
    if n <? preceding then
      let m' := m - 1 in
      let preceding' :=
        preceding - (days_in_month 1 m' + (if (m' =? 2) && leapyear then 1 else 0)) in
      (y, m', n - preceding' + 1)
    else (y, m, n - preceding + 1).

(** [t - timedelta(days=n)] *)
Definition minus_days (t : datetime) (n : Z) : res datetime :=
  let o := toordinal (year t) (month t) (day t) - n in
  if (o <? 1) || (3652059 <? o)
  then Raise (mk_exn OverflowError (py "date value out of range"))
  else
    let '(y, m, d) := fromordinal o in
    Return {| year := y; month := m; day := d;
              hour := hour t; minute := minute t; second := second t;
              microsecond := microsecond t |}.

(** [t.strftime('%Y-%m-%d')], for the years of four digits a clock reads
    (for earlier years the padding of [%Y] depends on the platform). *)
Definition strftime_date (t : datetime) : pystr :=
  zero_pad 4 (year t) ++ py "-" ++ zero_pad 2 (month t) ++ py "-" ++ zero_pad 2 (day t).

(** [t.strftime('%Y-%m-%d %H:%M:%S')] *)
Definition strftime_datetime (t : datetime) : pystr :=
  strftime_date t ++ py " " ++ zero_pad 2 (hour t) ++ py ":" ++ zero_pad 2 (minute t)
  ++ py ":" ++ zero_pad 2 (second t).

(** ** The reporter

    The methods in the order of the script; [query_prometheus_range], which
    no method calls, [save_report] and [main] follow the others below. *)

Record reporter := {
  prometheus_url : pystr;
  report_type : pystr;
  timestamp : datetime
}.

(** [__init__]; [now] is the reading of [datetime.now()] at construction. *)
Definition init (url report_type : pystr) (now : datetime) : reporter :=
  {| prometheus_url := rstrip_char 0x2F%N url;
     report_type := report_type;
     timestamp := now |}.

(** The dicts the fact getters build, with their literal keys as fields. *)
Record node_entry := { node : pyval; status : pystr }.
Record usage_entry := { usage_node : pyval; value : float }.
Record alert_entry := { name : pyval; severity : pyval; summary : pyval; since : pyval }.

Definition empty_result : pyval :=
  PDict [(py "status", PStr (py "error")); (py "data", PDict [(py "result", PList [])])].

Definition node_query : pystr :=
  py "up{job=" ++ dquote ++ py "node-exporter" ++ dquote ++ py "}".

Definition usage_queries : list (pystr * pystr) :=
  [(py "cpu",
    py "100 - (avg by (instance) (irate(node_cpu_seconds_total{mode=" ++ dquote
    ++ py "idle" ++ dquote ++ py "}[5m])) * 100)");
   (py "memory",
    py "(1 - (node_memory_MemAvailable_bytes / node_memory_MemTotal_bytes)) * 100");
   (py "disk",
    py "(1 - (node_filesystem_avail_bytes{fstype!=" ++ dquote ++ py "tmpfs" ++ dquote
    ++ py "} / node_filesystem_size_bytes{fstype!=" ++ dquote ++ py "tmpfs" ++ dquote
    ++ py "})) * 100")].

Definition pod_queries : list (pystr * pystr) :=
  [(py "running",
    py "count(kube_pod_status_phase{phase=" ++ dquote ++ py "Running" ++ dquote ++ py "})");
   (py "pending",
    py "count(kube_pod_status_phase{phase=" ++ dquote ++ py "Pending" ++ dquote ++ py "})");
   (py "failed",
    py "count(kube_pod_status_phase{phase=" ++ dquote ++ py "Failed" ++ dquote ++ py "})");
   (py "total", py "count(kube_pod_info)")].

(** The dict literal of lines 176-180 read at [severity]. *)
Definition severity_emoji (severity : pyval) : res pystr :=
  match severity with
  | PStr s =>
    Return (if str_eqb s (py "critical") then py "🔴"
            else if str_eqb s (py "warning") then py "🟡"
            else if str_eqb s (py "info") then py "🔵"
            else py "⚪")
  | PList _ | PDict _ =>
    Raise (mk_exn TypeError (py "unhashable type: '" ++ type_name severity ++ py "'"))
  | _ => Return (py "⚪")
  end.

(** The marker line 232 appends. *)
Definition truncation_suffix : pystr := nl ++ py "... (truncated)".

(** [len(report) < 1990] and [report[:1990]], line 232. *)
Definition discord_content (report : pystr) : pystr :=
  if (length report <? 1990)%nat then report
  else firstn 1990 report ++ truncation_suffix.

(** Lines 24-28: [requests.get(f"{self.prometheus_url}/api/v1/query",
    params={'query': query}, timeout=30)]. *)
Definition prometheus_request (o : reporter) (query : pystr) : request :=
  {| req_url := prometheus_url o ++ py "/api/v1/query";
     req_params := [(py "query", PStr query)];
     req_verify := true;
     req_timeout := 30 |}.

(** Line 239: [requests.post(webhook_url, json=payload, timeout=10)]. *)
Definition webhook_request (webhook_url : pystr) : request :=
  {| req_url := webhook_url; req_params := []; req_verify := true; req_timeout := 10 |}.

(** Lines 234-236: the payload around the content. *)
Definition discord_payload (content : pystr) : pyval :=
  PDict [(py "content", PStr (py "```" ++ nl ++ content ++ nl ++ py "```"))].

Section Reporter.
Context {RT : PyRuntime}.
Variable w : world.

Definition query_prometheus (query : pystr) : M reporter pyval :=
  try_except
    (o <- get_self ;;
     response <- requests_get w (prometheus_request o query) ;;
     raise_for_status response ;;
     lift (resp_json response))
    is_Exception
    (fun e =>
       eprint (py "Error querying Prometheus: " ++ exn_str e) ;;
       ret empty_result).

(** [result.get('data', {}).get('result', [])] *)
Definition result_rows (result : pyval) : res pyval :=
  data <~ dict_get result (py "data") (PDict []) ;;
  dict_get data (py "result") (PList []).

(** [item['metric'].get('instance', 'unknown')] *)
Definition item_node (item : pyval) : res pyval :=
  m <~ getitem item (py "metric") ;;
  dict_get m (py "instance") (PStr (py "unknown")).

(** [item['value'][1]] *)
Definition item_value (item : pyval) : res pyval :=
  v <~ getitem item (py "value") ;;
  getindex v 1.

(** Lines 60-62, the body of the loop of [get_node_status]. *)
Definition node_entry_of (item : pyval) : res node_entry :=
  node <~ item_node item ;;
  v1 <~ item_value item ;;
  let status := if eq_str v1 (py "1") then py "UP" else py "DOWN" in
  Return {| node := node; status := status |}.

Definition node_entries (result : pyval) : res (list node_entry) :=
  rows <~ result_rows result ;;
  items <~ iter rows ;;
  rfold items [] (fun nodes item =>
    e <~ node_entry_of item ;;
    Return (nodes ++ [e])).

Definition get_node_status : M reporter (list node_entry) :=
  result <- query_prometheus node_query ;;
  lift (node_entries result).

(** Lines 79-82, the body of the inner loop of [get_resource_usage]. *)
Definition usage_entry_of (item : pyval) : res usage_entry :=
  node <~ item_node item ;;
  v1 <~ item_value item ;;
  x <~ py_float v1 ;;
  Return {| usage_node := node; value := x |}.

Definition usage_entries (result : pyval) : res (list usage_entry) :=
  rows <~ result_rows result ;;
  items <~ iter rows ;;
  rfold items [] (fun entries item =>
    e <~ usage_entry_of item ;;
    Return (entries ++ [e])).

Definition get_resource_usage : M reporter (list (pystr * list usage_entry)) :=
  for_each usage_queries [] (fun usage mq =>
    result <- query_prometheus (snd mq) ;;
    entries <- lift (usage_entries result) ;;
    ret (usage ++ [(fst mq, entries)])).

(** Lines 98-99: [int(value[0]['value'][1]) if value else 0]. *)
Definition pod_count (result : pyval) : res Z :=
  value <~ result_rows result ;;
  if truthy value then
    v0 <~ getindex value 0 ;;
    v1 <~ item_value v0 ;;
    py_int v1
  else Return 0.

Definition get_pod_status : M reporter (gmap pystr Z) :=
  for_each pod_queries ∅ (fun status pq =>
    result <- query_prometheus (snd pq) ;;
    n <- lift (pod_count result) ;;
    ret (<[fst pq := n]> status)).

(** Lines 115-121, the body of the loop of [get_alerts]. *)
Definition alert_step (alerts : list alert_entry) (alert : pyval) : res (list alert_entry) :=
  st <~ dict_get alert (py "state") PNone ;;
  if eq_str st (py "firing") then
    labels <~ dict_get alert (py "labels") (PDict []) ;;
    name <~ dict_get labels (py "alertname") (PStr (py "Unknown")) ;;
    labels' <~ dict_get alert (py "labels") (PDict []) ;;
    severity <~ dict_get labels' (py "severity") (PStr (py "info")) ;;
    annotations <~ dict_get alert (py "annotations") (PDict []) ;;
    summary <~ dict_get annotations (py "summary") (PStr []) ;;
    since <~ dict_get alert (py "activeAt") (PStr []) ;;
    Return (alerts ++ [{| name := name; severity := severity;
                          summary := summary; since := since |}])
  else Return alerts.

Definition alert_entries (data : pyval) : res (list alert_entry) :=
  d <~ dict_get data (py "data") (PDict []) ;;
  al <~ dict_get d (py "alerts") (PList []) ;;
  items <~ iter al ;;
  rfold items [] alert_step.

Definition get_alerts : M reporter (list alert_entry) :=
  try_except
    (o <- get_self ;;
     response <- requests_get w
       {| req_url := prometheus_url o ++ py "/api/v1/alerts";
          req_params := [];
          req_verify := true;
          req_timeout := 30 |} ;;
     raise_for_status response ;;
     data <- lift (resp_json response) ;;
     lift (alert_entries data))
    is_Exception
    (fun e =>
       eprint (py "Error getting alerts: " ++ exn_str e) ;;
       ret []).

(** ** Rendering: lines 136-186, from the gathered facts to the lines *)

Definition node_line (n : node_entry) : pystr :=
  let status_emoji := if str_eqb (status n) (py "UP") then py "✅" else py "❌" in
  py "  " ++ status_emoji ++ py " " ++ py_str (node n) ++ py ": " ++ status n.

Definition usage_line (item : usage_entry) : pystr :=
  let emoji :=
    if PrimFloat.ltb (value item) 70 then py "🟢"
    else if PrimFloat.ltb (value item) 85 then py "🟡"
    else py "🔴" in
  py "  " ++ emoji ++ py " " ++ py_str (usage_node item) ++ py ": "
  ++ format_1f (value item) ++ py "%".

Definition usage_section (md : pystr * list usage_entry) : list pystr :=
  [py "### " ++ upper (fst md)] ++ List.map usage_line (snd md) ++ [[]].

Definition pod_section (pods : gmap pystr Z) : list pystr :=
  let total := default 0 (pods !! py "total") in
  let running := default 0 (pods !! py "running") in
  let pending := default 0 (pods !! py "pending") in
  let failed := default 0 (pods !! py "failed") in
  [py "## Pod Status";
   py "  Total: " ++ str_of_int total;
   py "  Running: " ++ str_of_int running;
   py "  Pending: " ++ str_of_int pending;
   py "  Failed: " ++ str_of_int failed;
   []].

Definition alert_line (a : alert_entry) : res pystr :=
  e <~ severity_emoji (severity a) ;;
  Return (py "  " ++ e ++ py " " ++ py_str (name a) ++ py ": " ++ py_str (summary a)).

Definition alert_lines (alerts : list alert_entry) : res (list pystr) :=
  rfold alerts [] (fun ls a =>
    l <~ alert_line a ;;
    Return (ls ++ [l])).

Definition daily_lines (stamp : datetime) (nodes : list node_entry)
    (usage : list (pystr * list usage_entry)) (pods : gmap pystr Z)
    (alerts : list alert_entry) : res (list pystr) :=
  let head :=
    [repeat_str (py "=") 60;
     py "Kubernetes Cluster Health Report - Daily";
     py "Generated: " ++ strftime_datetime stamp;
     repeat_str (py "=") 60;
     []] in
  let node_part := [py "## Node Status"] ++ List.map node_line nodes ++ [[]] in
  let usage_part := [py "## Resource Usage"] ++ List.concat (List.map usage_section usage) in
  als <~ match alerts with
         | [] => Return [py "  ✅ No active alerts"]
         | _ => alert_lines alerts
         end ;;
  Return (head ++ node_part ++ usage_part ++ pod_section pods
          ++ [py "## Active Alerts"] ++ als ++ [[]]
          ++ [repeat_str (py "=") 60]).

Definition generate_daily_report : M reporter pystr :=
  nodes <- get_node_status ;;
  usage <- get_resource_usage ;;
  pods <- get_pod_status ;;
  alerts <- get_alerts ;;
  o <- get_self ;;
  report <- lift (daily_lines (timestamp o) nodes usage pods alerts) ;;
  ret (join nl report).

(** [now] is the reading of [datetime.now()] at line 193. *)
Definition generate_weekly_report (now : datetime) : M reporter pystr :=
  let end_time := now in
  start_time <- lift (minus_days end_time 7) ;;
  let head :=
    [repeat_str (py "=") 60;
     py "Kubernetes Cluster Health Report - Weekly";
     py "Period: " ++ strftime_date start_time ++ py " to " ++ strftime_date end_time;
     repeat_str (py "=") 60;
     []] in
  daily <- generate_daily_report ;;
  ret (join nl
         (head ++ [daily; []]
          ++ [py "## Weekly Summary";
              py "  - Average uptime: Check Prometheus for detailed metrics";
              py "  - Resource trends: See Grafana dashboards";
              py "  - Incident summary: Review alert history";
              []]
          ++ [repeat_str (py "=") 60])).

Definition send_to_discord (report webhook_url : pystr) : M reporter unit :=
  if bool_decide (webhook_url = []) then
    print (py "Discord webhook not configured, skipping notification")
  else
    let content := discord_content report in
    let payload := discord_payload content in
    try_except
      (response <- requests_post w (webhook_request webhook_url) payload ;;
       raise_for_status response ;;
       print (py "Report sent to Discord successfully"))
      is_Exception
      (fun e => eprint (py "Error sending to Discord: " ++ exn_str e)).

End Reporter.

(** ** The range query

    Lines 35-52.  No method calls it.  [start_ts] and [end_ts] are what
    [start.timestamp()] and [end.timestamp()] give, evaluated inside the
    [try] when the arguments of [requests.get] are built. *)

Definition range_step (o : reporter) : pystr :=
  if str_eqb (report_type o) (py "daily") then py "1h" else py "1d".

Definition range_request (o : reporter) (query : pystr) (start_ts end_ts : float) : request :=
  {| req_url := prometheus_url o ++ py "/api/v1/query_range";
     req_params := [(py "query", PStr query); (py "start", PFloat start_ts);
                    (py "end", PFloat end_ts); (py "step", PStr (range_step o))];
     req_verify := true;
     req_timeout := 30 |}.

Definition query_prometheus_range (w : world) (query : pystr) (start_ts end_ts : res float)
    : M reporter pyval :=
  try_except
    (o <- get_self ;;
     a <- lift start_ts ;;
     b <- lift end_ts ;;
     response <- requests_get w (range_request o query a b) ;;
     raise_for_status response ;;
     lift (resp_json response))
    is_Exception
    (fun e =>
       eprint (py "Error querying Prometheus range: " ++ exn_str e) ;;
       ret empty_result).

(** ** Saving the report, and the command line

    The file system is given by its answers, as the network is:
    [makedirs path] is the outcome of [os.makedirs(path, exist_ok=True)],
    and [write_file path text] the outcome of opening [path] for writing,
    writing [text] and closing. *)

Record filesystem := {
  makedirs : pystr -> res unit;
  write_file : pystr -> pystr -> res unit
}.

(** [os.path.dirname] of [posixpath]: the part up to the last slash, with
    its trailing slashes dropped unless it is made of slashes only. *)
Fixpoint drop_until (ch : N) (s : pystr) : pystr :=
  match s with
  | [] => []
  | c :: r => if (c =? ch)%N then s else drop_until ch r
  end.

Definition dirname (p : pystr) : pystr :=
  let head := rev (drop_until 0x2F%N (rev p)) in
  if negb (Nat.eqb (length head) 0) && negb (forallb (N.eqb 0x2F%N) head)
  then rstrip_char 0x2F%N head
  else head.

(** Lines 218-223. *)
Definition save_report (fs : filesystem) (report output_path : pystr) : M reporter unit :=
  lift (makedirs fs (dirname output_path)) ;;
  lift (write_file fs output_path report) ;;
  print (py "Report saved to: " ++ output_path).

(** What [parser.parse_args()] returns, lines 246-256. *)
Record arguments := {
  arg_type : pystr;
  arg_prometheus_url : pystr;
  arg_output : pystr;
  arg_discord_webhook : pystr
}.

(** Lines 258-266, [main] after the arguments are parsed.  [now] is the
    reading of the clock when the reporter is made, [now_weekly] the one at
    line 193. *)
Definition main {RT : PyRuntime} (w : world) (fs : filesystem) (args : arguments)
    (now now_weekly : datetime) : res unit * state reporter :=
  (report <- (if str_eqb (arg_type args) (py "daily")
              then generate_daily_report w
              else generate_weekly_report w now_weekly) ;;
   save_report fs report (arg_output args) ;;
   send_to_discord w report (arg_discord_webhook args))
    (mk_state (init (arg_prometheus_url args) (arg_type args) now) []).

(** ** Vocabulary for the properties *)

(** Lines 106-109: [requests.get(f"{self.prometheus_url}/api/v1/alerts",
    timeout=30)]. *)
Definition alerts_request (o : reporter) : request :=
  {| req_url := prometheus_url o ++ py "/api/v1/alerts";
     req_params := [];
     req_verify := true;
     req_timeout := 30 |}.

(** The request gets no usable answer: the transport raises, or the status
    is one that [raise_for_status] raises on. *)
Definition fails (w : world) (rq : request) : Prop :=
  match http_get w rq with
  | Raise _ => True
  | Return r => status_error r <> None
  end.

(** An answer of the alerts endpoint with the alerts [items]. *)
Definition alerts_answer (items : list pyval) : pyval :=
  PDict [(py "status", PStr (py "success")); (py "data", PDict [(py "alerts", PList items)])].

(** The entry of a firing alert with the labels [labels] and the
    annotations [annotations], lines 116-121. *)
Definition firing_entry (labels annotations : list (pystr * pyval)) (active_at : option pyval)
    : alert_entry :=
  {| name := default (PStr (py "Unknown")) (assoc (py "alertname") labels);
     severity := default (PStr (py "info")) (assoc (py "severity") labels);
     summary := default (PStr []) (assoc (py "summary") annotations);
     since := default (PStr []) active_at |}.

(** The facts and the report of a cluster about which nothing is known. *)
Definition no_usage : list (pystr * list usage_entry) :=
  [(py "cpu", []); (py "memory", []); (py "disk", [])].

Definition no_pods : gmap pystr Z :=
  <[py "total" := 0]> (<[py "failed" := 0]> (<[py "pending" := 0]> (<[py "running" := 0]> ∅))).

Definition empty_report (stamp : datetime) : pystr :=
  join nl
    [repeat_str (py "=") 60;
     py "Kubernetes Cluster Health Report - Daily";
     py "Generated: " ++ strftime_datetime stamp;
     repeat_str (py "=") 60;
     [];
     py "## Node Status";
     [];
     py "## Resource Usage";
     py "### CPU"; [];
     py "### MEMORY"; [];
     py "### DISK"; [];
     py "## Pod Status";
     py "  Total: 0";
     py "  Running: 0";
     py "  Pending: 0";
     py "  Failed: 0";
     [];
     py "## Active Alerts";
     py "  ✅ No active alerts";
     [];
     repeat_str (py "=") 60].

(** Two clock readings on the same day. *)
Definition same_date (t1 t2 : datetime) : Prop :=
  year t1 = year t2 /\ month t1 = month t2 /\ day t1 = day t2.

(** The text a run returned holds [p]. *)
Definition returned_text_has (p : pystr) (r : res pystr) : bool :=
  match r with
  | Return text => contains p text
  | Raise _ => false
  end.

End ClusterHealthReporter.

(* ===================================================================== *)
(** * A runtime for concrete runs                                         *)
(* ===================================================================== *)

(** One instance of [PyRuntime], used to evaluate the scripts on concrete
    inputs.  It follows CPython on the fragment described at each function;
    the general statements below hold for every instance. *)
Module Runtime.
Import Py.

Definition digit_of (c : N) : option Z :=
  if (0x30 <=? c)%N && (c <=? 0x39)%N then Some (Z.of_N c - 0x30) else None.

(** ASCII digits to a number and the count of digits read; [None] on an
    empty string or on any other character. *)
Fixpoint digits_value (s : pystr) (acc : Z) (n : nat) : option (Z * nat) :=
  match s with
  | [] => if Nat.eqb n 0 then None else Some (acc, n)
  | c :: r =>
    match digit_of c with
    | Some d => digits_value r (acc * 10 + d) (S n)
    | None => None
    end
  end.

Definition split_sign (s : pystr) : bool * pystr :=
  match s with
  | 0x2D%N :: r => (true, r)
  | 0x2B%N :: r => (false, r)
  | _ => (false, s)
  end.

Definition invalid_int (s : pystr) : exn :=
  mk_exn ValueError (py "invalid literal for int() with base 10: '" ++ s ++ py "'").

(** [int(s)] for [s] made of optional surrounding whitespace, an optional
    sign and ASCII digits; [int] of an [int] or a [bool]; [int(x)] for a
    [float] truncates toward zero. *)
Definition int_of (v : pyval) : res Z :=
  match v with
  | PStr s =>
    let '(neg, body) := split_sign (strip s) in
    match digits_value body 0 0 with
    | Some (z, _) => Return (if neg then - z else z)
    | None => Raise (invalid_int s)
    end
  | PInt z => Return z
  | PBool b => Return (if b then 1 else 0)
  | PFloat f =>
    match Prim2SF f with
    | S754_zero _ => Return 0
    | S754_finite sg m e =>
      let a := match e with
               | Z0 => Zpos m
               | Zpos p => Zpos m * 2 ^ Zpos p
               | Zneg p => Zpos m / 2 ^ Zpos p
               end in
      Return (if sg then - a else a)
    | S754_infinity _ =>
      Raise (mk_exn OverflowError (py "cannot convert float infinity to integer"))
    | S754_nan => Raise (mk_exn ValueError (py "cannot convert float NaN to integer"))
    end
  | _ =>
    Raise (mk_exn TypeError
             (py "int() argument must be a string, a bytes-like object or a real number, not '"
              ++ type_name v ++ py "'"))
  end.

(** The double nearest to the integer [z], for [|z| < 2^53] (exact). *)
Definition float_of_small (z : Z) : float :=
  match z with
  | Z0 => 0%float
  | Zpos _ => PrimFloat.of_uint63 (Uint63.of_Z z)
  | Zneg p => PrimFloat.opp (PrimFloat.of_uint63 (Uint63.of_Z (Zpos p)))
  end.

Fixpoint split_at (ch : N) (s : pystr) : pystr * option pystr :=
  match s with
  | [] => ([], None)
  | c :: r =>
    if (c =? ch)%N then ([], Some r)
    else let '(a, b) := split_at ch r in (c :: a, b)
  end.

Definition invalid_float (s : pystr) : exn :=
  mk_exn ValueError (py "could not convert string to float: '" ++ s ++ py "'").

(** [float(s)] for a plain decimal [s] (sign, digits, optional point and
    digits) of at most 15 significant digits and at most 18 decimals: both
    the digits and the power of ten are exact doubles, so their correctly
    rounded quotient is the correctly rounded value.  Other spellings are
    outside this instance. *)
Definition float_of (v : pyval) : res float :=
  match v with
  | PStr s =>
    let '(neg, body) := split_sign (strip s) in
    let '(ip, fp) := split_at 0x2E%N body in
    let frac := match fp with Some f => f | None => [] end in
    match digits_value (ip ++ frac) 0 0 with
    | Some (m, n) =>
      if (m <? 10 ^ 15) && (length frac <=? 18)%nat then
        let q := PrimFloat.div (float_of_small m)
                               (float_of_small (10 ^ Z.of_nat (length frac))) in
        Return (if neg then PrimFloat.opp q else q)
      else Raise (invalid_float s)
    | None => Raise (invalid_float s)
    end
  | PFloat f => Return f
  | PInt z =>
    if Z.abs z <? 2 ^ 53 then Return (float_of_small z)
    else Raise (mk_exn OverflowError (py "int too large to convert to float"))
  | PBool b => Return (if b then 1%float else 0%float)
  | _ =>
    Raise (mk_exn TypeError
             (py "float() argument must be a string or a real number, not '"
              ++ type_name v ++ py "'"))
  end.

(** [format(x, '.1f')]: the exact value of the double rounded to one
    decimal, ties to even. *)
Definition fmt_1f (x : float) : pystr :=
  match Prim2SF x with
  | S754_zero sg => (if sg then py "-" else []) ++ py "0.0"
  | S754_infinity sg => (if sg then py "-" else []) ++ py "inf"
  | S754_nan => py "nan"
  | S754_finite sg m e =>
    let '(num, den) := match e with
                       | Z0 => (Zpos m * 10, 1)
                       | Zpos p => (Zpos m * 2 ^ Zpos p * 10, 1)
                       | Zneg p => (Zpos m * 10, 2 ^ Zpos p)
                       end in
    let q := num / den in
    let r := num mod den in
    let t := if (den <? 2 * r) || ((2 * r =? den) && Z.odd q) then q + 1 else q in
    (if sg then py "-" else []) ++ str_of_int (t / 10) ++ py "." ++ str_of_int (t mod 10)
  end.

(** [str(v)] for [None], a [bool] and an [int]; containers and floats are
    outside this instance. *)
Definition str_of (v : pyval) : pystr :=
  match v with
  | PNone => py "None"
  | PBool b => if b then py "True" else py "False"
  | PInt z => str_of_int z
  | PStr s => s
  | _ => py "..."
  end.

#[export] Instance cpython : PyRuntime :=
  {| py_int := int_of; py_float := float_of; format_1f := fmt_1f; str_other := str_of |}.

End Runtime.

(* ===================================================================== *)
(** * Concrete backends and inputs                                        *)
(* ===================================================================== *)

Module Scenarios.
Import Py Eff.

(** One row of an instant-query result:
    [{"metric": {"instance": i}, "value": [ts, v]}]. *)
Definition sample (instance v : string) : pyval :=
  PDict [(py "metric", PDict [(py "instance", PStr (py instance))]);
         (py "value", PList [PInt 1762214400; PStr (py v)])].

(** [{"status": "success", "data": {"resultType": "vector", "result": rows}}] *)
Definition vector (rows : list pyval) : pyval :=
  PDict [(py "status", PStr (py "success"));
         (py "data", PDict [(py "resultType", PStr (py "vector"));
                            (py "result", PList rows)])].

Definition ok_response (rq : request) (body : pyval) : response :=
  {| status_code := 200; reason := py "OK"; resp_url := req_url rq;
     text := []; resp_json := Return body |}.

Definition ok_json (rq : request) (body : pyval) : res response :=
  Return (ok_response rq body).

Definition ok_text (rq : request) (body : pystr) : res response :=
  Return {| status_code := 200; reason := py "OK"; resp_url := req_url rq;
            text := body;
            resp_json := Raise (mk_exn RequestException
                                  (py "Expecting value: line 1 column 1 (char 0)")) |}.

Definition server_error (rq : request) : res response :=
  Return {| status_code := 500; reason := py "Internal Server Error";
            resp_url := req_url rq; text := [];
            resp_json := Raise (mk_exn RequestException
                                  (py "Expecting value: line 1 column 1 (char 0)")) |}.

Definition unreachable : res response :=
  Raise (mk_exn RequestException (py "Connection refused")).

(** The [query] parameter of a request, when it has one. *)
Definition query_of (rq : request) : pystr :=
  match assoc (py "query") (req_params rq) with
  | Some (PStr q) => q
  | _ => []
  end.

Definition ends_with (s suffix : pystr) : bool := starts_with (rev suffix) (rev s).

(** A backend that answers each instant query from a table and every other
    request by [other]. *)
Definition table_world (table : list (pystr * res pyval))
    (other : request -> res response) : world :=
  {| http_get := fun rq =>
       if ends_with (req_url rq) (py "/api/v1/query") then
         match assoc (query_of rq) table with
         | Some (Return body) => ok_json rq body
         | Some (Raise e) => Raise e
         | None => other rq
         end
       else other rq;
     http_post := fun rq _ =>
       Return {| status_code := 204; reason := py "No Content"; resp_url := req_url rq;
                 text := []; resp_json := Raise (mk_exn RequestException []) |} |}.

(** Every request is refused. *)
Definition down_world : world :=
  {| http_get := fun _ => unreachable; http_post := fun _ _ => unreachable |}.

(** Every request is answered with status 500. *)
Definition error_world : world :=
  {| http_get := server_error; http_post := fun rq _ => server_error rq |}.

(** ** For the health check *)

Definition up_node_exporter : pystr := py "up{job='node_exporter'}".
Definition up_cadvisor : pystr := py "up{job='cadvisor'}".

Definition healthz_ok (rq : request) : res response :=
  if ends_with (req_url rq) (py "/healthz") then ok_text rq (py "ok" ++ nl)
  else ok_json rq (vector []).

(** The CPU query returns one sample, at exactly 90.0. *)
Definition cpu_at_90 : world :=
  table_world
    [(K8sHealthManager.cpu_query, Return (vector [sample "kube501.home" "90.0"]));
     (K8sHealthManager.memory_query, Return (vector []))]
    (fun _ => unreachable).

(** Three of the four nodes report up, ["kube511.home"] reports nothing. *)
Definition three_up : list pyval :=
  [sample "kube501.home" "1"; sample "kube502.home" "1"; sample "kube503.home" "1"].

Definition one_absent : world :=
  table_world
    [(up_node_exporter, Return (vector three_up));
     (up_cadvisor, Return (vector three_up));
     (K8sHealthManager.cpu_query, Return (vector [sample "kube501.home" "12.5"]));
     (K8sHealthManager.memory_query, Return (vector [sample "kube501.home" "40.25"]))]
    healthz_ok.

(** Three nodes report up and ["kube511.home"] reports nothing, as in
    [one_absent]; here the CPU query has a sample of 95 for that node. *)
Definition absent_and_busy : world :=
  table_world
    [(up_node_exporter, Return (vector three_up));
     (up_cadvisor, Return (vector three_up));
     (K8sHealthManager.cpu_query, Return (vector [sample "kube511.home" "95.0"]));
     (K8sHealthManager.memory_query, Return (vector []))]
    healthz_ok.

(** The same, with a CPU sample whose value is no number. *)
Definition absent_and_unreadable : world :=
  table_world
    [(up_node_exporter, Return (vector three_up));
     (up_cadvisor, Return (vector three_up));
     (K8sHealthManager.cpu_query, Return (vector [sample "kube501.home" "n/a"]));
     (K8sHealthManager.memory_query, Return (vector []))]
    healthz_ok.

(** One up/down sample carries the value 0.5. *)
Definition half_up : world :=
  table_world
    [(up_node_exporter, Return (vector [sample "kube501.home" "0.5"]));
     (up_cadvisor, Return (vector [sample "kube501.home" "0.5"]))]
    healthz_ok.

(** The dict the up/down loop builds from [three_up]. *)
Definition three_up_status : gmap pystr bool :=
  <[py "kube503.home" := true]>
    (<[py "kube502.home" := true]> (<[py "kube501.home" := true]> ∅)).

Definition now_iso : pystr := py "2026-11-04T09:30:00.000000".

Definition manager0 : state K8sHealthManager.manager :=
  mk_state (K8sHealthManager.init now_iso) [].

(** Prometheus answers every query with status 500; the API server and the
    log backend are healthy. *)
Definition metrics_unavailable : world :=
  {| http_get := fun rq =>
       if ends_with (req_url rq) (py "/api/v1/query") then server_error rq
       else healthz_ok rq;
     http_post := fun rq _ => server_error rq |}.

(** All four nodes report; ["kube502.home"] reports down, after an earlier
    sample that had it up. *)
Definition one_down_samples : list pyval :=
  [sample "kube501.home" "1"; sample "kube502.home" "1"; sample "kube503.home" "1";
   sample "kube502.home" "0"; sample "kube511.home" "1"].

Definition one_down : world :=
  table_world
    [(up_node_exporter, Return (vector one_down_samples));
     (up_cadvisor, Return (vector one_down_samples));
     (K8sHealthManager.cpu_query, Return (vector []));
     (K8sHealthManager.memory_query, Return (vector []))]
    healthz_ok.

(** The dict the up/down loop builds from [one_down_samples]. *)
Definition one_down_status : gmap pystr bool :=
  <[py "kube511.home" := true]>
    (<[py "kube502.home" := false]>
       (<[py "kube503.home" := true]>
          (<[py "kube502.home" := true]> (<[py "kube501.home" := true]> ∅)))).

(** A log backend that answers every query with two streams, of two
    entries and of one. *)
Definition log_entry (line : string) : pyval :=
  PList [PStr (py "1762214400000000000"); PStr (py line)].

Definition two_streams : pyval :=
  PDict [(py "status", PStr (py "success"));
         (py "data",
          PDict [(py "resultType", PStr (py "streams"));
                 (py "result",
                  PList [PDict [(py "stream", PDict [(py "job", PStr (py "node_exporter"))]);
                                (py "values", PList [log_entry "kubelet sync failed";
                                                     log_entry "kubelet probe failed"])];
                         PDict [(py "stream", PDict []);
                                (py "values", PList [log_entry "etcd error"])]])])].

Definition noisy_logs : world :=
  {| http_get := fun rq =>
       if ends_with (req_url rq) (py "/loki/api/v1/query_range") then ok_json rq two_streams
       else healthz_ok rq;
     http_post := fun _ _ => unreachable |}.

(** ** For the reporter *)

Definition alerts_body : pyval :=
  PDict [(py "status", PStr (py "success"));
         (py "data", PDict [(py "alerts", PList [
            PDict [(py "state", PStr (py "firing"));
                   (py "labels", PDict [(py "alertname", PStr (py "KubeNodeNotReady"));
                                        (py "severity", PStr (py "critical"))]);
                   (py "annotations", PDict [(py "summary", PStr (py "Node is not ready"))]);
                   (py "activeAt", PStr (py "2026-11-04T08:00:00Z"))];
            PDict [(py "state", PStr (py "pending"));
                   (py "labels", PDict [(py "alertname", PStr (py "DiskPressure"))])]])])].

Definition count_row (v : string) : pyval :=
  PDict [(py "metric", PDict []); (py "value", PList [PInt 1762214400; PStr (py v)])].

Definition lookup_query (k : string) (qs : list (pystr * pystr)) : pystr :=
  match assoc (py k) qs with
  | Some q => q
  | None => []
  end.

(** Two nodes, one usage sample per metric, pod counts 8, 1, 0 and 9, one
    firing alert. *)
Definition busy_cluster : world :=
  table_world
    [(ClusterHealthReporter.node_query,
      Return (vector [sample "kube501.home:9100" "1"; sample "kube502.home:9100" "0"]));
     (lookup_query "cpu" ClusterHealthReporter.usage_queries,
      Return (vector [sample "kube501.home:9100" "69.96"]));
     (lookup_query "memory" ClusterHealthReporter.usage_queries,
      Return (vector [sample "kube501.home:9100" "70.0"]));
     (lookup_query "disk" ClusterHealthReporter.usage_queries,
      Return (vector [sample "kube501.home:9100" "85.0"]));
     (lookup_query "running" ClusterHealthReporter.pod_queries,
      Return (vector [count_row "8"]));
     (lookup_query "pending" ClusterHealthReporter.pod_queries,
      Return (vector [count_row "1"]));
     (lookup_query "failed" ClusterHealthReporter.pod_queries,
      Return (vector [count_row "0"]));
     (lookup_query "total" ClusterHealthReporter.pod_queries,
      Return (vector [count_row "9"]))]
    (fun rq => ok_json rq alerts_body).

Definition at_time (y mo d h mi s : Z) : ClusterHealthReporter.datetime :=
  {| ClusterHealthReporter.year := y; ClusterHealthReporter.month := mo;
     ClusterHealthReporter.day := d; ClusterHealthReporter.hour := h;
     ClusterHealthReporter.minute := mi; ClusterHealthReporter.second := s;
     ClusterHealthReporter.microsecond := 0 |}.

Definition reporter0 : state ClusterHealthReporter.reporter :=
  mk_state
    (ClusterHealthReporter.init (py "http://prometheus.home/") (py "weekly")
       (at_time 2026 11 3 23 59 58))
    [].

(** One firing alert that is well formed, and one whose labels are null. *)
Definition firing_alert : pyval :=
  PDict [(py "state", PStr (py "firing"));
         (py "labels", PDict [(py "alertname", PStr (py "KubeNodeNotReady"));
                              (py "severity", PStr (py "critical"))]);
         (py "annotations", PDict [(py "summary", PStr (py "Node is not ready"))]);
         (py "activeAt", PStr (py "2026-11-04T08:00:00Z"))].

Definition pending_alert : pyval :=
  PDict [(py "state", PStr (py "pending"));
         (py "labels", PDict [(py "alertname", PStr (py "DiskPressure"))])].

Definition null_labels_alert : pyval :=
  PDict [(py "state", PStr (py "firing")); (py "labels", PNone)].

Definition bare_alert : pyval := PDict [(py "state", PStr (py "firing"))].

Definition broken_alert : world :=
  table_world []
    (fun rq => ok_json rq (ClusterHealthReporter.alerts_answer
                             [firing_alert; null_labels_alert])).

(** The node query is answered with one row that has no value. *)
Definition row_without_value : pyval :=
  PDict [(py "metric", PDict [(py "instance", PStr (py "kube501.home:9100"))])].

Definition broken_rows : world :=
  table_world [(ClusterHealthReporter.node_query, Return (vector [row_without_value]))]
    (fun rq => ok_json rq (vector [])).

(** The pod counts of the scenario. *)
Definition pods_8_1_0_9 : gmap pystr Z :=
  <[py "running" := 8]> (<[py "pending" := 1]> (<[py "failed" := 0]> (<[py "total" := 9]> ∅))).

(** A report of exactly 1990 characters. *)
Definition report_1990 : pystr := List.repeat 0x61%N 1990.

Definition webhook : pystr := py "https://discord.example/api/webhooks/1/token".

(** A disk on which every directory can be made and every file written;
    as [os.makedirs] does, it refuses the empty path. *)
Definition no_such_file : exn :=
  mk_exn OtherException (py "[Errno 2] No such file or directory: ''").

Definition plain_disk : ClusterHealthReporter.filesystem :=
  {| ClusterHealthReporter.makedirs := fun path =>
       if Nat.eqb (length path) 0 then Raise no_such_file else Return tt;
     ClusterHealthReporter.write_file := fun _ _ => Return tt |}.

Definition daily_to (output : string) : ClusterHealthReporter.arguments :=
  {| ClusterHealthReporter.arg_type := py "daily";
     ClusterHealthReporter.arg_prometheus_url := py "http://prometheus.home/";
     ClusterHealthReporter.arg_output := py output;
     ClusterHealthReporter.arg_discord_webhook := webhook |}.

End Scenarios.

(* ===================================================================== *)
(** * Reasoning about computations                                        *)
(* ===================================================================== *)

Module Reasoning.
Import Py Eff.

Lemma str_eqb_eq (a b : pystr) : str_eqb a b = true <-> a = b.
Proof. unfold str_eqb. apply bool_decide_eq_true. Qed.

Section Steps.
Context {O : Type} (R : O -> O -> Prop) `{!PreOrder R}.

Lemma steps_ret {A} (a : A) : steps R (ret a).
Proof. intros s. reflexivity. Qed.

Lemma steps_raise {A} e : steps R (@raise O A e).
Proof. intros s. reflexivity. Qed.

Lemma steps_lift {A} (r : res A) : steps R (lift r).
Proof. intros s. reflexivity. Qed.

Lemma steps_get_self : steps R get_self.
Proof. intros s. reflexivity. Qed.

Lemma steps_emit ev : steps R (emit ev).
Proof. intros s. reflexivity. Qed.

Lemma steps_bind {A B} (m : M O A) (k : A -> M O B) :
  steps R m -> (forall a, steps R (k a)) -> steps R (bind m k).
Proof.
  intros Hm Hk s. unfold bind. specialize (Hm s).
  destruct (m s) as [[a|e] s1]; simpl in *; [|assumption].
  etransitivity; [exact Hm|apply Hk].
Qed.

Lemma steps_try_except {A} (body : M O A) catches handler :
  steps R body -> (forall e, steps R (handler e)) -> steps R (try_except body catches handler).
Proof.
  intros Hb Hh s. unfold try_except. specialize (Hb s).
  destruct (body s) as [[a|e] s1]; simpl in *; [assumption|].
  destruct (catches e); simpl; [|assumption].
  etransitivity; [exact Hb|apply Hh].
Qed.

Lemma steps_for_each {A B} (xs : list A) (body : B -> A -> M O B) :
  (forall acc x, steps R (body acc x)) -> forall acc, steps R (for_each xs acc body).
Proof.
  intros Hb. induction xs as [|x xs IH]; intros acc; simpl.
  - apply steps_ret.
  - apply steps_bind; [apply Hb|intros a; apply IH].
Qed.

Lemma steps_requests_get w rq : steps R (requests_get w rq).
Proof. apply steps_bind; [apply steps_emit|intros; apply steps_lift]. Qed.

Lemma steps_requests_post w rq p : steps R (requests_post w rq p).
Proof. apply steps_bind; [apply steps_emit|intros; apply steps_lift]. Qed.

Lemma steps_raise_for_status r : steps R (raise_for_status r).
Proof.
  unfold raise_for_status. destruct (status_error r); [apply steps_raise|apply steps_ret].
Qed.

End Steps.

#[export] Instance keeps_preorder {O} (P : O -> Prop) : PreOrder (keeps P).
Proof.
  split.
  - intros o Ho. exact Ho.
  - intros a b c Hab Hbc Ha. apply Hbc, Hab, Ha.
Qed.

Lemma Return_inj {A} (a b : A) : Return a = Return b -> a = b.
Proof. intros E. injection E. auto. Qed.

Lemma bind_returns {O A B} (m : M O A) (k : A -> M O B) s b s' :
  bind m k s = (Return b, s') ->
  exists a s1, m s = (Return a, s1) /\ k a s1 = (Return b, s').
Proof.
  unfold bind. destruct (m s) as [[a|e] s1]; intros E.
  - exists a, s1. split; [reflexivity|exact E].
  - discriminate.
Qed.

Lemma steps_eq_returns {O A} (m : M O A) s a s1 :
  steps eq m -> m s = (Return a, s1) -> self s1 = self s.
Proof. intros Hm E. specialize (Hm s). rewrite E in Hm. symmetry. exact Hm. Qed.

(** ** Computations that read the object only *)

Section ReadsSelf.
Context {O : Type}.

Lemma rso_ret {A} (a : A) : reads_self_only (@ret O A a).
Proof. intros s1 s2 E. split; [reflexivity|exact E]. Qed.

Lemma rso_raise {A} e : reads_self_only (@raise O A e).
Proof. intros s1 s2 E. split; [reflexivity|exact E]. Qed.

Lemma rso_lift {A} (r : res A) : reads_self_only (@lift O A r).
Proof. intros s1 s2 E. split; [reflexivity|exact E]. Qed.

Lemma rso_get_self : reads_self_only (@get_self O).
Proof. intros s1 s2 E. split; [simpl; rewrite E; reflexivity|exact E]. Qed.

Lemma rso_emit ev : reads_self_only (@emit O ev).
Proof. intros s1 s2 E. split; [reflexivity|exact E]. Qed.

Lemma rso_bind {A B} (m : M O A) (k : A -> M O B) :
  reads_self_only m -> (forall a, reads_self_only (k a)) -> reads_self_only (bind m k).
Proof.
  intros Hm Hk s1 s2 E. destruct (Hm s1 s2 E) as [Hf Hs]. unfold bind.
  destruct (m s1) as [[a|e] s1'], (m s2) as [[b|e'] s2']; cbn [fst snd] in *;
    try discriminate Hf.
  - apply Return_inj in Hf. subst b. apply Hk, Hs.
  - split; [|exact Hs]. injection Hf as <-. reflexivity.
Qed.

Lemma rso_try_except {A} (body : M O A) catches handler :
  reads_self_only body -> (forall e, reads_self_only (handler e)) ->
  reads_self_only (try_except body catches handler).
Proof.
  intros Hb Hh s1 s2 E. destruct (Hb s1 s2 E) as [Hf Hs]. unfold try_except.
  destruct (body s1) as [[a|e] s1'], (body s2) as [[b|e'] s2']; cbn [fst snd] in *;
    try discriminate Hf.
  - split; [exact Hf|exact Hs].
  - assert (e = e') as <- by (injection Hf; auto).
    destruct (catches e); [apply Hh, Hs|split; [reflexivity|exact Hs]].
Qed.

Lemma rso_for_each {A B} (xs : list A) (body : B -> A -> M O B) :
  (forall acc x, reads_self_only (body acc x)) ->
  forall acc, reads_self_only (for_each xs acc body).
Proof.
  intros Hb. induction xs as [|x xs IH]; intros acc; cbn [for_each].
  - apply rso_ret.
  - apply rso_bind; [apply Hb|intros a; apply IH].
Qed.

Lemma rso_requests_get w rq : reads_self_only (@requests_get O w rq).
Proof. apply rso_bind; [apply rso_emit|intros; apply rso_lift]. Qed.

Lemma rso_raise_for_status r : reads_self_only (@raise_for_status O r).
Proof.
  unfold raise_for_status. destruct (status_error r); [apply rso_raise|apply rso_ret].
Qed.

End ReadsSelf.

End Reasoning.

(* ===================================================================== *)
(** * Properties of the health check                                      *)
(* ===================================================================== *)

Module HealthProps.
Import Py Eff K8sHealthManager Reasoning.

Ltac step :=
  match goal with
  | |- steps _ (bind _ _) => apply steps_bind; try exact _; [|intros ?]
  | |- steps _ (try_except _ _ _) => apply steps_try_except; try exact _; [|intros ?]
  | |- steps _ (for_each _ _ _) => apply steps_for_each; try exact _; intros ? ?
  | |- steps _ (ret _) => apply steps_ret; exact _
  | |- steps _ (raise _) => apply steps_raise; exact _
  | |- steps _ (lift _) => apply steps_lift; exact _
  | |- steps _ get_self => apply steps_get_self; exact _
  | |- steps _ (emit _) => apply steps_emit; exact _
  | |- steps _ (print _) => apply steps_emit; exact _
  | |- steps _ (eprint _) => apply steps_emit; exact _
  | |- steps _ (requests_get _ _) => apply steps_requests_get; exact _
  | |- steps _ (requests_post _ _ _) => apply steps_requests_post; exact _
  | |- steps _ (raise_for_status _) => apply steps_raise_for_status; exact _
  | |- steps _ (if ?b then _ else _) => destruct b
  | |- steps _ (match ?x with _ => _ end) => destruct x
  end.

(** Run the monadic plumbing of the goal as far as it computes. *)
Ltac run :=
  cbv [bind try_except print eprint emit get_self set_self requests_get requests_post
       lift ret raise update_report add_issue add_action];
  cbn [fst snd self trace].

(** ** The three mutation operations, run *)

Lemma add_issue_run message s :
  add_issue message s =
  (Return tt, mk_state (record_issue message (self s)) (trace s ++ [issue_line message])).
Proof. reflexivity. Qed.

Lemma add_warning_run message s :
  add_warning message s =
  (Return tt, mk_state (record_warning message (self s)) (trace s ++ [warning_line message])).
Proof.
  unfold add_warning, record_warning, warning_line, update_report, bind, get_self,
    set_self, print, emit, ret.
  simpl. destruct (str_eqb _ _); reflexivity.
Qed.

Lemma add_action_run message s :
  add_action message s =
  (Return tt,
   mk_state (with_report (self s) (append_action message (report_of s)))
            (trace s ++ [Print Stdout (py "  🔧 ACTION: " ++ message)])).
Proof. reflexivity. Qed.

Lemma severity_le_2 st : (severity st <= 2)%nat.
Proof. unfold severity. repeat destruct (str_eqb _ _); lia. Qed.

Lemma severity_unhealthy : severity (py "UNHEALTHY") = 2%nat.
Proof. reflexivity. Qed.

Lemma severity_healthy_warning st :
  str_eqb st (py "HEALTHY") = true -> (severity st <= severity (py "WARNING"))%nat.
Proof. intros E%str_eqb_eq. subst st. vm_compute. lia. Qed.

Lemma mutate_status op s :
  status_of (snd (mutate op s)) =
  match op with
  | AddIssue _ => py "UNHEALTHY"
  | AddWarning _ =>
    if str_eqb (status_of s) (py "HEALTHY") then py "WARNING" else status_of s
  | AddAction _ => status_of s
  end.
Proof.
  destruct op as [m|m|m]; unfold mutate.
  - rewrite add_issue_run. reflexivity.
  - rewrite add_warning_run. unfold status_of, record_warning. simpl.
    destruct (str_eqb _ (py "HEALTHY")); reflexivity.
  - rewrite add_action_run. reflexivity.
Qed.

Lemma mutate_returns op s : fst (mutate op s) = Return tt.
Proof.
  destruct op as [m|m|m]; unfold mutate;
    [rewrite add_issue_run|rewrite add_warning_run|rewrite add_action_run]; reflexivity.
Qed.

Lemma mutate_all_cons op ops s :
  mutate_all (op :: ops) s = mutate_all ops (snd (mutate op s)).
Proof.
  unfold mutate_all. simpl. unfold bind.
  pose proof (mutate_returns op s) as E.
  destruct (mutate op s) as [[[]|e] s1]; simpl in *; [reflexivity|discriminate].
Qed.

Lemma mutate_severity op s :
  (severity (status_of s) <= severity (status_of (snd (mutate op s))))%nat.
Proof.
  rewrite mutate_status. destruct op as [m|m|m].
  - rewrite severity_unhealthy. apply severity_le_2.
  - destruct (str_eqb (status_of s) (py "HEALTHY")) eqn:E; [|lia].
    apply severity_healthy_warning, E.
  - lia.
Qed.

(** C2: the overall status never improves under the mutation operations. *)
Theorem status_never_improves :
  (forall m s, add_issue m s = (Return tt, snd (add_issue m s))
               /\ status_of (snd (add_issue m s)) = py "UNHEALTHY")
  /\ (forall m s,
        status_of (snd (add_warning m s)) =
        if str_eqb (status_of s) (py "HEALTHY") then py "WARNING" else status_of s)
  /\ (forall m s, status_of (snd (add_action m s)) = status_of s)
  /\ (forall ops s,
        (severity (status_of s) <= severity (status_of (snd (mutate_all ops s))))%nat)
  /\ (forall ops s,
        status_of s = py "UNHEALTHY" ->
        status_of (snd (mutate_all ops s)) = py "UNHEALTHY").
Proof.
  split; [|split; [|split; [|split]]].
  - intros m s. rewrite add_issue_run. split; reflexivity.
  - intros m s. exact (mutate_status (AddWarning m) s).
  - intros m s. exact (mutate_status (AddAction m) s).
  - intros ops. induction ops as [|op ops IH]; intros s.
    + reflexivity.
    + rewrite mutate_all_cons. etransitivity; [apply mutate_severity|apply IH].
  - intros ops. induction ops as [|op ops IH]; intros s Hs.
    + exact Hs.
    + rewrite mutate_all_cons. apply IH. rewrite mutate_status.
      destruct op as [m|m|m]; [reflexivity| |exact Hs].
      rewrite Hs. reflexivity.
Qed.

(** From UNHEALTHY, a warning and an action leave the status UNHEALTHY. *)
Lemma status_never_improves_witness :
  let s := snd (add_issue (py "Node exporter down on kube501.home") Scenarios.manager0) in
  status_of (snd (mutate_all [AddWarning (py "No metrics found for kube502.home");
                              AddAction (py "restarted kubelet")] s))
  = py "UNHEALTHY".
Proof.
  cbv zeta.
  apply (proj2 (proj2 (proj2 (proj2 status_never_improves)))).
  vm_compute. reflexivity.
Defined.

(** ** Relations every check respects *)

Section Respect.
Context {RT : PyRuntime} (w : world).
Context (R : manager -> manager -> Prop) `{!PreOrder R}.
Hypothesis R_issue : forall o m, R o (with_report o (append_issue m (health_report o))).
Hypothesis R_warning : forall o m, R o (with_report o (append_warning m (health_report o))).
Hypothesis R_action : forall o m, R o (with_report o (append_action m (health_report o))).
Hypothesis R_unhealthy :
  forall o, R o (with_report o (set_status (py "UNHEALTHY") (health_report o))).
Hypothesis R_warn :
  forall o, overall_status (health_report o) = py "HEALTHY" ->
            R o (with_report o (set_status (py "WARNING") (health_report o))).

Lemma steps_add_issue m : steps R (add_issue m).
Proof.
  intros s. rewrite add_issue_run. simpl.
  etransitivity; [apply (R_issue _ m)|].
  etransitivity; [apply R_unhealthy|]. reflexivity.
Qed.

Lemma steps_add_warning m : steps R (add_warning m).
Proof.
  intros s. rewrite add_warning_run. unfold record_warning. simpl.
  etransitivity; [apply (R_warning _ m)|].
  destruct (str_eqb (overall_status (health_report (self s))) (py "HEALTHY")) eqn:E;
    [|reflexivity].
  apply str_eqb_eq in E.
  etransitivity; [apply R_warn; exact E|]. reflexivity.
Qed.

Lemma steps_add_action m : steps R (add_action m).
Proof. intros s. rewrite add_action_run. simpl. apply (R_action _ m). Qed.

Lemma steps_query_prometheus q : steps R (query_prometheus w q).
Proof.
  unfold query_prometheus.
  repeat first [ step | match goal with |- steps _ (add_issue _) => apply steps_add_issue end ].
Qed.

Ltac check_step :=
  match goal with
  | |- steps _ (add_issue _) => apply steps_add_issue
  | |- steps _ (add_warning _) => apply steps_add_warning
  | |- steps _ (add_action _) => apply steps_add_action
  | |- steps _ (query_prometheus _ _) => apply steps_query_prometheus
  | _ => step
  end.

Lemma steps_cpu_sample metric : steps R (cpu_sample metric).
Proof. unfold cpu_sample. repeat check_step. Qed.

Lemma steps_memory_sample metric : steps R (memory_sample metric).
Proof. unfold memory_sample. repeat check_step. Qed.

Lemma steps_check_node_resources : steps R (check_node_resources w).
Proof.
  unfold check_node_resources, for_samples.
  repeat match goal with
         | |- steps _ (cpu_sample _) => apply steps_cpu_sample
         | |- steps _ (memory_sample _) => apply steps_memory_sample
         | _ => check_step
         end.
Qed.

Lemma steps_node_verdict ns b node : steps R (node_verdict ns b node).
Proof. unfold node_verdict. repeat check_step. Qed.

Lemma steps_cadvisor_verdict ns b node : steps R (cadvisor_verdict ns b node).
Proof. unfold cadvisor_verdict. repeat check_step. Qed.

Lemma steps_check_node_health : steps R (check_node_health w).
Proof.
  unfold check_node_health.
  repeat match goal with
         | |- steps _ (check_node_resources _) => apply steps_check_node_resources
         | |- steps _ (node_verdict _ _ _) => apply steps_node_verdict
         | _ => check_step
         end.
Qed.

Lemma steps_check_kubernetes_api : steps R (check_kubernetes_api w).
Proof. unfold check_kubernetes_api. repeat check_step. Qed.

Lemma steps_check_container_metrics : steps R (check_container_metrics w).
Proof.
  unfold check_container_metrics.
  repeat match goal with
         | |- steps _ (cadvisor_verdict _ _ _) => apply steps_cadvisor_verdict
         | _ => check_step
         end.
Qed.

Lemma steps_critical_pattern a b p : steps R (critical_pattern w a b p).
Proof. unfold critical_pattern. repeat check_step. Qed.

Lemma steps_check_critical_logs a b : steps R (check_critical_logs w a b).
Proof.
  unfold check_critical_logs.
  repeat match goal with
         | |- steps _ (critical_pattern _ _ _ _) => apply steps_critical_pattern
         | _ => check_step
         end.
Qed.

Lemma steps_print_bullets items : steps R (print_bullets items).
Proof. unfold print_bullets. repeat check_step. Qed.

Lemma steps_run_health_check a b : steps R (run_health_check w a b).
Proof.
  unfold run_health_check.
  repeat match goal with
         | |- steps _ (check_node_health _) => apply steps_check_node_health
         | |- steps _ (check_kubernetes_api _) => apply steps_check_kubernetes_api
         | |- steps _ (check_container_metrics _) => apply steps_check_container_metrics
         | |- steps _ (check_critical_logs _ _ _) => apply steps_check_critical_logs
         | |- steps _ (print_bullets _) => apply steps_print_bullets
         | _ => check_step
         end.
Qed.

End Respect.

(** ** The exit code of a run *)

Lemma exit_code_healthy r : overall_status r = py "HEALTHY" -> exit_code r = 0.
Proof. intros E. unfold exit_code. rewrite E. reflexivity. Qed.

Lemma exit_code_warning r : overall_status r = py "WARNING" -> exit_code r = 2.
Proof. intros E. unfold exit_code. rewrite E. reflexivity. Qed.

Lemma exit_code_unhealthy r : overall_status r = py "UNHEALTHY" -> exit_code r = 1.
Proof. intros E. unfold exit_code. rewrite E. reflexivity. Qed.

Lemma exit_code_range r : exit_code r = 0 \/ exit_code r = 1 \/ exit_code r = 2.
Proof. unfold exit_code. repeat destruct (str_eqb _ _); auto. Qed.

Section Run.
Context {RT : PyRuntime} (w : world).

(** The status stays one of the three values through a whole run. *)
Lemma run_keeps_valid_status a b :
  steps (keeps (fun o => valid_status (overall_status (health_report o))))
        (run_health_check w a b).
Proof.
  apply steps_run_health_check; try exact _; unfold keeps, valid_status; simpl; auto.
Qed.

(** What [run_health_check] returns is the report of the final state. *)
Lemma run_health_check_report a b s r s' :
  run_health_check w a b s = (Return r, s') -> r = report_of s'.
Proof.
  unfold run_health_check. intros E.
  do 7 (apply bind_returns in E; destruct E as (? & ? & _ & E)).
  apply bind_returns in E. destruct E as (o & s1 & Eo & E).
  injection Eo as <- <-.
  assert (forall (m : M manager unit) (k : M manager HealthReport) s0 r0 s0',
             steps eq m -> (m ;; k)%py s0 = (Return r0, s0') ->
             exists s1, self s1 = self s0 /\ k s1 = (Return r0, s0')) as next.
  { intros m k s0 r0 s0' Hm E0. apply bind_returns in E0.
    destruct E0 as (u & s1 & E1 & E2). exists s1. split; [|exact E2].
    apply (steps_eq_returns _ _ _ _ Hm E1). }
  unfold report_of.
  apply next in E; [destruct E as (s2 & E2 & E)|apply steps_emit; exact _].
  apply next in E; [destruct E as (s3 & E3 & E)|].
  2:{ repeat match goal with
             | |- steps _ (print_bullets _) => apply steps_print_bullets; try exact _; auto
             | _ => step
             end. }
  apply next in E; [destruct E as (s4 & E4 & E)|].
  2:{ repeat match goal with
             | |- steps _ (print_bullets _) => apply steps_print_bullets; try exact _; auto
             | _ => step
             end. }
  apply next in E; [destruct E as (s5 & E5 & E)|].
  2:{ repeat match goal with
             | |- steps _ (print_bullets _) => apply steps_print_bullets; try exact _; auto
             | _ => step
             end. }
  injection E as <- <-. congruence.
Qed.

End Run.

(** C5: the exit code of a completed run is 0, 2 or 1 according to the
    final overall status HEALTHY, WARNING or UNHEALTHY, and nothing else. *)
Theorem exit_code_mapping {RT : PyRuntime} :
  (forall r, overall_status r = py "HEALTHY" -> exit_code r = 0)
  /\ (forall r, overall_status r = py "WARNING" -> exit_code r = 2)
  /\ (forall r, overall_status r = py "UNHEALTHY" -> exit_code r = 1)
  /\ (forall r, exit_code r = 0 \/ exit_code r = 1 \/ exit_code r = 2)
  /\ (forall w now a b code s,
        main w now a b = (Return code, s) ->
        code = exit_code (report_of s) /\ valid_status (status_of s)).
Proof.
  split; [exact exit_code_healthy|].
  split; [exact exit_code_warning|].
  split; [exact exit_code_unhealthy|].
  split; [exact exit_code_range|].
  intros w now a b code s E. unfold main in E.
  apply bind_returns in E. destruct E as (r & s1 & Erun & E).
  injection E as <- <-.
  split.
  - f_equal. apply (run_health_check_report w a b _ _ _ Erun).
  - pose proof (run_keeps_valid_status w a b (mk_state (init now) [])) as V.
    rewrite Erun in V. apply V. left. reflexivity.
Qed.

(** A run against a backend where one node reports nothing ends in WARNING
    and exits with 2. *)
Lemma exit_code_mapping_witness :
  let run := main (RT := Runtime.cpython) Scenarios.one_absent Scenarios.now_iso 0 0 in
  fst run = Return 2
  /\ 2 = exit_code (report_of (snd run))
  /\ valid_status (status_of (snd run)).
Proof.
  cbv zeta.
  assert (main (RT := Runtime.cpython) Scenarios.one_absent Scenarios.now_iso 0 0
          = (Return 2,
             snd (main (RT := Runtime.cpython) Scenarios.one_absent Scenarios.now_iso 0 0)))
    as E by (vm_compute; reflexivity).
  split.
  - rewrite E. reflexivity.
  - exact (proj2 (proj2 (proj2 (proj2 exit_code_mapping))) _ _ _ _ _ _ E).
Defined.

(** ** The probe of the API server *)

Lemma api_healthy_test r :
  (status_code r =? 200) && str_eqb (strip (text r)) (py "ok") = true <-> api_healthy r.
Proof.
  unfold api_healthy. rewrite andb_true_iff, Z.eqb_eq, str_eqb_eq. reflexivity.
Qed.

Lemma record_issue_report message o :
  issues (health_report (record_issue message o)) = issues (health_report o) ++ [message]
  /\ overall_status (health_report (record_issue message o)) = py "UNHEALTHY"
  /\ warnings (health_report (record_issue message o)) = warnings (health_report o).
Proof. repeat split. Qed.

Section Api.
Variable w : world.

Lemma check_kubernetes_api_run s :
  check_kubernetes_api w s =
  let rq := healthz_request (self s) in
  match http_get w rq with
  | Return r =>
    if (status_code r =? 200) && str_eqb (strip (text r)) (py "ok")
    then (Return true, mk_state (self s) (trace s ++ [api_banner; Get rq; api_ok_line]))
    else
      let msg := py "API server health check failed: " ++ str_of_int (status_code r) in
      (Return false,
       mk_state (record_issue msg (self s)) (trace s ++ [api_banner; Get rq; issue_line msg]))
  | Raise e =>
    if is_RequestException e
    then
      let msg := py "Cannot reach Kubernetes API: " ++ exn_str e in
      (Return false,
       mk_state (record_issue msg (self s)) (trace s ++ [api_banner; Get rq; issue_line msg]))
    else (Raise e, mk_state (self s) (trace s ++ [api_banner; Get rq]))
  end.
Proof.
  unfold check_kubernetes_api. run.
  destruct (http_get w (healthz_request (self s))) as [r|e]; run.
  - destruct ((status_code r =? 200) && str_eqb (strip (text r)) (py "ok")); run.
    + rewrite <- !app_assoc. reflexivity.
    + rewrite <- !app_assoc. reflexivity.
  - destruct (is_RequestException e); run; rewrite <- !app_assoc; reflexivity.
Qed.

End Api.

(** C10: the probe of [/healthz] is sent with TLS verification off; it
    returns true without touching the report exactly when the answer has
    status 200 and a body that strips to [ok]; every other answer, and every
    transport failure, returns false and records an issue, which makes the
    overall status UNHEALTHY. *)
Theorem kubernetes_api_probe (w : world) (s : state manager) :
  let rq := healthz_request (self s) in
  (req_verify rq = false /\ req_url rq = k8s_api_url (self s) ++ py "/healthz")
  /\ (forall r, http_get w rq = Return r -> api_healthy r ->
        check_kubernetes_api w s =
        (Return true, mk_state (self s) (trace s ++ [api_banner; Get rq; api_ok_line])))
  /\ (forall r, http_get w rq = Return r -> ~ api_healthy r ->
        let msg := py "API server health check failed: " ++ str_of_int (status_code r) in
        check_kubernetes_api w s =
        (Return false,
         mk_state (record_issue msg (self s))
                  (trace s ++ [api_banner; Get rq; issue_line msg])))
  /\ (forall e, http_get w rq = Raise e -> is_RequestException e = true ->
        let msg := py "Cannot reach Kubernetes API: " ++ exn_str e in
        check_kubernetes_api w s =
        (Return false,
         mk_state (record_issue msg (self s))
                  (trace s ++ [api_banner; Get rq; issue_line msg])))
  /\ (forall msg,
        issues (health_report (record_issue msg (self s))) = issues (report_of s) ++ [msg]
        /\ overall_status (health_report (record_issue msg (self s))) = py "UNHEALTHY").
Proof.
  cbv zeta. split; [split; reflexivity|].
  split; [|split; [|split]].
  - intros r Hr Hok. rewrite check_kubernetes_api_run. cbv zeta. rewrite Hr.
    apply api_healthy_test in Hok. rewrite Hok. reflexivity.
  - intros r Hr Hno. rewrite check_kubernetes_api_run. cbv zeta. rewrite Hr.
    destruct ((status_code r =? 200) && str_eqb (strip (text r)) (py "ok")) eqn:E;
      [|reflexivity].
    exfalso. apply Hno, api_healthy_test, E.
  - intros e He Hc. rewrite check_kubernetes_api_run. cbv zeta. rewrite He, Hc.
    reflexivity.
  - intros msg. split; reflexivity.
Qed.

(** Against a server that answers 200 with the body [ok] and a newline the
    probe returns true; against one that answers 500 it records the issue. *)
Lemma kubernetes_api_probe_witness :
  fst (check_kubernetes_api Scenarios.one_absent Scenarios.manager0)
  = Return true
  /\ fst (check_kubernetes_api Scenarios.error_world Scenarios.manager0)
     = Return false.
Proof.
  pose proof (kubernetes_api_probe Scenarios.one_absent
                Scenarios.manager0) as (_ & Hok & _).
  pose proof (kubernetes_api_probe Scenarios.error_world
                Scenarios.manager0) as (_ & _ & Hfail & _).
  split.
  - erewrite Hok; [reflexivity|vm_compute; reflexivity|].
    split; vm_compute; reflexivity.
  - erewrite Hfail; [reflexivity|vm_compute; reflexivity|].
    intros [E _]. vm_compute in E. discriminate.
Defined.

(** ** The CPU threshold *)

Section Cpu.
Context {RT : PyRuntime}.

Lemma cpu_sample_run metric i v p s :
  instance_of metric = Return (PStr i) ->
  i ∈ cluster_nodes (self s) ->
  sample_value metric = Return v ->
  py_float v = Return p ->
  cpu_sample metric s =
  if PrimFloat.ltb 90 p then
    (Return tt,
     mk_state (record_issue (high_cpu i p) (self s))
              (trace s ++ [issue_line (high_cpu i p); cpu_line i p]))
  else if PrimFloat.ltb 75 p then
    (Return tt,
     mk_state (record_warning (elevated_cpu i p) (self s))
              (trace s ++ [warning_line (elevated_cpu i p); cpu_line i p]))
  else (Return tt, mk_state (self s) (trace s ++ [cpu_line i p])).
Proof.
  intros Hi Hin Hv Hp. unfold cpu_sample. run. rewrite Hi. run.
  unfold in_str_list. rewrite bool_decide_eq_true_2 by exact Hin.
  rewrite Hv. run. rewrite Hp. run.
  unfold high_cpu, elevated_cpu, cpu_line, issue_line, py_str.
  destruct (PrimFloat.ltb 90 p); [|destruct (PrimFloat.ltb 75 p)].
  - run. rewrite <- !app_assoc. reflexivity.
  - rewrite add_warning_run. run. rewrite <- !app_assoc. reflexivity.
  - run. reflexivity.
Qed.

End Cpu.

Lemma snoc_neq {A} (l : list A) x : l ++ [x] <> l.
Proof.
  intros E. apply (f_equal (@length A)) in E. rewrite length_app in E. simpl in E. lia.
Qed.

Lemma record_warning_issues message o :
  issues (health_report (record_warning message o)) = issues (health_report o).
Proof.
  unfold record_warning. destruct (str_eqb _ _); reflexivity.
Qed.

(** C1, as the code has it: a CPU sample of a known node is recorded as an
    issue exactly when its percentage is strictly above 90. *)
Theorem cpu_issue_iff_above_90 {RT : PyRuntime} metric i v p s :
  instance_of metric = Return (PStr i) ->
  i ∈ cluster_nodes (self s) ->
  sample_value metric = Return v ->
  py_float v = Return p ->
  exists s', cpu_sample metric s = (Return tt, s')
    /\ (issues (report_of s') = issues (report_of s) ++ [high_cpu i p]
        <-> PrimFloat.ltb 90 p = true)
    /\ (issues (report_of s') = issues (report_of s) <-> PrimFloat.ltb 90 p = false).
Proof.
  intros Hi Hin Hv Hp. rewrite (cpu_sample_run metric i v p s Hi Hin Hv Hp).
  unfold report_of.
  destruct (PrimFloat.ltb 90 p); [|destruct (PrimFloat.ltb 75 p)]; eexists;
    (split; [reflexivity|]); cbn [self]; rewrite ?record_warning_issues.
  - split; split; intros E; try reflexivity; try discriminate.
    exfalso. exact (snoc_neq _ _ E).
  - split; split; intros E; try reflexivity; try discriminate.
    exfalso. symmetry in E. exact (snoc_neq _ _ E).
  - split; split; intros E; try reflexivity; try discriminate.
    exfalso. symmetry in E. exact (snoc_neq _ _ E).
Qed.

(** A sample of 90.001 on a known node is recorded as an issue. *)
Lemma cpu_issue_iff_above_90_witness :
  exists s',
    cpu_sample (RT := Runtime.cpython) (Scenarios.sample "kube501.home" "90.001")
      Scenarios.manager0 = (Return tt, s')
    /\ issues (report_of s') = [py "High CPU usage on kube501.home: 90.0%"].
Proof.
  destruct (cpu_issue_iff_above_90 (RT := Runtime.cpython)
              (Scenarios.sample "kube501.home" "90.001") (py "kube501.home")
              (PStr (py "90.001")) 0x1.68010624dd2f2p+6%float Scenarios.manager0)
    as (s' & Hrun & Hiss & _).
  - vm_compute. reflexivity.
  - vm_compute. apply list_elem_of_here.
  - vm_compute. reflexivity.
  - vm_compute. reflexivity.
  - exists s'. split; [exact Hrun|].
    rewrite (proj2 Hiss) by (vm_compute; reflexivity).
    vm_compute. reflexivity.
Defined.

(** C1 as stated fails at the boundary: a sample of exactly 90.0 satisfies
    [90 <= p], and [check_node_resources] records a warning for it and no
    issue. *)
Lemma cpu_at_90_records_no_issue :
  let s' := snd (check_node_resources (RT := Runtime.cpython) Scenarios.cpu_at_90
                   Scenarios.manager0) in
  @py_float Runtime.cpython (PStr (py "90.0")) = Return 90%float
  /\ PrimFloat.leb 90 90 = true
  /\ issues (report_of s') = []
  /\ warnings (report_of s') = [py "Elevated CPU usage on kube501.home: 90.0%"]
  /\ status_of s' = py "WARNING".
Proof.
  cbv zeta. repeat split; vm_compute; reflexivity.
Qed.

(** ** The query client of the health check *)

Section Query.
Context {RT : PyRuntime} (w : world).

Lemma query_prometheus_run q s :
  query_prometheus w q s =
  let rq := prometheus_request (self s) q in
  let sent := mk_state (self s) (trace s ++ [Get rq]) in
  let failed e :=
    let msg := py "Prometheus query failed: " ++ exn_str e in
    (Return PNone,
     mk_state (record_issue msg (self s)) (trace s ++ [Get rq; issue_line msg])) in
  match http_get w rq with
  | Return r =>
    if status_code r =? 200 then
      match resp_json r with
      | Return v => (Return v, sent)
      | Raise e => if is_RequestException e then failed e else (Raise e, sent)
      end
    else (Return PNone, sent)
  | Raise e => if is_RequestException e then failed e else (Raise e, sent)
  end.
Proof.
  unfold query_prometheus. run.
  destruct (http_get w (prometheus_request (self s) q)) as [r|e]; run.
  - destruct (status_code r =? 200); run; [|reflexivity].
    destruct (resp_json r) as [v|e]; run; [reflexivity|].
    destruct (is_RequestException e); run; [|reflexivity].
    rewrite <- !app_assoc. reflexivity.
  - destruct (is_RequestException e); run; [|reflexivity].
    rewrite <- !app_assoc. reflexivity.
Qed.

Lemma query_prometheus_answered q s result :
  answers w (self s) q result ->
  query_prometheus w q s =
  (Return result, mk_state (self s) (trace s ++ [Get (prometheus_request (self s) q)])).
Proof.
  intros (r & Hr & Hc & Hj). rewrite query_prometheus_run. cbv zeta.
  rewrite Hr, Hc, Hj. reflexivity.
Qed.

End Query.

(** ** Nodes that report nothing *)

#[export] Instance grows_preorder : PreOrder grows.
Proof.
  split.
  - intros o. unfold grows. auto.
  - intros a b c (I1 & W1 & N1 & U1) (I2 & W2 & N2 & U2). unfold grows.
    split; [etransitivity; eassumption|].
    split; [etransitivity; eassumption|].
    split; congruence.
Qed.

Lemma grows_record_issue m o : grows o (record_issue m o).
Proof.
  unfold grows, record_issue. simpl.
  split; [apply prefix_app_r; reflexivity|]. auto.
Qed.

Lemma grows_record_warning m o : grows o (record_warning m o).
Proof.
  unfold grows. rewrite record_warning_issues.
  split; [reflexivity|]. unfold record_warning.
  destruct (str_eqb _ _); simpl; (split; [apply prefix_app_r; reflexivity|auto]).
Qed.

Lemma grows_warning x o o' :
  grows o o' -> x ∈ warnings (health_report o) -> x ∈ warnings (health_report o').
Proof.
  intros (_ & [l ->] & _) Hx. apply elem_of_app. left. exact Hx.
Qed.

Lemma node_verdict_run ns acc node s :
  node_verdict ns acc node s =
  match ns !! node with
  | Some true =>
    (Return acc, mk_state (self s) (trace s ++ [Print Stdout (py "  ✅ " ++ node ++ py " - UP")]))
  | Some false =>
    (Return false,
     mk_state (record_issue (node_down node) (self s))
       (trace s ++ [Print Stdout (py "  ❌ " ++ node ++ py " - DOWN");
                    issue_line (node_down node)]))
  | None =>
    (Return false,
     mk_state (record_warning (node_missing node) (self s))
       (trace s ++ [Print Stdout (py "  ⚠️  " ++ node ++ py " - NO METRICS");
                    warning_line (node_missing node)]))
  end.
Proof.
  unfold node_verdict, node_down, node_missing, issue_line.
  destruct (ns !! node) as [[|]|]; run.
  - reflexivity.
  - rewrite <- !app_assoc. reflexivity.
  - rewrite add_warning_run. run. rewrite <- !app_assoc. reflexivity.
Qed.

Lemma cadvisor_verdict_run ns acc node s :
  cadvisor_verdict ns acc node s =
  match ns !! node with
  | Some true =>
    (Return acc,
     mk_state (self s) (trace s ++ [Print Stdout (py "  ✅ " ++ node ++ py " cAdvisor - UP")]))
  | Some false =>
    (Return false,
     mk_state (record_issue (cadvisor_down node) (self s))
       (trace s ++ [Print Stdout (py "  ❌ " ++ node ++ py " cAdvisor - DOWN");
                    issue_line (cadvisor_down node)]))
  | None =>
    (Return false,
     mk_state (record_warning (cadvisor_missing node) (self s))
       (trace s ++ [Print Stdout (py "  ⚠️  " ++ node ++ py " cAdvisor - NO METRICS");
                    warning_line (cadvisor_missing node)]))
  end.
Proof.
  unfold cadvisor_verdict, cadvisor_down, cadvisor_missing, issue_line.
  destruct (ns !! node) as [[|]|]; run.
  - reflexivity.
  - rewrite <- !app_assoc. reflexivity.
  - rewrite add_warning_run. run. rewrite <- !app_assoc. reflexivity.
Qed.

(** The loop over the known nodes, for either check: [verdict] is the body,
    [down] and [missing] are its two messages. *)
Section Loop.
Variable verdict : gmap pystr bool -> bool -> pystr -> M manager bool.
Variables down missing : pystr -> pystr.
Variable ns : gmap pystr bool.
Hypothesis verdict_cases :
  forall acc node s,
    match ns !! node with
    | Some true => exists t, verdict ns acc node s = (Return acc, mk_state (self s) t)
    | Some false =>
      exists t, verdict ns acc node s
                = (Return false, mk_state (record_issue (down node) (self s)) t)
    | None =>
      exists t, verdict ns acc node s
                = (Return false, mk_state (record_warning (missing node) (self s)) t)
    end.

Lemma verdict_loop nodes :
  forall acc s,
  exists b s',
    for_each nodes acc (verdict ns) s = (Return b, s')
    /\ (b = true -> acc = true /\ forall n, n ∈ nodes -> ns !! n = Some true)
    /\ (forall n, n ∈ nodes -> ns !! n = None -> missing n ∈ warnings (report_of s'))
    /\ (forall i, i ∈ issues (report_of s') ->
          i ∈ issues (report_of s)
          \/ exists n, n ∈ nodes /\ ns !! n = Some false /\ i = down n)
    /\ grows (self s) (self s').
Proof.
  induction nodes as [|node nodes IH]; intros acc s.
  - exists acc, s. split; [reflexivity|].
    split; [intros ->; split; [reflexivity|intros n Hn; inversion Hn]|].
    split; [intros n Hn; inversion Hn|].
    split; [auto|reflexivity].
  - cbn [for_each]. pose proof (verdict_cases acc node s) as Hv.
    destruct (ns !! node) as [[|]|] eqn:Hnode; destruct Hv as [t Hv];
      unfold bind; rewrite Hv;
      match goal with
      | |- context [for_each nodes ?a (verdict ns) ?s1] =>
        destruct (IH a s1) as (b & s' & Hrun & Hb & Hw & Hi & Hg)
      end;
      exists b, s'; (split; [exact Hrun|]); cbn [self] in *.
    + split; [|split; [|split]].
      * intros Eb. destruct (Hb Eb) as [-> Hall]. split; [reflexivity|].
        intros n [->|Hn]%elem_of_cons; [exact Hnode|apply Hall, Hn].
      * intros n [->|Hn]%elem_of_cons Hnone; [congruence|apply Hw; assumption].
      * intros i Hin. destruct (Hi i Hin) as [Hold|(n & Hn & Hf & ->)]; [left; exact Hold|].
        right. exists n. split; [apply elem_of_cons; right; exact Hn|auto].
      * exact Hg.
    + split; [|split; [|split]].
      * intros Eb. destruct (Hb Eb) as [Habs _]. discriminate.
      * intros n [->|Hn]%elem_of_cons Hnone; [congruence|apply Hw; assumption].
      * intros i Hin. destruct (Hi i Hin) as [Hold|(n & Hn & Hf & ->)].
        -- unfold report_of in Hold. cbn [self] in Hold.
           destruct (record_issue_report (down node) (self s)) as (Ei & _).
           rewrite Ei in Hold. apply elem_of_app in Hold.
           destruct Hold as [Hold|Hnew]; [left; exact Hold|].
           apply list_elem_of_singleton in Hnew. subst i.
           right. exists node. split; [apply list_elem_of_here|auto].
        -- right. exists n. split; [apply elem_of_cons; right; exact Hn|auto].
      * etransitivity; [apply grows_record_issue|exact Hg].
    + split; [|split; [|split]].
      * intros Eb. destruct (Hb Eb) as [Habs _]. discriminate.
      * intros n [->|Hn]%elem_of_cons Hnone; [|apply Hw; assumption].
        apply (grows_warning _ _ _ Hg). unfold record_warning.
        destruct (str_eqb _ _); simpl; apply elem_of_app; right; apply list_elem_of_here.
      * intros i Hin. destruct (Hi i Hin) as [Hold|(n & Hn & Hf & ->)].
        -- left. unfold report_of in Hold. cbn [self] in Hold.
           rewrite record_warning_issues in Hold. exact Hold.
        -- right. exists n. split; [apply elem_of_cons; right; exact Hn|auto].
      * etransitivity; [apply grows_record_warning|exact Hg].
Qed.

End Loop.

(** ** The dict of the up/down samples *)

Section UpStatus.
Context {RT : PyRuntime}.

Lemma setitem_lookup ns k b ns' node :
  setitem ns k b = Return ns' -> k <> PStr node -> ns' !! node = ns !! node.
Proof.
  destruct k as [| | | |i| |]; simpl; intros E Hk; try discriminate;
    injection E as <-; try reflexivity.
  apply lookup_insert_ne. intros ->. apply Hk. reflexivity.
Qed.

Lemma up_sample_lookup ns metric ns' node :
  up_sample ns metric = Return ns' ->
  instance_of metric <> Return (PStr node) ->
  ns' !! node = ns !! node.
Proof.
  unfold up_sample, rbind. intros E Hi.
  destruct (instance_of metric) as [k|]; [|discriminate].
  destruct (sample_value metric) as [v|]; [|discriminate].
  destruct (py_int v) as [z|]; [|discriminate].
  apply (setitem_lookup _ _ _ _ _ E). intros ->. apply Hi. reflexivity.
Qed.

Lemma rfold_up_sample_lookup metrics node :
  absent_from node metrics ->
  forall ns ns', rfold metrics ns up_sample = Return ns' -> ns' !! node = ns !! node.
Proof.
  induction 1 as [|metric metrics Hm _ IH]; intros ns ns' E; simpl in E.
  - injection E as <-. reflexivity.
  - unfold rbind in E. destruct (up_sample ns metric) as [ns1|] eqn:E1; [|discriminate].
    rewrite (IH _ _ E). apply (up_sample_lookup _ _ _ _ E1 Hm).
Qed.

Lemma up_status_absent result metrics ns node :
  samples_of result = Return metrics ->
  up_status result = Return ns ->
  absent_from node metrics ->
  ns !! node = None.
Proof.
  intros Hs Hu Ha. unfold up_status in Hu. rewrite Hs in Hu. simpl in Hu.
  rewrite (rfold_up_sample_lookup _ _ Ha _ _ Hu). apply lookup_empty.
Qed.

Lemma samples_truthy result metrics :
  samples_of result = Return metrics -> truthy result = true.
Proof.
  unfold samples_of, rbind, getitem. destruct result as [| | | | | |d]; try discriminate.
  destruct d as [|kv d]; [discriminate|]. reflexivity.
Qed.

End UpStatus.

Section Absent.
Context {RT : PyRuntime} (w : world).

Lemma check_container_metrics_run s result ns :
  answers w (self s) (py "up{job='cadvisor'}") result ->
  truthy result = true ->
  up_status result = Return ns ->
  check_container_metrics w s =
  for_each (cluster_nodes (self s)) true (cadvisor_verdict ns)
    (mk_state (self s)
       (trace s ++ [cadvisor_banner;
                    Get (prometheus_request (self s) (py "up{job='cadvisor'}"))])).
Proof.
  intros Ha Ht Hu. unfold check_container_metrics, bind at 1, print, emit.
  unfold bind at 1. rewrite (query_prometheus_answered w _ _ result) by exact Ha.
  rewrite Ht. cbn [negb self trace]. unfold bind at 1, lift. rewrite Hu.
  unfold bind at 1, get_self. cbn [self]. rewrite <- !app_assoc. reflexivity.
Qed.

Lemma check_node_health_run s result ns :
  answers w (self s) (py "up{job='node_exporter'}") result ->
  truthy result = true ->
  up_status result = Return ns ->
  check_node_health w s =
  (all_healthy <- for_each (cluster_nodes (self s)) true (node_verdict ns) ;;
   check_node_resources w ;;
   ret all_healthy)%py
    (mk_state (self s)
       (trace s ++ [node_banner;
                    Get (prometheus_request (self s) (py "up{job='node_exporter'}"))])).
Proof.
  intros Ha Ht Hu. unfold check_node_health, bind at 1, print, emit.
  unfold bind at 1. rewrite (query_prometheus_answered w _ _ result) by exact Ha.
  rewrite Ht. cbn [negb self trace]. unfold bind at 1, lift. rewrite Hu.
  unfold bind at 1, get_self. cbn [self]. rewrite <- !app_assoc. reflexivity.
Qed.

End Absent.

Lemma node_verdict_cases ns acc node s :
  match ns !! node with
  | Some true => exists t, node_verdict ns acc node s = (Return acc, mk_state (self s) t)
  | Some false =>
    exists t, node_verdict ns acc node s
              = (Return false, mk_state (record_issue (node_down node) (self s)) t)
  | None =>
    exists t, node_verdict ns acc node s
              = (Return false, mk_state (record_warning (node_missing node) (self s)) t)
  end.
Proof.
  rewrite node_verdict_run. destruct (ns !! node) as [[|]|]; eexists; reflexivity.
Qed.

Lemma cadvisor_verdict_cases ns acc node s :
  match ns !! node with
  | Some true => exists t, cadvisor_verdict ns acc node s = (Return acc, mk_state (self s) t)
  | Some false =>
    exists t, cadvisor_verdict ns acc node s
              = (Return false, mk_state (record_issue (cadvisor_down node) (self s)) t)
  | None =>
    exists t, cadvisor_verdict ns acc node s
              = (Return false, mk_state (record_warning (cadvisor_missing node) (self s)) t)
  end.
Proof.
  rewrite cadvisor_verdict_run. destruct (ns !! node) as [[|]|]; eexists; reflexivity.
Qed.

Lemma resources_grow {RT : PyRuntime} (w : world) : steps grows (check_node_resources w).
Proof.
  apply steps_check_node_resources; try exact _; intros o; intros; unfold grows; simpl;
    repeat split; try reflexivity; apply prefix_app_r; reflexivity.
Qed.

(** ** Samples that do not convert *)

Lemma rfold_raises_at {A B} (xs : list A) x ys (body : B -> A -> res B) e :
  forall acc acc1,
    rfold xs acc body = Return acc1 ->
    body acc1 x = Raise e ->
    rfold (xs ++ x :: ys) acc body = Raise e.
Proof.
  induction xs as [|y xs IH]; intros acc acc1 Hxs Hx; cbn [rfold app] in *.
  - apply Return_inj in Hxs. subst acc1. rewrite Hx. reflexivity.
  - destruct (body acc y) as [acc'|e']; cbn [rbind] in *; [|discriminate Hxs].
    apply (IH acc' acc1 Hxs Hx).
Qed.

Section UpRaises.
Context {RT : PyRuntime} (w : world).

Lemma up_status_raises_at result pre metric post ns0 inst v e :
  samples_of result = Return (pre ++ metric :: post) ->
  rfold pre ∅ up_sample = Return ns0 ->
  instance_of metric = Return inst ->
  sample_value metric = Return v ->
  py_int v = Raise e ->
  up_status result = Raise e.
Proof.
  intros Hs Hpre Hi Hv He. unfold up_status. rewrite Hs. cbn [rbind].
  apply (rfold_raises_at pre metric post up_sample e ∅ ns0 Hpre).
  unfold up_sample. rewrite Hi. cbn [rbind]. rewrite Hv. cbn [rbind]. rewrite He.
  reflexivity.
Qed.

Lemma check_container_metrics_raises s result e :
  answers w (self s) (py "up{job='cadvisor'}") result ->
  truthy result = true ->
  up_status result = Raise e ->
  check_container_metrics w s =
  (Raise e,
   mk_state (self s)
     (trace s ++ [cadvisor_banner;
                  Get (prometheus_request (self s) (py "up{job='cadvisor'}"))])).
Proof.
  intros Ha Ht Hu. unfold check_container_metrics, bind at 1, print, emit.
  unfold bind at 1. rewrite (query_prometheus_answered w _ _ result) by exact Ha.
  rewrite Ht. cbn [negb self trace]. unfold bind at 1, lift. rewrite Hu.
  rewrite <- !app_assoc. reflexivity.
Qed.

Lemma check_node_health_raises s result e :
  answers w (self s) (py "up{job='node_exporter'}") result ->
  truthy result = true ->
  up_status result = Raise e ->
  check_node_health w s =
  (Raise e,
   mk_state (self s)
     (trace s ++ [node_banner;
                  Get (prometheus_request (self s) (py "up{job='node_exporter'}"))])).
Proof.
  intros Ha Ht Hu. unfold check_node_health, bind at 1, print, emit.
  unfold bind at 1. rewrite (query_prometheus_answered w _ _ result) by exact Ha.
  rewrite Ht. cbn [negb self trace]. unfold bind at 1, lift. rewrite Hu.
  rewrite <- !app_assoc. reflexivity.
Qed.

End UpRaises.

(** C4, as the code has it.  Take a node of the known-node list that no
    sample of the up/down result set is about, the up query being answered
    with status 200.  When the loop over the samples builds its dict, the
    cAdvisor check records the warning for the node, adds no issue but the
    down issues of other nodes, and returns false.  The node-exporter check
    does the same in its loop over the nodes and then runs the resource
    check: it returns false when that one returns and raises what that one
    raises, the warning stays in the report, and every further issue is one
    the resource check appended.  When the loop over the samples raises (on
    a value that [int] rejects, say), both checks end with that exception
    right after the request: no node is looked at, no warning is recorded
    and nothing is returned. *)
Theorem absent_node_is_warning {RT : PyRuntime} (w : world) s result metrics node :
  node ∈ cluster_nodes (self s) ->
  samples_of result = Return metrics ->
  absent_from node metrics ->
  (forall ns,
     up_status result = Return ns ->
     (answers w (self s) (py "up{job='cadvisor'}") result ->
      exists s',
        check_container_metrics w s = (Return false, s')
        /\ cadvisor_missing node ∈ warnings (report_of s')
        /\ (forall i, i ∈ issues (report_of s') ->
              i ∈ issues (report_of s) \/ exists n, n <> node /\ i = cadvisor_down n))
     /\ (answers w (self s) (py "up{job='node_exporter'}") result ->
         exists s1,
           node_missing node ∈ warnings (report_of s1)
           /\ (forall i, i ∈ issues (report_of s1) ->
                 i ∈ issues (report_of s) \/ exists n, n <> node /\ i = node_down n)
           /\ check_node_health w s =
              (rbind (fst (check_node_resources w s1)) (fun _ => Return false),
               snd (check_node_resources w s1))
           /\ node_missing node ∈ warnings (report_of (snd (check_node_resources w s1)))
           /\ issues (report_of s1)
              `prefix_of` issues (report_of (snd (check_node_resources w s1))))
     /\ (forall acc s0,
           (exists t, cadvisor_verdict ns acc node s0
                      = (Return false,
                         mk_state (record_warning (cadvisor_missing node) (self s0)) t))
           /\ (exists t, node_verdict ns acc node s0
                         = (Return false,
                            mk_state (record_warning (node_missing node) (self s0)) t))
           /\ issues (health_report (record_warning (cadvisor_missing node) (self s0)))
              = issues (report_of s0)
           /\ issues (health_report (record_warning (node_missing node) (self s0)))
              = issues (report_of s0)))
  /\ (forall e,
        up_status result = Raise e ->
        (answers w (self s) (py "up{job='cadvisor'}") result ->
         check_container_metrics w s =
         (Raise e,
          mk_state (self s)
            (trace s ++ [cadvisor_banner;
                         Get (prometheus_request (self s) (py "up{job='cadvisor'}"))])))
        /\ (answers w (self s) (py "up{job='node_exporter'}") result ->
            check_node_health w s =
            (Raise e,
             mk_state (self s)
               (trace s ++ [node_banner;
                            Get (prometheus_request (self s)
                                   (py "up{job='node_exporter'}"))])))).
Proof.
  intros Hnode Hs Ha.
  pose proof (samples_truthy _ _ Hs) as Ht.
  split.
  2:{ intros e Hu. split; intros Hq.
      - apply (check_container_metrics_raises w s result e Hq Ht Hu).
      - apply (check_node_health_raises w s result e Hq Ht Hu). }
  intros ns Hu.
  pose proof (up_status_absent _ _ _ _ Hs Hu Ha) as Hnone.
  split; [|split].
  - intros Hq. rewrite (check_container_metrics_run w s result ns Hq Ht Hu).
    destruct (verdict_loop cadvisor_verdict cadvisor_down cadvisor_missing ns
                (cadvisor_verdict_cases ns) (cluster_nodes (self s)) true
                (mk_state (self s)
                   (trace s ++ [cadvisor_banner;
                                Get (prometheus_request (self s) (py "up{job='cadvisor'}"))])))
      as (b & s' & Hrun & Hb & Hw & Hi & _).
    exists s'. split; [|split].
    + rewrite Hrun. destruct b; [|reflexivity].
      destruct (Hb eq_refl) as [_ Hall]. specialize (Hall node Hnode). congruence.
    + apply Hw; assumption.
    + intros i Hin. destruct (Hi i Hin) as [Hold|(n & _ & Hf & ->)]; [left; exact Hold|].
      right. exists n. split; [congruence|reflexivity].
  - intros Hq. rewrite (check_node_health_run w s result ns Hq Ht Hu).
    destruct (verdict_loop node_verdict node_down node_missing ns
                (node_verdict_cases ns) (cluster_nodes (self s)) true
                (mk_state (self s)
                   (trace s ++ [node_banner;
                                Get (prometheus_request (self s)
                                       (py "up{job='node_exporter'}"))])))
      as (b & s1 & Hrun & Hb & Hw & Hi & _).
    assert (b = false) as ->.
    { destruct b; [|reflexivity].
      destruct (Hb eq_refl) as [_ Hall]. specialize (Hall node Hnode). congruence. }
    exists s1. split; [apply Hw; assumption|]. split; [|split; [|split]].
    + intros i Hin. destruct (Hi i Hin) as [Hold|(n & _ & Hf & ->)]; [left; exact Hold|].
      right. exists n. split; [congruence|reflexivity].
    + unfold bind at 1. rewrite Hrun. unfold bind, ret, rbind.
      destruct (check_node_resources w s1) as [[u|e] s2]; reflexivity.
    + apply (grows_warning _ (self s1)); [apply resources_grow|].
      apply Hw; assumption.
    + destruct (resources_grow w s1) as (Hp & _). exact Hp.
  - intros acc s0.
    pose proof (cadvisor_verdict_cases ns acc node s0) as Hc.
    pose proof (node_verdict_cases ns acc node s0) as Hn.
    rewrite Hnone in Hc, Hn.
    split; [exact Hc|]. split; [exact Hn|].
    split; apply record_warning_issues.
Qed.

(** With three nodes up and ["kube511.home"] missing from both result sets,
    both checks return false and hold the warning for that node. *)
Lemma absent_node_is_warning_witness :
  (exists s',
     check_container_metrics (RT := Runtime.cpython) Scenarios.one_absent Scenarios.manager0
     = (Return false, s')
     /\ py "cAdvisor not reporting from kube511.home" ∈ warnings (report_of s'))
  /\ fst (check_node_health (RT := Runtime.cpython) Scenarios.one_absent Scenarios.manager0)
     = Return false.
Proof.
  assert (py "kube511.home" ∈ cluster_nodes (self Scenarios.manager0)) as Hnode
    by (vm_compute; do 3 apply list_elem_of_further; apply list_elem_of_here).
  assert (samples_of (Scenarios.vector Scenarios.three_up) = Return Scenarios.three_up) as Hs
    by (vm_compute; reflexivity).
  assert (up_status (RT := Runtime.cpython) (Scenarios.vector Scenarios.three_up)
          = Return Scenarios.three_up_status) as Hu
    by (vm_compute; reflexivity).
  assert (absent_from (py "kube511.home") Scenarios.three_up) as Ha
    by (repeat constructor; vm_compute; intros E; discriminate E).
  destruct (absent_node_is_warning (RT := Runtime.cpython) Scenarios.one_absent
              Scenarios.manager0 _ _ _ Hnode Hs Ha) as (Hok & _).
  destruct (Hok _ Hu) as (Hc & Hn & _).
  split.
  - destruct Hc as (s' & Hrun & Hw & _).
    + exists (Scenarios.ok_response
                (prometheus_request (self Scenarios.manager0) (py "up{job='cadvisor'}"))
                (Scenarios.vector Scenarios.three_up)).
      repeat split; vm_compute; reflexivity.
    + exists s'. split; [exact Hrun|exact Hw].
  - destruct Hn as (s1 & _ & _ & Hrun & _).
    + exists (Scenarios.ok_response
                (prometheus_request (self Scenarios.manager0) (py "up{job='node_exporter'}"))
                (Scenarios.vector Scenarios.three_up)).
      repeat split; vm_compute; reflexivity.
    + vm_compute. reflexivity.
Defined.

(** C4 as stated fails in three ways.  When a sample of the result set
    does not convert (the value 0.5), ["kube502.home"] is in the node list
    and in no sample, and both checks end with the [ValueError] of [int]:
    no warning is recorded and nothing is returned.  When the samples
    convert, the node-exporter check goes on to the resource check: a CPU
    sample of 95 for the absent node puts an issue for that node in the
    report, and a CPU value that is no number ends the check with the
    [ValueError] of [float] in place of the result false. *)
Lemma absent_node_without_warning :
  let cadvisor := check_container_metrics (RT := Runtime.cpython) Scenarios.half_up
                    Scenarios.manager0 in
  let node := check_node_health (RT := Runtime.cpython) Scenarios.half_up
                Scenarios.manager0 in
  let busy := check_node_health (RT := Runtime.cpython) Scenarios.absent_and_busy
                Scenarios.manager0 in
  let unreadable := check_node_health (RT := Runtime.cpython) Scenarios.absent_and_unreadable
                      Scenarios.manager0 in
  (py "kube502.home" ∈ cluster_nodes (self Scenarios.manager0)
   /\ absent_from (py "kube502.home") [Scenarios.sample "kube501.home" "0.5"]
   /\ fst cadvisor = Raise (Runtime.invalid_int (py "0.5"))
   /\ warnings (report_of (snd cadvisor)) = []
   /\ fst node = Raise (Runtime.invalid_int (py "0.5"))
   /\ warnings (report_of (snd node)) = [])
  /\ (absent_from (py "kube511.home") Scenarios.three_up
      /\ fst busy = Return false
      /\ warnings (report_of (snd busy)) = [py "No metrics found for kube511.home"]
      /\ issues (report_of (snd busy)) = [py "High CPU usage on kube511.home: 95.0%"])
  /\ (fst unreadable = Raise (Runtime.invalid_float (py "n/a"))
      /\ warnings (report_of (snd unreadable)) = [py "No metrics found for kube511.home"]).
Proof.
  cbv zeta. split; [|split].
  - split; [vm_compute; apply list_elem_of_further, list_elem_of_here|].
    split; [repeat constructor; vm_compute; intros E; discriminate E|].
    repeat split; vm_compute; reflexivity.
  - split; [repeat constructor; vm_compute; intros E; discriminate E|].
    repeat split; vm_compute; reflexivity.
  - split; vm_compute; reflexivity.
Qed.

End HealthProps.

(* ===================================================================== *)
(** * Properties of the reporter, and of both query clients               *)
(* ===================================================================== *)

Module ReporterProps.
Import Py Eff ClusterHealthReporter Reasoning.

Ltac run :=
  cbv [bind try_except print eprint emit get_self set_self requests_get requests_post
       lift ret raise raise_for_status];
  cbn [fst snd self trace].

(** ** The query client of the reporter *)

Section Query.
Context (w : world).

Lemma reporter_query_run q s :
  query_prometheus w q s =
  let rq := prometheus_request (self s) q in
  let failed e :=
    (Return empty_result,
     mk_state (self s)
       (trace s ++ [Get rq; Print Stderr (py "Error querying Prometheus: " ++ exn_str e)])) in
  match http_get w rq with
  | Return r =>
    match status_error r with
    | Some e => failed e
    | None =>
      match resp_json r with
      | Return v => (Return v, mk_state (self s) (trace s ++ [Get rq]))
      | Raise e => failed e
      end
    end
  | Raise e => failed e
  end.
Proof.
  unfold query_prometheus. run.
  destruct (http_get w (prometheus_request (self s) q)) as [r|e]; run.
  - destruct (status_error r) as [e|]; run.
    + rewrite <- !app_assoc. reflexivity.
    + destruct (resp_json r) as [v|e]; run; [reflexivity|].
      rewrite <- !app_assoc. reflexivity.
  - rewrite <- !app_assoc. reflexivity.
Qed.

End Query.

Lemma status_error_range r :
  400 <= status_code r < 600 -> exists e, status_error r = Some e.
Proof.
  intros Hr. unfold status_error.
  destruct ((400 <=? status_code r) && (status_code r <? 500)) eqn:E4; [eexists; reflexivity|].
  destruct ((500 <=? status_code r) && (status_code r <? 600)) eqn:E5; [eexists; reflexivity|].
  apply andb_false_iff in E4, E5. lia.
Qed.

Lemma requests_of_app t1 t2 : requests_of (t1 ++ t2) = requests_of t1 ++ requests_of t2.
Proof.
  induction t1 as [|[ch l|rq|rq p] t1 IH]; simpl; [reflexivity|exact IH| |];
    rewrite IH; reflexivity.
Qed.

(** C3, as the code has it: on a transport error or an error status neither
    query client raises or retries.  The reporter's returns the empty
    result set and prints the error to stderr, on any exception and on any
    status from 400 to 599.  The health check's returns [None]: on a
    transport error after recording the issue (printed to stdout, status
    UNHEALTHY), on any status other than 200 after the one request. *)
Theorem query_client_fails_soft (w : world) :
  (forall q s,
     exists v t,
       query_prometheus w q s = (Return v, mk_state (self s) t)
       /\ requests_of t = requests_of (trace s) ++ [prometheus_request (self s) q])
  /\ (forall q s e,
        http_get w (prometheus_request (self s) q) = Raise e ->
        query_prometheus w q s =
        (Return empty_result,
         mk_state (self s)
           (trace s ++ [Get (prometheus_request (self s) q);
                        Print Stderr (py "Error querying Prometheus: " ++ exn_str e)])))
  /\ (forall q s r,
        http_get w (prometheus_request (self s) q) = Return r ->
        400 <= status_code r < 600 ->
        exists e,
          status_error r = Some e
          /\ query_prometheus w q s =
             (Return empty_result,
              mk_state (self s)
                (trace s ++ [Get (prometheus_request (self s) q);
                             Print Stderr (py "Error querying Prometheus: " ++ exn_str e)])))
  /\ (forall q s e,
        http_get w (K8sHealthManager.prometheus_request (self s) q) = Raise e ->
        is_RequestException e = true ->
        let msg := py "Prometheus query failed: " ++ exn_str e in
        K8sHealthManager.query_prometheus w q s =
        (Return PNone,
         mk_state (K8sHealthManager.record_issue msg (self s))
           (trace s ++ [Get (K8sHealthManager.prometheus_request (self s) q);
                        K8sHealthManager.issue_line msg])))
  /\ (forall q s r,
        http_get w (K8sHealthManager.prometheus_request (self s) q) = Return r ->
        status_code r <> 200 ->
        exists s',
          K8sHealthManager.query_prometheus w q s = (Return PNone, s')
          /\ requests_of (trace s')
             = requests_of (trace s) ++ [K8sHealthManager.prometheus_request (self s) q]).
Proof.
  split; [|split; [|split; [|split]]].
  - intros q s. rewrite reporter_query_run. cbv zeta.
    destruct (http_get w (prometheus_request (self s) q)) as [r|e];
      [destruct (status_error r) as [e|]; [|destruct (resp_json r) as [v|e]]|];
      do 2 eexists; (split; [reflexivity|]); rewrite requests_of_app; reflexivity.
  - intros q s e He. rewrite reporter_query_run. cbv zeta. rewrite He. reflexivity.
  - intros q s r Hr Hcode. destruct (status_error_range r Hcode) as [e He].
    exists e. split; [exact He|].
    rewrite reporter_query_run. cbv zeta. rewrite Hr, He. reflexivity.
  - intros q s e He Hc. rewrite HealthProps.query_prometheus_run. cbv zeta.
    rewrite He, Hc. reflexivity.
  - intros q s r Hr Hcode. rewrite HealthProps.query_prometheus_run. cbv zeta.
    rewrite Hr. apply Z.eqb_neq in Hcode. rewrite Hcode.
    eexists. split; [reflexivity|]. cbn [trace]. rewrite requests_of_app. reflexivity.
Qed.

(** Against a backend that refuses the connection the reporter's query
    returns the empty result set and prints to stderr. *)
Lemma query_client_fails_soft_witness :
  query_prometheus Scenarios.down_world node_query Scenarios.reporter0 =
  (Return empty_result,
   mk_state (self Scenarios.reporter0)
     [Get (prometheus_request (self Scenarios.reporter0) node_query);
      Print Stderr (py "Error querying Prometheus: Connection refused")]).
Proof.
  rewrite (proj1 (proj2 (query_client_fails_soft Scenarios.down_world))
             node_query Scenarios.reporter0
             (mk_exn RequestException (py "Connection refused")));
    vm_compute; reflexivity.
Defined.

(** C3 as stated fails in the health check.  When Prometheus answers 500,
    [check_container_metrics] and [query_prometheus] under it print and
    record nothing about the failure: the trace holds the banner and the
    request only, the report is untouched, and a whole run against such a
    backend ends HEALTHY with exit code 0.  When the connection is refused,
    the result is [None] and the message is an issue printed to stdout. *)
Lemma server_error_goes_unreported :
  K8sHealthManager.check_container_metrics (RT := Runtime.cpython)
    Scenarios.error_world Scenarios.manager0
  = (Return false,
     mk_state (self Scenarios.manager0)
       [K8sHealthManager.cadvisor_banner;
        Get (K8sHealthManager.prometheus_request (self Scenarios.manager0)
               Scenarios.up_cadvisor)])
  /\ fst (K8sHealthManager.main (RT := Runtime.cpython) Scenarios.metrics_unavailable
            Scenarios.now_iso 0 0) = Return 0
  /\ K8sHealthManager.query_prometheus Scenarios.down_world Scenarios.up_cadvisor
       Scenarios.manager0
     = (Return PNone,
        mk_state
          (K8sHealthManager.record_issue (py "Prometheus query failed: Connection refused")
             (self Scenarios.manager0))
          [Get (K8sHealthManager.prometheus_request (self Scenarios.manager0)
                  Scenarios.up_cadvisor);
           Print Stdout (py "  ❌ ISSUE: Prometheus query failed: Connection refused")]).
Proof.
  repeat split; vm_compute; reflexivity.
Qed.

(** ** Up and down *)

Lemma eq_str_spec v s : eq_str v s = true <-> v = PStr s.
Proof.
  destruct v as [| | | |t| |]; simpl; try (split; [discriminate|intros E; discriminate E]).
  rewrite str_eqb_eq. split; [intros ->; reflexivity|intros E; injection E; auto].
Qed.

Lemma up_is_not_down : py "UP" <> py "DOWN".
Proof. vm_compute. intros E. discriminate E. Qed.

(** C7, as the code has it.  The reporter compares the value with the
    string ['1']: that sample is UP, every other is DOWN.  The health check
    converts the value with [int]: a value that converts to 1 is up, one
    that converts to another integer is down.  When the up query is
    answered with status 200 and [int] raises on the value of a sample, the
    samples before it having converted, the exception it raises ends the
    node-exporter check and the cAdvisor check right after the one request:
    the report is untouched and no line of a node is printed, so no node is
    classified. *)
Theorem up_down_classification {RT : PyRuntime} :
  (forall item n v,
     item_node item = Return n ->
     item_value item = Return v ->
     exists e,
       node_entry_of item = Return e
       /\ node e = n
       /\ (status e = py "UP" <-> v = PStr (py "1"))
       /\ (status e = py "DOWN" <-> v <> PStr (py "1")))
  /\ (forall ns metric i v,
        K8sHealthManager.instance_of metric = Return (PStr i) ->
        K8sHealthManager.sample_value metric = Return v ->
        (forall z, py_int v = Return z ->
           exists ns', K8sHealthManager.up_sample ns metric = Return ns'
                       /\ ns' !! i = Some (z =? 1))
        /\ (forall e, py_int v = Raise e ->
              K8sHealthManager.up_sample ns metric = Raise e))
  /\ (forall (w : world) s result pre metric post ns0 inst v e,
        K8sHealthManager.samples_of result = Return (pre ++ metric :: post) ->
        rfold pre ∅ K8sHealthManager.up_sample = Return ns0 ->
        K8sHealthManager.instance_of metric = Return inst ->
        K8sHealthManager.sample_value metric = Return v ->
        py_int v = Raise e ->
        (K8sHealthManager.answers w (self s) (py "up{job='node_exporter'}") result ->
         K8sHealthManager.check_node_health w s =
         (Raise e,
          mk_state (self s)
            (trace s ++ [K8sHealthManager.node_banner;
                         Get (K8sHealthManager.prometheus_request (self s)
                                (py "up{job='node_exporter'}"))])))
        /\ (K8sHealthManager.answers w (self s) (py "up{job='cadvisor'}") result ->
            K8sHealthManager.check_container_metrics w s =
            (Raise e,
             mk_state (self s)
               (trace s ++ [K8sHealthManager.cadvisor_banner;
                            Get (K8sHealthManager.prometheus_request (self s)
                                   (py "up{job='cadvisor'}"))])))).
Proof.
  split; [|split].
  - intros item n v Hn Hv. unfold node_entry_of. rewrite Hn, Hv. simpl.
    eexists. split; [reflexivity|]. split; [reflexivity|]. simpl.
    destruct (eq_str v (py "1")) eqn:E.
    + apply eq_str_spec in E. subst v. split; split; intros H; try reflexivity.
      * exfalso. apply up_is_not_down. exact H.
      * exfalso. apply H. reflexivity.
    + split; split; intros H; try reflexivity.
      * exfalso. apply up_is_not_down. symmetry. exact H.
      * apply eq_str_spec in H. congruence.
      * intros Hv1. apply eq_str_spec in Hv1. congruence.
  - intros ns metric i v Hi Hv. unfold K8sHealthManager.up_sample.
    rewrite Hi, Hv. simpl. split.
    + intros z Hz. rewrite Hz. simpl. eexists. split; [reflexivity|].
      apply lookup_insert_eq.
    + intros e He. rewrite He. reflexivity.
  - intros w s result pre metric post ns0 inst v e Hs Hpre Hi Hv He.
    pose proof (HealthProps.samples_truthy _ _ Hs) as Ht.
    pose proof (HealthProps.up_status_raises_at result pre metric post ns0 inst v e
                  Hs Hpre Hi Hv He) as Hu.
    split; intros Hq.
    + apply (HealthProps.check_node_health_raises w s result e Hq Ht Hu).
    + apply (HealthProps.check_container_metrics_raises w s result e Hq Ht Hu).
Qed.

(** A sample with the value ["1"] is up in the dict of the health check;
    with the value ["0.5"] as the one sample of the answer, the node-exporter
    check ends with the [ValueError] of [int] after its request. *)
Lemma up_down_classification_witness :
  (exists ns',
     K8sHealthManager.up_sample (RT := Runtime.cpython) ∅
       (Scenarios.sample "kube501.home" "1") = Return ns'
     /\ ns' !! py "kube501.home" = Some true)
  /\ K8sHealthManager.check_node_health (RT := Runtime.cpython) Scenarios.half_up
       Scenarios.manager0
     = (Raise (Runtime.invalid_int (py "0.5")),
        mk_state (self Scenarios.manager0)
          [K8sHealthManager.node_banner;
           Get (K8sHealthManager.prometheus_request (self Scenarios.manager0)
                  (py "up{job='node_exporter'}"))]).
Proof.
  destruct (up_down_classification (RT := Runtime.cpython)) as (_ & Hdict & Hcheck).
  split.
  - destruct (Hdict ∅ (Scenarios.sample "kube501.home" "1") (py "kube501.home")
                (PStr (py "1")))
      as [Hup _]; [vm_compute; reflexivity|vm_compute; reflexivity|].
    destruct (Hup 1) as (ns' & Hrun & Hl); [vm_compute; reflexivity|].
    exists ns'. split; [exact Hrun|exact Hl].
  - assert (K8sHealthManager.samples_of
              (Scenarios.vector [Scenarios.sample "kube501.home" "0.5"])
            = Return ([] ++ Scenarios.sample "kube501.home" "0.5" :: [])) as Hs
      by (vm_compute; reflexivity).
    assert (K8sHealthManager.instance_of (Scenarios.sample "kube501.home" "0.5")
            = Return (PStr (py "kube501.home"))) as Hi by (vm_compute; reflexivity).
    assert (K8sHealthManager.sample_value (Scenarios.sample "kube501.home" "0.5")
            = Return (PStr (py "0.5"))) as Hv by (vm_compute; reflexivity).
    assert (@py_int Runtime.cpython (PStr (py "0.5"))
            = Raise (Runtime.invalid_int (py "0.5"))) as He by (vm_compute; reflexivity).
    destruct (Hcheck Scenarios.half_up Scenarios.manager0 _ _ _ _ ∅ _ _ _
                Hs eq_refl Hi Hv He) as [Hnode _].
    apply Hnode.
    exists (Scenarios.ok_response
              (K8sHealthManager.prometheus_request (self Scenarios.manager0)
                 (py "up{job='node_exporter'}"))
              (Scenarios.vector [Scenarios.sample "kube501.home" "0.5"])).
    repeat split; vm_compute; reflexivity.
Defined.

(** C7 as stated fails in the health check: a sample whose value is 0.5 is
    other than 1, the reporter shows it DOWN, and the health check does not
    classify it: [int('0.5')] raises, [check_node_health] ends with the
    exception and the report holds no issue for the node. *)
Lemma half_up_is_not_classified :
  let metric := Scenarios.sample "kube501.home" "0.5" in
  let run := K8sHealthManager.check_node_health (RT := Runtime.cpython)
               Scenarios.half_up Scenarios.manager0 in
  node_entry_of metric = Return {| node := PStr (py "kube501.home"); status := py "DOWN" |}
  /\ K8sHealthManager.up_sample (RT := Runtime.cpython) ∅ metric
     = Raise (Runtime.invalid_int (py "0.5"))
  /\ fst run = Raise (Runtime.invalid_int (py "0.5"))
  /\ K8sHealthManager.issues (K8sHealthManager.report_of (snd run)) = [].
Proof.
  cbv zeta. repeat split; vm_compute; reflexivity.
Qed.

(** ** The webhook *)

Lemma discord_content_short report :
  (length report < 1990)%nat -> discord_content report = report.
Proof.
  intros Hl. unfold discord_content.
  destruct (length report <? 1990)%nat eqn:E; [reflexivity|].
  apply Nat.ltb_ge in E. lia.
Qed.

Lemma discord_content_long report :
  (1990 <= length report)%nat ->
  discord_content report = firstn 1990 report ++ truncation_suffix.
Proof.
  intros Hl. unfold discord_content.
  destruct (length report <? 1990)%nat eqn:E; [|reflexivity].
  apply Nat.ltb_lt in E. lia.
Qed.

Lemma truncation_suffix_length : length truncation_suffix = 16%nat.
Proof. vm_compute. reflexivity. Qed.

Lemma discord_content_at_budget report :
  length report = 1990%nat ->
  discord_content report = report ++ truncation_suffix
  /\ discord_content report <> report
  /\ length (discord_content report) = 2006%nat.
Proof.
  intros Hl. rewrite discord_content_long by lia.
  rewrite firstn_all2 by lia.
  split; [reflexivity|]. split.
  - intros E. apply (f_equal (@length N)) in E.
    rewrite length_app, truncation_suffix_length in E. lia.
  - rewrite length_app, truncation_suffix_length. lia.
Qed.

Lemma send_to_discord_run (w : world) report url s :
  send_to_discord w report url s =
  if bool_decide (url = []) then
    (Return tt,
     mk_state (self s)
       (trace s ++ [Print Stdout (py "Discord webhook not configured, skipping notification")]))
  else
    let sent := Post (webhook_request url) (discord_payload (discord_content report)) in
    let failed e :=
      (Return tt,
       mk_state (self s)
         (trace s ++ [sent; Print Stderr (py "Error sending to Discord: " ++ exn_str e)])) in
    match http_post w (webhook_request url) (discord_payload (discord_content report)) with
    | Return r =>
      match status_error r with
      | Some e => failed e
      | None =>
        (Return tt,
         mk_state (self s)
           (trace s ++ [sent; Print Stdout (py "Report sent to Discord successfully")]))
      end
    | Raise e => failed e
    end.
Proof.
  unfold send_to_discord. destruct (bool_decide (url = [])); [reflexivity|].
  cbv zeta. run.
  destruct (http_post w (webhook_request url) (discord_payload (discord_content report)))
    as [r|e]; run.
  - destruct (status_error r) as [e|]; run; rewrite <- !app_assoc; reflexivity.
  - rewrite <- !app_assoc. reflexivity.
Qed.

(** C6: what the webhook sink sends.  A report shorter than 1990 characters
    goes out as it is, and a longer one as its first 1990 characters and the
    suffix; a report of exactly 1990 characters goes out whole with the
    suffix appended, though nothing was cut.  Without a webhook URL one line
    is printed and nothing is sent; with one, the content goes out once,
    wrapped in the code-block payload, and the call returns whatever the
    webhook answers. *)
Theorem webhook_content_budget :
  (forall report, (length report < 1990)%nat -> discord_content report = report)
  /\ (forall report, (1990 < length report)%nat ->
        discord_content report = firstn 1990 report ++ truncation_suffix
        /\ length (discord_content report) = 2006%nat)
  /\ (forall report, length report = 1990%nat ->
        discord_content report = report ++ truncation_suffix
        /\ discord_content report <> report)
  /\ (forall w report s,
        send_to_discord w report [] s =
        (Return tt,
         mk_state (self s)
           (trace s ++ [Print Stdout
                          (py "Discord webhook not configured, skipping notification")])))
  /\ (forall w report url s,
        url <> [] ->
        exists line,
          send_to_discord w report url s =
          (Return tt,
           mk_state (self s)
             (trace s ++ [Post (webhook_request url)
                            (discord_payload (discord_content report));
                          line]))
          /\ requests_of [line] = []).
Proof.
  split; [exact discord_content_short|].
  split; [|split; [|split]].
  - intros report Hl. rewrite discord_content_long by lia. split; [reflexivity|].
    rewrite length_app, length_firstn, truncation_suffix_length. lia.
  - intros report Hl. destruct (discord_content_at_budget report Hl) as (E & Hne & _).
    split; assumption.
  - intros w report s. rewrite send_to_discord_run. reflexivity.
  - intros w report url s Hurl. rewrite send_to_discord_run.
    rewrite bool_decide_eq_false_2 by exact Hurl. cbv zeta.
    destruct (http_post w (webhook_request url) (discord_payload (discord_content report)))
      as [r|e]; [destruct (status_error r) as [e|]|];
      eexists; (split; [reflexivity|reflexivity]).
Qed.

(** A report of 1990 letters is sent as 2006 characters, marker included. *)
Lemma webhook_content_budget_witness :
  discord_content Scenarios.report_1990 = Scenarios.report_1990 ++ truncation_suffix
  /\ discord_content Scenarios.report_1990 <> Scenarios.report_1990.
Proof.
  apply (proj1 (proj2 (proj2 webhook_content_budget)) Scenarios.report_1990).
  vm_compute. reflexivity.
Defined.

(** ** The pod counts *)

Lemma pod_section_lines pods :
  pod_section pods =
  [py "## Pod Status";
   py "  Total: " ++ str_of_int (default 0 (pods !! py "total"));
   py "  Running: " ++ str_of_int (default 0 (pods !! py "running"));
   py "  Pending: " ++ str_of_int (default 0 (pods !! py "pending"));
   py "  Failed: " ++ str_of_int (default 0 (pods !! py "failed"));
   []].
Proof. reflexivity. Qed.

(** C8, as the code has it: pod counts with running 8, pending 1, failed 0
    and total 9 render, in every daily report, as the heading followed by
    exactly four count lines in the order total, running, pending, failed,
    and a blank line before the alerts. *)
Theorem pod_counts_render {RT : PyRuntime} stamp nodes usage pods alerts ls :
  pods !! py "running" = Some 8 ->
  pods !! py "pending" = Some 1 ->
  pods !! py "failed" = Some 0 ->
  pods !! py "total" = Some 9 ->
  daily_lines stamp nodes usage pods alerts = Return ls ->
  exists pre post,
    ls = pre ++ [py "## Pod Status"; py "  Total: 9"; py "  Running: 8";
                 py "  Pending: 1"; py "  Failed: 0"; []]
             ++ py "## Active Alerts" :: post.
Proof.
  intros Hr Hp Hf Ht E. unfold daily_lines in E. cbv zeta in E.
  destruct (match alerts with
            | [] => Return [py "  ✅ No active alerts"]
            | _ :: _ => alert_lines alerts
            end) as [als|e]; [|discriminate E].
  unfold rbind in E. apply Return_inj in E. subst ls.
  rewrite pod_section_lines, Hr, Hp, Hf, Ht. cbn [default].
  change (str_of_int 9) with (py "9"). change (str_of_int 8) with (py "8").
  change (str_of_int 1) with (py "1"). change (str_of_int 0) with (py "0").
  exists ([repeat_str (py "=") 60; py "Kubernetes Cluster Health Report - Daily";
           py "Generated: " ++ strftime_datetime stamp; repeat_str (py "=") 60; []]
          ++ ([py "## Node Status"] ++ List.map node_line nodes ++ [[]])
          ++ [py "## Resource Usage"] ++ List.concat (List.map usage_section usage)),
         (als ++ [[]] ++ [repeat_str (py "=") 60]).
  rewrite <- !app_assoc. reflexivity.
Qed.

(** The scenario's counts, rendered with no other facts. *)
Lemma pod_counts_render_witness :
  exists pre post,
    [repeat_str (py "=") 60;
     py "Kubernetes Cluster Health Report - Daily";
     py "Generated: 2026-11-03 23:59:58";
     repeat_str (py "=") 60; [];
     py "## Node Status"; [];
     py "## Resource Usage";
     py "## Pod Status"; py "  Total: 9"; py "  Running: 8"; py "  Pending: 1";
     py "  Failed: 0"; [];
     py "## Active Alerts"; py "  ✅ No active alerts"; [];
     repeat_str (py "=") 60]
    = pre ++ [py "## Pod Status"; py "  Total: 9"; py "  Running: 8";
              py "  Pending: 1"; py "  Failed: 0"; []]
          ++ py "## Active Alerts" :: post.
Proof.
  apply (pod_counts_render (RT := Runtime.cpython) (Scenarios.at_time 2026 11 3 23 59 58)
           [] [] Scenarios.pods_8_1_0_9 []); vm_compute; reflexivity.
Defined.

(** C8 as stated fails on the order: the first count line is the total, and
    nowhere do the four lines stand in the order running, pending, failed,
    total; so it is in the report rendered from a backend with these counts. *)
Lemma pod_lines_start_with_total :
  pod_section Scenarios.pods_8_1_0_9
  = [py "## Pod Status"; py "  Total: 9"; py "  Running: 8"; py "  Pending: 1";
     py "  Failed: 0"; []]
  /\ ~ (exists pre post,
          pod_section Scenarios.pods_8_1_0_9
          = pre ++ [py "  Running: 8"; py "  Pending: 1"; py "  Failed: 0"; py "  Total: 9"]
                ++ post)
  /\ (let report := fst (generate_daily_report (RT := Runtime.cpython)
                           Scenarios.busy_cluster Scenarios.reporter0) in
      returned_text_has
        (join nl [py "  Total: 9"; py "  Running: 8"; py "  Pending: 1"; py "  Failed: 0"])
        report = true
      /\ returned_text_has
           (join nl [py "  Running: 8"; py "  Pending: 1"; py "  Failed: 0"; py "  Total: 9"])
           report = false).
Proof.
  assert (pod_section Scenarios.pods_8_1_0_9
          = [py "## Pod Status"; py "  Total: 9"; py "  Running: 8"; py "  Pending: 1";
             py "  Failed: 0"; []]) as E0 by (vm_compute; reflexivity).
  split; [exact E0|]. split.
  - intros (pre & post & E). rewrite E0 in E. vm_compute in E.
    repeat (destruct pre as [|? pre]; simpl in E;
            [discriminate E|first [discriminate E|injection E as _ E]]).
  - cbv zeta. split; vm_compute; reflexivity.
Qed.

(** ** Rendering twice *)

Ltac rso_step :=
  match goal with
  | |- reads_self_only (bind _ _) => apply rso_bind; [|intros ?]
  | |- reads_self_only (try_except _ _ _) => apply rso_try_except; [|intros ?]
  | |- reads_self_only (for_each _ _ _) => apply rso_for_each; intros ? ?
  | |- reads_self_only (ret _) => apply rso_ret
  | |- reads_self_only (raise _) => apply rso_raise
  | |- reads_self_only (lift _) => apply rso_lift
  | |- reads_self_only get_self => apply rso_get_self
  | |- reads_self_only (emit _) => apply rso_emit
  | |- reads_self_only (print _) => apply rso_emit
  | |- reads_self_only (eprint _) => apply rso_emit
  | |- reads_self_only (requests_get _ _) => apply rso_requests_get
  | |- reads_self_only (raise_for_status _) => apply rso_raise_for_status
  end.

Section Repeat.
Context {RT : PyRuntime} (w : world).

Lemma rso_query_prometheus q : reads_self_only (query_prometheus w q).
Proof. unfold query_prometheus. repeat rso_step. Qed.

Ltac fact_step :=
  match goal with
  | |- reads_self_only (query_prometheus _ _) => apply rso_query_prometheus
  | _ => rso_step
  end.

Lemma rso_get_node_status : reads_self_only (get_node_status w).
Proof. unfold get_node_status. repeat fact_step. Qed.

Lemma rso_get_resource_usage : reads_self_only (get_resource_usage w).
Proof. unfold get_resource_usage. repeat fact_step. Qed.

Lemma rso_get_pod_status : reads_self_only (get_pod_status w).
Proof. unfold get_pod_status. repeat fact_step. Qed.

Lemma rso_get_alerts : reads_self_only (get_alerts w).
Proof. unfold get_alerts. repeat fact_step. Qed.

Lemma rso_generate_daily_report : reads_self_only (generate_daily_report w).
Proof.
  unfold generate_daily_report.
  repeat match goal with
         | |- reads_self_only (get_node_status _) => apply rso_get_node_status
         | |- reads_self_only (get_resource_usage _) => apply rso_get_resource_usage
         | |- reads_self_only (get_pod_status _) => apply rso_get_pod_status
         | |- reads_self_only (get_alerts _) => apply rso_get_alerts
         | _ => rso_step
         end.
Qed.

End Repeat.

Lemma minus_days_same_date t1 t2 n :
  same_date t1 t2 ->
  match minus_days t1 n, minus_days t2 n with
  | Return a, Return b => same_date a b
  | Raise e1, Raise e2 => e1 = e2
  | _, _ => False
  end.
Proof.
  intros (Hy & Hm & Hd). unfold minus_days. rewrite Hy, Hm, Hd.
  destruct ((toordinal (year t2) (month t2) (day t2) - n <? 1)
            || (3652059 <? toordinal (year t2) (month t2) (day t2) - n)); [reflexivity|].
  destruct (fromordinal (toordinal (year t2) (month t2) (day t2) - n)) as [[y m] d].
  repeat split.
Qed.

Lemma strftime_date_same a b : same_date a b -> strftime_date a = strftime_date b.
Proof. intros (Hy & Hm & Hd). unfold strftime_date. rewrite Hy, Hm, Hd. reflexivity. Qed.

(** C9, as the code has it: for fixed answers of the backend and a fixed
    reporter (its construction timestamp included), the daily report comes
    out the same whatever ran before, and so does the weekly report when the
    two readings of the clock that [generate_weekly_report] takes fall on
    the same date. *)
Theorem rendering_is_repeatable {RT : PyRuntime} (w : world) :
  (forall s1 s2,
     self s1 = self s2 ->
     fst (generate_daily_report w s1) = fst (generate_daily_report w s2))
  /\ (forall now1 now2 s1 s2,
        self s1 = self s2 ->
        same_date now1 now2 ->
        fst (generate_weekly_report w now1 s1) = fst (generate_weekly_report w now2 s2)).
Proof.
  split.
  - intros s1 s2 E. apply (rso_generate_daily_report w s1 s2 E).
  - intros now1 now2 s1 s2 E Hd. unfold generate_weekly_report. cbv zeta.
    unfold bind at 1 3, lift.
    pose proof (minus_days_same_date now1 now2 7 Hd) as Hm.
    destruct (minus_days now1 7) as [a|e1], (minus_days now2 7) as [b|e2];
      try contradiction; [|cbn [fst]; congruence].
    rewrite (strftime_date_same _ _ Hm), (strftime_date_same _ _ Hd).
    unfold bind, ret.
    destruct (rso_generate_daily_report w s1 s2 E) as [Hf _].
    destruct (generate_daily_report w s1) as [[d1|x1] s1'],
             (generate_daily_report w s2) as [[d2|x2] s2']; cbn [fst] in *;
      try discriminate Hf.
    + apply Return_inj in Hf. subst d2. reflexivity.
    + exact Hf.
Qed.

(** Two weekly reports on the same day, the second after a daily report has
    already been rendered, are the same text. *)
Lemma rendering_is_repeatable_witness :
  fst (generate_weekly_report (RT := Runtime.cpython) Scenarios.busy_cluster
         (Scenarios.at_time 2026 11 4 0 0 1) Scenarios.reporter0)
  = fst (generate_weekly_report (RT := Runtime.cpython) Scenarios.busy_cluster
           (Scenarios.at_time 2026 11 4 18 30 0)
           (snd (generate_daily_report (RT := Runtime.cpython) Scenarios.busy_cluster
                   Scenarios.reporter0))).
Proof.
  apply (proj2 (rendering_is_repeatable (RT := Runtime.cpython) Scenarios.busy_cluster)).
  - vm_compute. reflexivity.
  - repeat split.
Defined.

(** C9 as stated fails.  The weekly report reads the clock inside the
    renderer: with the same answers of the backend and the same reporter,
    a rendering just before midnight and one just after differ in the period
    line.  And the renderer does I/O: one daily report sends nine requests. *)
Lemma weekly_report_depends_on_clock :
  let before := fst (generate_weekly_report (RT := Runtime.cpython) Scenarios.down_world
                       (Scenarios.at_time 2026 11 3 23 59 59) Scenarios.reporter0) in
  let after := fst (generate_weekly_report (RT := Runtime.cpython) Scenarios.down_world
                      (Scenarios.at_time 2026 11 4 0 0 1) Scenarios.reporter0) in
  before <> after
  /\ returned_text_has (py "Period: 2026-10-27 to 2026-11-03") before = true
  /\ returned_text_has (py "Period: 2026-10-28 to 2026-11-04") after = true
  /\ length (requests_of
               (trace (snd (generate_daily_report (RT := Runtime.cpython)
                              Scenarios.down_world Scenarios.reporter0)))) = 9%nat.
Proof.
  cbv zeta. split; [|repeat split; vm_compute; reflexivity].
  intros E.
  apply (f_equal (returned_text_has (py "Period: 2026-10-27 to 2026-11-03"))) in E.
  vm_compute in E. discriminate E.
Qed.

End ReporterProps.

(* ===================================================================== *)
(** * The health check: what a whole run keeps                            *)
(* ===================================================================== *)

Module HealthRun.
Import Py Eff K8sHealthManager Reasoning.

Ltac step := HealthProps.step.

(** ** Relations that the two recording operations respect

    No check calls [add_action], and every check changes the report through
    [add_issue] and [add_warning] only: a relation that holds across these
    two holds across every check and across the run. *)

Section Operations.
Context {RT : PyRuntime} (w : world).
Context (R : manager -> manager -> Prop) `{!PreOrder R}.
Hypothesis R_issue : forall o m, R o (record_issue m o).
Hypothesis R_warning : forall o m, R o (record_warning m o).

Lemma ops_add_issue m : steps R (add_issue m).
Proof. intros s. rewrite HealthProps.add_issue_run. apply R_issue. Qed.

Lemma ops_add_warning m : steps R (add_warning m).
Proof. intros s. rewrite HealthProps.add_warning_run. apply R_warning. Qed.

Ltac op_step :=
  match goal with
  | |- steps _ (add_issue _) => apply ops_add_issue
  | |- steps _ (add_warning _) => apply ops_add_warning
  | _ => step
  end.

Lemma ops_query_prometheus q : steps R (query_prometheus w q).
Proof. unfold query_prometheus. repeat op_step. Qed.

Ltac check_step :=
  match goal with
  | |- steps _ (query_prometheus _ _) => apply ops_query_prometheus
  | _ => op_step
  end.

Lemma ops_cpu_sample metric : steps R (cpu_sample metric).
Proof. unfold cpu_sample. repeat check_step. Qed.

Lemma ops_memory_sample metric : steps R (memory_sample metric).
Proof. unfold memory_sample. repeat check_step. Qed.

Lemma ops_check_node_resources : steps R (check_node_resources w).
Proof.
  unfold check_node_resources, for_samples.
  repeat match goal with
         | |- steps _ (cpu_sample _) => apply ops_cpu_sample
         | |- steps _ (memory_sample _) => apply ops_memory_sample
         | _ => check_step
         end.
Qed.

Lemma ops_node_verdict ns b node : steps R (node_verdict ns b node).
Proof. unfold node_verdict. repeat check_step. Qed.

Lemma ops_cadvisor_verdict ns b node : steps R (cadvisor_verdict ns b node).
Proof. unfold cadvisor_verdict. repeat check_step. Qed.

Lemma ops_check_node_health : steps R (check_node_health w).
Proof.
  unfold check_node_health.
  repeat match goal with
         | |- steps _ (check_node_resources _) => apply ops_check_node_resources
         | |- steps _ (node_verdict _ _ _) => apply ops_node_verdict
         | _ => check_step
         end.
Qed.

Lemma ops_check_kubernetes_api : steps R (check_kubernetes_api w).
Proof. unfold check_kubernetes_api. repeat check_step. Qed.

Lemma ops_check_container_metrics : steps R (check_container_metrics w).
Proof.
  unfold check_container_metrics.
  repeat match goal with
         | |- steps _ (cadvisor_verdict _ _ _) => apply ops_cadvisor_verdict
         | _ => check_step
         end.
Qed.

Lemma ops_critical_pattern a b p : steps R (critical_pattern w a b p).
Proof. unfold critical_pattern. repeat check_step. Qed.

Lemma ops_check_critical_logs a b : steps R (check_critical_logs w a b).
Proof.
  unfold check_critical_logs.
  repeat match goal with
         | |- steps _ (critical_pattern _ _ _ _) => apply ops_critical_pattern
         | _ => check_step
         end.
Qed.

Lemma ops_print_bullets items : steps R (print_bullets items).
Proof. unfold print_bullets. repeat check_step. Qed.

Lemma ops_run_health_check a b : steps R (run_health_check w a b).
Proof.
  unfold run_health_check.
  repeat match goal with
         | |- steps _ (check_node_health _) => apply ops_check_node_health
         | |- steps _ (check_kubernetes_api _) => apply ops_check_kubernetes_api
         | |- steps _ (check_container_metrics _) => apply ops_check_container_metrics
         | |- steps _ (check_critical_logs _ _ _) => apply ops_check_critical_logs
         | |- steps _ (print_bullets _) => apply ops_print_bullets
         | _ => check_step
         end.
Qed.

End Operations.

(** ** The status agrees with the findings *)

Lemma statuses_differ :
  py "UNHEALTHY" <> py "HEALTHY" /\ py "WARNING" <> py "HEALTHY"
  /\ py "UNHEALTHY" <> py "WARNING".
Proof. repeat split; vm_compute; intros E; discriminate E. Qed.

Lemma consistent_init now : consistent (init now).
Proof. reflexivity. Qed.

Lemma consistent_record_issue m o : consistent (record_issue m o).
Proof.
  unfold consistent, record_issue, expected_status.
  cbn [health_report with_report set_status append_issue overall_status issues warnings].
  destruct (issues (health_report o)); reflexivity.
Qed.

Lemma consistent_record_warning m o : consistent o -> consistent (record_warning m o).
Proof.
  destruct statuses_differ as (Hu & Hw & _).
  unfold consistent, record_warning, expected_status. intros Ho.
  destruct (str_eqb (overall_status (health_report o)) (py "HEALTHY")) eqn:E;
    cbn [health_report with_report set_status append_warning overall_status issues
         warnings id].
  - apply str_eqb_eq in E. rewrite E in Ho.
    destruct (issues (health_report o)); [|exfalso; apply Hu; symmetry; exact Ho].
    destruct (warnings (health_report o)); [reflexivity|].
    exfalso. apply Hw. symmetry. exact Ho.
  - rewrite Ho.
    destruct (issues (health_report o)); [|reflexivity].
    destruct (warnings (health_report o)); [|reflexivity].
    rewrite Ho in E. vm_compute in E. discriminate E.
Qed.

Lemma expected_status_cases r :
  (expected_status r = py "UNHEALTHY" <-> issues r <> [])
  /\ (expected_status r = py "WARNING" <-> issues r = [] /\ warnings r <> [])
  /\ (expected_status r = py "HEALTHY" <-> issues r = [] /\ warnings r = []).
Proof.
  destruct statuses_differ as (Hu & Hw & Huw).
  unfold expected_status. destruct (issues r) as [|i l], (warnings r) as [|x xs];
    repeat split; try congruence; intros; try tauto;
    try (exfalso; first [apply Hu|apply Hw|apply Huw]; congruence);
    try (destruct H; congruence).
Qed.

Section Consistent.
Context {RT : PyRuntime} (w : world).

Lemma run_keeps_consistent a b : steps (keeps consistent) (run_health_check w a b).
Proof.
  apply ops_run_health_check; try exact _; intros o m Ho.
  - apply consistent_record_issue.
  - apply consistent_record_warning, Ho.
Qed.

Lemma main_report now a b :
  self (snd (main w now a b)) = self (snd (run_health_check w a b (mk_state (init now) []))).
Proof.
  unfold main, bind, ret.
  destruct (run_health_check w a b (mk_state (init now) [])) as [[r|e] s1]; reflexivity.
Qed.

Lemma main_code now a b code :
  fst (main w now a b) = Return code ->
  code = exit_code (report_of (snd (main w now a b))).
Proof.
  intros E. destruct (main w now a b) as [c s] eqn:Em. cbn [fst snd] in *. subst c.
  unfold main in Em. apply bind_returns in Em. destruct Em as (r & s1 & Erun & E).
  unfold ret in E. injection E as <- <-.
  f_equal. apply (HealthProps.run_health_check_report w a b _ _ _ Erun).
Qed.

End Consistent.

(** X1: Whatever the backends answer, and whether the run completes or ends in
    an exception, the report the process ends with is UNHEALTHY exactly when
    it holds an issue, WARNING exactly when it holds warnings and no issue,
    and HEALTHY exactly when it holds neither.  The exit code of a completed
    run therefore tells the findings: 1 for some issue, 2 for warnings only,
    0 for none. *)
Theorem exit_code_tells_findings {RT : PyRuntime} (w : world) now a b :
  let r := report_of (snd (main w now a b)) in
  (overall_status r = py "UNHEALTHY" <-> issues r <> [])
  /\ (overall_status r = py "WARNING" <-> issues r = [] /\ warnings r <> [])
  /\ (overall_status r = py "HEALTHY" <-> issues r = [] /\ warnings r = [])
  /\ (forall code, fst (main w now a b) = Return code ->
        (code = 1 <-> issues r <> [])
        /\ (code = 2 <-> issues r = [] /\ warnings r <> [])
        /\ (code = 0 <-> issues r = [] /\ warnings r = [])).
Proof.
  cbv zeta.
  assert (consistent (self (snd (main w now a b)))) as Hc.
  { rewrite main_report. apply (run_keeps_consistent w a b (mk_state (init now) [])).
    apply consistent_init. }
  unfold consistent in Hc. unfold report_of.
  destruct (expected_status_cases (health_report (self (snd (main w now a b)))))
    as (Hu & Hw & Hh).
  rewrite <- Hc in Hu, Hw, Hh.
  split; [exact Hu|]. split; [exact Hw|]. split; [exact Hh|].
  intros code Ecode. apply main_code in Ecode. unfold report_of in Ecode.
  destruct statuses_differ as (Duh & Dwh & Duw).
  rewrite <- Hu, <- Hw, <- Hh. subst code. unfold exit_code.
  destruct (str_eqb (overall_status (health_report (self (snd (main w now a b)))))
              (py "UNHEALTHY")) eqn:E1.
  { apply str_eqb_eq in E1. rewrite E1.
    repeat split; intros; try reflexivity; try lia; exfalso; congruence. }
  destruct (str_eqb (overall_status (health_report (self (snd (main w now a b)))))
              (py "WARNING")) eqn:E2.
  { apply str_eqb_eq in E2. rewrite E2.
    repeat split; intros; try reflexivity; try lia; exfalso; congruence. }
  assert (overall_status (health_report (self (snd (main w now a b)))) <> py "UNHEALTHY")
    as N1 by (intros E; apply str_eqb_eq in E; congruence).
  assert (overall_status (health_report (self (snd (main w now a b)))) <> py "WARNING")
    as N2 by (intros E; apply str_eqb_eq in E; congruence).
  repeat split; intros; try reflexivity; try lia; try contradiction.
  destruct (issues (health_report (self (snd (main w now a b))))) as [|i l] eqn:Ei.
  - destruct (warnings (health_report (self (snd (main w now a b))))) as [|x xs] eqn:Ew.
    + apply Hh. split; reflexivity.
    + exfalso. apply N2, Hw. split; [reflexivity|discriminate].
  - exfalso. apply N1, Hu. discriminate.
Qed.

(** ** What a run leaves alone *)

#[export] Instance appends_findings_preorder : PreOrder appends_findings.
Proof.
  split.
  - intros o. unfold appends_findings. repeat split; reflexivity.
  - intros x y z (I1 & W1 & A1 & T1 & N1 & P1 & L1 & K1) (I2 & W2 & A2 & T2 & N2 & P2 & L2 & K2).
    unfold appends_findings.
    split; [etransitivity; eassumption|].
    split; [etransitivity; eassumption|].
    repeat split; congruence.
Qed.

Lemma appends_record_issue m o : appends_findings o (record_issue m o).
Proof.
  unfold appends_findings, record_issue.
  cbn [health_report with_report set_status append_issue overall_status issues warnings
       actions_taken timestamp cluster_nodes prometheus_url loki_url k8s_api_url].
  split; [apply prefix_app_r; reflexivity|]. repeat split; reflexivity.
Qed.

Lemma appends_record_warning m o : appends_findings o (record_warning m o).
Proof.
  unfold appends_findings, record_warning.
  destruct (str_eqb _ _);
    cbn [health_report with_report set_status append_warning overall_status issues warnings
         actions_taken timestamp cluster_nodes prometheus_url loki_url k8s_api_url id];
    (split; [reflexivity|]); (split; [apply prefix_app_r; reflexivity|]);
    repeat split; reflexivity.
Qed.

(** X2: A run, from any state and against any backends, only appends to the
    issues and to the warnings of the report: what was recorded before stays
    first and in order, no action is ever recorded, and the timestamp, the
    node list and the three URLs are as they were.  From a fresh manager the
    list of actions is therefore empty at the end. *)
Theorem run_only_appends_findings {RT : PyRuntime} (w : world) a b :
  (forall s, appends_findings (self s) (self (snd (run_health_check w a b s))))
  /\ (forall now,
        actions_taken (report_of (snd (main w now a b))) = []
        /\ timestamp (report_of (snd (main w now a b))) = now
        /\ cluster_nodes (self (snd (main w now a b))) = cluster_nodes (init now)).
Proof.
  assert (forall s, appends_findings (self s) (self (snd (run_health_check w a b s)))) as H.
  { apply ops_run_health_check; try exact _.
    - intros o m. apply appends_record_issue.
    - intros o m. apply appends_record_warning. }
  split; [exact H|].
  intros now. unfold report_of. rewrite main_report.
  destruct (H (mk_state (init now) [])) as (_ & _ & A & T & N & _).
  cbn [self] in A, T, N. rewrite A, T, N. repeat split; reflexivity.
Qed.

(** ** The tiers of the usage checks *)

Lemma record_warning_warnings m o :
  warnings (health_report (record_warning m o)) = warnings (health_report o) ++ [m].
Proof. unfold record_warning. destruct (str_eqb _ _); reflexivity. Qed.

Lemma record_issue_warnings m o :
  warnings (health_report (record_issue m o)) = warnings (health_report o).
Proof. reflexivity. Qed.

Lemma record_issue_issues m o :
  issues (health_report (record_issue m o)) = issues (health_report o) ++ [m].
Proof. reflexivity. Qed.

Section Usage.
Context {RT : PyRuntime}.

Lemma memory_sample_run metric i v p s :
  instance_of metric = Return (PStr i) ->
  i ∈ cluster_nodes (self s) ->
  sample_value metric = Return v ->
  py_float v = Return p ->
  memory_sample metric s =
  if PrimFloat.ltb 90 p then
    (Return tt,
     mk_state (record_issue (high_memory i p) (self s))
              (trace s ++ [issue_line (high_memory i p); memory_line i p]))
  else if PrimFloat.ltb 80 p then
    (Return tt,
     mk_state (record_warning (elevated_memory i p) (self s))
              (trace s ++ [warning_line (elevated_memory i p); memory_line i p]))
  else (Return tt, mk_state (self s) (trace s ++ [memory_line i p])).
Proof.
  intros Hi Hin Hv Hp. unfold memory_sample. HealthProps.run. rewrite Hi. HealthProps.run.
  unfold in_str_list. rewrite bool_decide_eq_true_2 by exact Hin.
  rewrite Hv. HealthProps.run. rewrite Hp. HealthProps.run.
  unfold high_memory, elevated_memory, memory_line, issue_line, py_str.
  destruct (PrimFloat.ltb 90 p); [|destruct (PrimFloat.ltb 80 p)].
  - HealthProps.run. rewrite <- !app_assoc. reflexivity.
  - rewrite HealthProps.add_warning_run. HealthProps.run. rewrite <- !app_assoc. reflexivity.
  - HealthProps.run. reflexivity.
Qed.

Lemma skipped_sample metric v s :
  instance_of metric = Return v ->
  in_str_list v (cluster_nodes (self s)) = false ->
  cpu_sample metric s = (Return tt, s) /\ memory_sample metric s = (Return tt, s).
Proof.
  intros Hi Hn. unfold cpu_sample, memory_sample. HealthProps.run.
  rewrite Hi. HealthProps.run. rewrite Hn. split; reflexivity.
Qed.

End Usage.

Ltac tiers :=
  repeat split; intros; try reflexivity; try discriminate; try tauto;
  try (exfalso; eapply HealthProps.snoc_neq; eassumption);
  try (exfalso; eapply HealthProps.snoc_neq; symmetry; eassumption);
  try match goal with
      | H : _ /\ _ |- _ => destruct H; discriminate
      | H : _ \/ _ |- _ => destruct H; discriminate
      end;
  auto.

(** X3: The memory check on a sample of a known node whose value converts to
    the percentage [p]: the issue is recorded exactly when [p] is above 90,
    the warning exactly when [p] is above 80 and not above 90, and never
    both; the line of the node is printed last in every case.  The CPU check
    records its warning exactly when [p] is above 75 and not above 90. *)
Theorem usage_sample_tiers {RT : PyRuntime} metric i v p s :
  instance_of metric = Return (PStr i) ->
  i ∈ cluster_nodes (self s) ->
  sample_value metric = Return v ->
  py_float v = Return p ->
  (exists s' t,
     memory_sample metric s = (Return tt, s')
     /\ trace s' = t ++ [memory_line i p]
     /\ (issues (report_of s') = issues (report_of s) ++ [high_memory i p]
         <-> PrimFloat.ltb 90 p = true)
     /\ (issues (report_of s') = issues (report_of s) <-> PrimFloat.ltb 90 p = false)
     /\ (warnings (report_of s') = warnings (report_of s) ++ [elevated_memory i p]
         <-> PrimFloat.ltb 90 p = false /\ PrimFloat.ltb 80 p = true)
     /\ (warnings (report_of s') = warnings (report_of s)
         <-> PrimFloat.ltb 90 p = true \/ PrimFloat.ltb 80 p = false))
  /\ (exists s',
        cpu_sample metric s = (Return tt, s')
        /\ (warnings (report_of s') = warnings (report_of s) ++ [elevated_cpu i p]
            <-> PrimFloat.ltb 90 p = false /\ PrimFloat.ltb 75 p = true)
        /\ (warnings (report_of s') = warnings (report_of s)
            <-> PrimFloat.ltb 90 p = true \/ PrimFloat.ltb 75 p = false)).
Proof.
  intros Hi Hin Hv Hp. split.
  - rewrite (memory_sample_run metric i v p s Hi Hin Hv Hp). unfold report_of.
    destruct (PrimFloat.ltb 90 p); [|destruct (PrimFloat.ltb 80 p)].
    + eexists. exists (trace s ++ [issue_line (high_memory i p)]).
      split; [reflexivity|]. cbn [self trace].
      split; [rewrite <- app_assoc; reflexivity|].
      rewrite record_issue_issues, record_issue_warnings. tiers.
    + eexists. exists (trace s ++ [warning_line (elevated_memory i p)]).
      split; [reflexivity|]. cbn [self trace].
      split; [rewrite <- app_assoc; reflexivity|].
      rewrite HealthProps.record_warning_issues, record_warning_warnings. tiers.
    + eexists. exists (trace s). split; [reflexivity|]. cbn [self trace].
      split; [reflexivity|]. tiers.
  - rewrite (HealthProps.cpu_sample_run metric i v p s Hi Hin Hv Hp). unfold report_of.
    destruct (PrimFloat.ltb 90 p); [|destruct (PrimFloat.ltb 75 p)];
      eexists; (split; [reflexivity|]); cbn [self trace];
      rewrite ?record_issue_warnings, ?record_warning_warnings; tiers.
Qed.

(** A memory sample of 85.5 on a known node is a warning and no issue. *)
Lemma usage_sample_tiers_witness :
  exists s',
    memory_sample (RT := Runtime.cpython) (Scenarios.sample "kube502.home" "85.5")
      Scenarios.manager0 = (Return tt, s')
    /\ warnings (report_of s') = [py "Elevated memory usage on kube502.home: 85.5%"]
    /\ issues (report_of s') = [].
Proof.
  destruct (usage_sample_tiers (RT := Runtime.cpython)
              (Scenarios.sample "kube502.home" "85.5") (py "kube502.home")
              (PStr (py "85.5")) 85.5%float Scenarios.manager0)
    as ((s' & t & Hrun & _ & _ & Hiss & Hwarn & _) & _).
  - vm_compute. reflexivity.
  - vm_compute. apply list_elem_of_further, list_elem_of_here.
  - vm_compute. reflexivity.
  - vm_compute. reflexivity.
  - exists s'. split; [exact Hrun|]. split.
    + rewrite (proj2 Hwarn) by (split; vm_compute; reflexivity).
      vm_compute. reflexivity.
    + rewrite (proj2 Hiss) by (vm_compute; reflexivity). reflexivity.
Defined.

(** X4: The usage loops skip the samples of instances outside the node list
    before they look at the value: whatever the values are, such samples
    change nothing, print nothing and cannot raise. *)
Theorem foreign_samples_are_skipped {RT : PyRuntime} result metrics s :
  samples_of result = Return metrics ->
  Forall (fun metric =>
            exists v, instance_of metric = Return v
                      /\ in_str_list v (cluster_nodes (self s)) = false) metrics ->
  for_samples result cpu_sample s = (Return tt, s)
  /\ for_samples result memory_sample s = (Return tt, s).
Proof.
  intros Hs Hf. unfold for_samples, bind, lift. rewrite Hs. clear Hs.
  induction Hf as [|metric metrics (v & Hi & Hn) _ IH]; [split; reflexivity|].
  destruct (skipped_sample metric v s Hi Hn) as [Ec Em].
  cbn [for_each]. unfold bind. rewrite Ec, Em. exact IH.
Qed.

(** A sample of another host with a value that is no number is passed over. *)
Lemma foreign_samples_are_skipped_witness :
  for_samples (Scenarios.vector [Scenarios.sample "db01.home" "n/a"])
    (cpu_sample (RT := Runtime.cpython)) Scenarios.manager0
  = (Return tt, Scenarios.manager0).
Proof.
  apply (foreign_samples_are_skipped (RT := Runtime.cpython)
           (Scenarios.vector [Scenarios.sample "db01.home" "n/a"])
           [Scenarios.sample "db01.home" "n/a"] Scenarios.manager0).
  - vm_compute. reflexivity.
  - constructor; [|constructor].
    exists (PStr (py "db01.home")). split; vm_compute; reflexivity.
Defined.

(** ** The up query without a result *)

Section NoResult.
Context {RT : PyRuntime} (w : world).

Lemma check_node_health_head s :
  check_node_health w s =
  match query_prometheus w (py "up{job='node_exporter'}")
          (mk_state (self s) (trace s ++ [node_banner])) with
  | (Return result, s1) =>
    if negb (truthy result) then (Return false, s1)
    else (node_status <- lift (up_status result) ;;
          o <- get_self ;;
          all_healthy <- for_each (cluster_nodes o) true (node_verdict node_status) ;;
          check_node_resources w ;;
          ret all_healthy)%py s1
  | (Raise e, s1) => (Raise e, s1)
  end.
Proof.
  unfold check_node_health, bind at 1 2, print, emit, node_banner.
  destruct (query_prometheus w _ _) as [[result|e] s1]; [|reflexivity].
  destruct (negb (truthy result)); reflexivity.
Qed.

Lemma check_container_metrics_head s :
  check_container_metrics w s =
  match query_prometheus w (py "up{job='cadvisor'}")
          (mk_state (self s) (trace s ++ [cadvisor_banner])) with
  | (Return result, s1) =>
    if negb (truthy result) then (Return false, s1)
    else (cadvisor_status <- lift (up_status result) ;;
          o <- get_self ;;
          for_each (cluster_nodes o) true (cadvisor_verdict cadvisor_status))%py s1
  | (Raise e, s1) => (Raise e, s1)
  end.
Proof.
  unfold check_container_metrics, bind at 1 2, print, emit, cadvisor_banner.
  destruct (query_prometheus w _ _) as [[result|e] s1]; [|reflexivity].
  destruct (negb (truthy result)); reflexivity.
Qed.

End NoResult.

(** X5: When the up query brings no result, the node check and the container
    check return false after that one request, and the node check does not
    go on to the CPU and memory checks.  On a status other than 200, and on
    a body that is falsy, nothing is recorded or printed about it; on a
    transport error the one issue of the query client is recorded. *)
Theorem no_up_result_ends_the_check {RT : PyRuntime} (w : world) s :
  let node_rq := prometheus_request (self s) (py "up{job='node_exporter'}") in
  let cadv_rq := prometheus_request (self s) (py "up{job='cadvisor'}") in
  (forall r,
     http_get w node_rq = Return r ->
     status_code r <> 200 \/ (exists v, resp_json r = Return v /\ truthy v = false) ->
     check_node_health w s
     = (Return false, mk_state (self s) (trace s ++ [node_banner; Get node_rq])))
  /\ (forall r,
        http_get w cadv_rq = Return r ->
        status_code r <> 200 \/ (exists v, resp_json r = Return v /\ truthy v = false) ->
        check_container_metrics w s
        = (Return false, mk_state (self s) (trace s ++ [cadvisor_banner; Get cadv_rq])))
  /\ (forall e,
        http_get w node_rq = Raise e -> is_RequestException e = true ->
        let msg := py "Prometheus query failed: " ++ exn_str e in
        check_node_health w s
        = (Return false,
           mk_state (record_issue msg (self s))
             (trace s ++ [node_banner; Get node_rq; issue_line msg])))
  /\ (forall e,
        http_get w cadv_rq = Raise e -> is_RequestException e = true ->
        let msg := py "Prometheus query failed: " ++ exn_str e in
        check_container_metrics w s
        = (Return false,
           mk_state (record_issue msg (self s))
             (trace s ++ [cadvisor_banner; Get cadv_rq; issue_line msg]))).
Proof.
  cbv zeta. split; [|split; [|split]].
  - intros r Hr Hno. rewrite check_node_health_head, HealthProps.query_prometheus_run.
    cbv zeta. cbn [self trace]. rewrite Hr.
    destruct (status_code r =? 200) eqn:E.
    + destruct Hno as [Hc|(v & Hv & Ht)]; [apply Z.eqb_eq in E; contradiction|].
      rewrite Hv, Ht. cbn [negb]. rewrite <- !app_assoc. reflexivity.
    + cbn [truthy negb]. rewrite <- !app_assoc. reflexivity.
  - intros r Hr Hno. rewrite check_container_metrics_head, HealthProps.query_prometheus_run.
    cbv zeta. cbn [self trace]. rewrite Hr.
    destruct (status_code r =? 200) eqn:E.
    + destruct Hno as [Hc|(v & Hv & Ht)]; [apply Z.eqb_eq in E; contradiction|].
      rewrite Hv, Ht. cbn [negb]. rewrite <- !app_assoc. reflexivity.
    + cbn [truthy negb]. rewrite <- !app_assoc. reflexivity.
  - intros e He Hc. rewrite check_node_health_head, HealthProps.query_prometheus_run.
    cbv zeta. cbn [self trace]. rewrite He, Hc. cbn [truthy negb].
    rewrite <- !app_assoc. reflexivity.
  - intros e He Hc. rewrite check_container_metrics_head, HealthProps.query_prometheus_run.
    cbv zeta. cbn [self trace]. rewrite He, Hc. cbn [truthy negb].
    rewrite <- !app_assoc. reflexivity.
Qed.

(** Against a Prometheus that answers 500 the node check sends one request
    and leaves the report as it was. *)
Lemma no_up_result_ends_the_check_witness :
  check_node_health (RT := Runtime.cpython) Scenarios.error_world Scenarios.manager0
  = (Return false,
     mk_state (self Scenarios.manager0)
       (trace Scenarios.manager0
        ++ [node_banner;
            Get (prometheus_request (self Scenarios.manager0)
                   (py "up{job='node_exporter'}"))])).
Proof.
  destruct (no_up_result_ends_the_check (RT := Runtime.cpython) Scenarios.error_world
              Scenarios.manager0) as (H & _).
  destruct (Scenarios.server_error
              (prometheus_request (self Scenarios.manager0) (py "up{job='node_exporter'}")))
    as [r|e] eqn:E; [|discriminate E].
  apply (H r).
  - exact E.
  - left. apply Return_inj in E. subst r. vm_compute. intros D. discriminate D.
Defined.

(** ** The verdict of the up/down loops *)

(** Once an issue is in the report and the status is UNHEALTHY, both stay. *)
Lemma issue_stays_record_issue x m o :
  x ∈ issues (health_report o) /\ overall_status (health_report o) = py "UNHEALTHY" ->
  x ∈ issues (health_report (record_issue m o))
  /\ overall_status (health_report (record_issue m o)) = py "UNHEALTHY".
Proof.
  intros [Hx _]. rewrite record_issue_issues. split; [|reflexivity].
  apply elem_of_app. left. exact Hx.
Qed.

Lemma issue_stays_record_warning x m o :
  x ∈ issues (health_report o) /\ overall_status (health_report o) = py "UNHEALTHY" ->
  x ∈ issues (health_report (record_warning m o))
  /\ overall_status (health_report (record_warning m o)) = py "UNHEALTHY".
Proof.
  intros [Hx Hs]. rewrite HealthProps.record_warning_issues. split; [exact Hx|].
  unfold record_warning. rewrite Hs.
  replace (str_eqb (py "UNHEALTHY") (py "HEALTHY")) with false by (vm_compute; reflexivity).
  cbn [health_report with_report append_warning overall_status id]. exact Hs.
Qed.

Section Verdicts.
Variable verdict : gmap pystr bool -> bool -> pystr -> M manager bool.
Variables down missing : pystr -> pystr.
Variable ns : gmap pystr bool.
Hypothesis verdict_cases :
  forall acc node s,
    match ns !! node with
    | Some true => exists t, verdict ns acc node s = (Return acc, mk_state (self s) t)
    | Some false =>
      exists t, verdict ns acc node s
                = (Return false, mk_state (record_issue (down node) (self s)) t)
    | None =>
      exists t, verdict ns acc node s
                = (Return false, mk_state (record_warning (missing node) (self s)) t)
    end.

Lemma verdict_respects (R : manager -> manager -> Prop) `{!PreOrder R} :
  (forall o m, R o (record_issue m o)) -> (forall o m, R o (record_warning m o)) ->
  forall acc node, steps R (verdict ns acc node).
Proof.
  intros Hi Hw acc node s. pose proof (verdict_cases acc node s) as Hv.
  destruct (ns !! node) as [[|]|]; destruct Hv as [t ->]; cbn [snd self];
    [reflexivity|apply Hi|apply Hw].
Qed.

Lemma verdict_loop_up nodes :
  (forall n, n ∈ nodes -> ns !! n = Some true) ->
  forall acc s, exists t,
    for_each nodes acc (verdict ns) s = (Return acc, mk_state (self s) t).
Proof.
  induction nodes as [|node nodes IH]; intros Hall acc s.
  - exists (trace s). destruct s. reflexivity.
  - cbn [for_each]. unfold bind. pose proof (verdict_cases acc node s) as Hv.
    rewrite (Hall node) in Hv by apply list_elem_of_here.
    destruct Hv as [t ->].
    destruct (IH (fun n Hn => Hall n (list_elem_of_further _ _ _ Hn)) acc
                (mk_state (self s) t)) as [t' ->].
    exists t'. reflexivity.
Qed.

Lemma verdict_loop_down nodes n :
  n ∈ nodes -> ns !! n = Some false ->
  forall acc s,
    down n ∈ issues (report_of (snd (for_each nodes acc (verdict ns) s)))
    /\ status_of (snd (for_each nodes acc (verdict ns) s)) = py "UNHEALTHY".
Proof.
  intros Hn Hf.
  assert (forall xs acc,
             steps (keeps (fun o => down n ∈ issues (health_report o)
                                    /\ overall_status (health_report o) = py "UNHEALTHY"))
                   (for_each xs acc (verdict ns))) as Hkeep.
  { intros xs acc. apply steps_for_each; [exact _|]. intros a x.
    apply verdict_respects; [exact _| |]; intros o m Ho.
    - apply issue_stays_record_issue, Ho.
    - apply issue_stays_record_warning, Ho. }
  induction nodes as [|node nodes IH]; [inversion Hn|]. intros acc s.
  cbn [for_each]. unfold bind. pose proof (verdict_cases acc node s) as Hv.
  apply elem_of_cons in Hn. destruct Hn as [<-|Hn].
  - rewrite Hf in Hv. destruct Hv as [t ->].
    apply (Hkeep nodes false (mk_state (record_issue (down n) (self s)) t)).
    cbn [self]. rewrite record_issue_issues. split; [|reflexivity].
    apply elem_of_app. right. apply list_elem_of_here.
  - destruct (ns !! node) as [[|]|]; destruct Hv as [t ->]; apply (IH Hn).
Qed.

End Verdicts.

Lemma up_status_truthy {RT : PyRuntime} result ns :
  up_status result = Return ns -> truthy result = true.
Proof.
  unfold up_status, rbind. intros E.
  destruct (samples_of result) as [metrics|] eqn:Hs; [|discriminate E].
  apply (HealthProps.samples_truthy _ _ Hs).
Qed.

(** X6: When the cAdvisor query is answered and its samples convert, the
    container check returns true exactly when every node of the list has an
    up sample, and then leaves the report untouched; a node with a down
    sample has its issue in the report at the end, and the status is
    UNHEALTHY. *)
Theorem container_check_verdict {RT : PyRuntime} (w : world) s result ns :
  answers w (self s) (py "up{job='cadvisor'}") result ->
  up_status result = Return ns ->
  exists b s',
    check_container_metrics w s = (Return b, s')
    /\ (b = true <-> forall n, n ∈ cluster_nodes (self s) -> ns !! n = Some true)
    /\ (b = true -> self s' = self s)
    /\ (forall n, n ∈ cluster_nodes (self s) -> ns !! n = Some false ->
          cadvisor_down n ∈ issues (report_of s') /\ status_of s' = py "UNHEALTHY").
Proof.
  intros Hq Hu. pose proof (up_status_truthy _ _ Hu) as Ht.
  rewrite (HealthProps.check_container_metrics_run w s result ns Hq Ht Hu).
  set (s0 := mk_state (self s) _).
  destruct (HealthProps.verdict_loop cadvisor_verdict cadvisor_down cadvisor_missing ns
              (HealthProps.cadvisor_verdict_cases ns) (cluster_nodes (self s)) true s0)
    as (b & s' & Hrun & Hb & _).
  exists b, s'. split; [exact Hrun|]. split; [|split].
  - split; [intros E; apply (Hb E)|]. intros Hall.
    destruct (verdict_loop_up cadvisor_verdict cadvisor_down cadvisor_missing ns
                (HealthProps.cadvisor_verdict_cases ns) (cluster_nodes (self s)) Hall true s0)
      as [t Eup].
    rewrite Eup in Hrun. injection Hrun as <- _. reflexivity.
  - intros E. destruct (Hb E) as [_ Hall].
    destruct (verdict_loop_up cadvisor_verdict cadvisor_down cadvisor_missing ns
                (HealthProps.cadvisor_verdict_cases ns) (cluster_nodes (self s)) Hall true s0)
      as [t Eup].
    rewrite Eup in Hrun. injection Hrun as _ <-. reflexivity.
  - intros n Hn Hf.
    pose proof (verdict_loop_down cadvisor_verdict cadvisor_down cadvisor_missing ns
                  (HealthProps.cadvisor_verdict_cases ns) (cluster_nodes (self s)) n Hn Hf
                  true s0) as Hd.
    rewrite Hrun in Hd. exact Hd.
Qed.

(** With ["kube502.home"] reporting down, the container check returns false
    and the report holds the issue for that node. *)
Lemma container_check_verdict_witness :
  exists s',
    check_container_metrics (RT := Runtime.cpython) Scenarios.one_down Scenarios.manager0
    = (Return false, s')
    /\ py "cAdvisor down on kube502.home" ∈ issues (report_of s')
    /\ status_of s' = py "UNHEALTHY".
Proof.
  destruct (container_check_verdict (RT := Runtime.cpython) Scenarios.one_down
              Scenarios.manager0 (Scenarios.vector Scenarios.one_down_samples)
              Scenarios.one_down_status)
    as (b & s' & Hrun & Hb & _ & Hdown).
  - exists (Scenarios.ok_response
              (prometheus_request (self Scenarios.manager0) (py "up{job='cadvisor'}"))
              (Scenarios.vector Scenarios.one_down_samples)).
    repeat split; vm_compute; reflexivity.
  - vm_compute. reflexivity.
  - assert (Scenarios.one_down_status !! py "kube502.home" = Some false) as Hf
      by (vm_compute; reflexivity).
    assert (py "kube502.home" ∈ cluster_nodes (self Scenarios.manager0)) as Hn
      by (vm_compute; apply list_elem_of_further, list_elem_of_here).
    exists s'. split; [|exact (Hdown _ Hn Hf)].
    rewrite Hrun. destruct b; [|reflexivity].
    pose proof (proj1 Hb eq_refl _ Hn) as Hup. rewrite Hf in Hup. discriminate Hup.
Defined.

(** ** Several samples for one instance *)

Lemma rfold_app {A B} (xs ys : list A) (acc : B) body :
  rfold (xs ++ ys) acc body = rbind (rfold xs acc body) (fun acc' => rfold ys acc' body).
Proof.
  revert acc. induction xs as [|x xs IH]; intros acc; cbn [rfold app rbind]; [reflexivity|].
  destruct (body acc x) as [acc'|e]; cbn [rbind]; [apply IH|reflexivity].
Qed.

(** X7: When the result set holds several samples for one instance, the last
    of them decides: the entry of the instance in the dict of the up/down
    loop is whether the value of that last sample converts to 1, whatever the
    earlier samples said. *)
Theorem last_sample_decides {RT : PyRuntime} result pre metric post i v z ns :
  samples_of result = Return (pre ++ metric :: post) ->
  instance_of metric = Return (PStr i) ->
  sample_value metric = Return v ->
  py_int v = Return z ->
  absent_from i post ->
  up_status result = Return ns ->
  ns !! i = Some (z =? 1).
Proof.
  intros Hs Hi Hv Hz Ha Hu. unfold up_status in Hu. rewrite Hs in Hu.
  cbn [rbind] in Hu. rewrite rfold_app in Hu.
  destruct (rfold pre ∅ up_sample) as [ns0|e]; [|discriminate Hu].
  cbn [rbind rfold] in Hu.
  assert (up_sample ns0 metric = Return (<[i := (z =? 1)]> ns0)) as Eup.
  { unfold up_sample. rewrite Hi. cbn [rbind]. rewrite Hv. cbn [rbind]. rewrite Hz.
    reflexivity. }
  rewrite Eup in Hu. cbn [rbind] in Hu.
  rewrite (HealthProps.rfold_up_sample_lookup post i Ha _ _ Hu).
  apply lookup_insert_eq.
Qed.

(** ["kube502.home"] is up in the second sample and down in the fourth:
    it counts as down. *)
Lemma last_sample_decides_witness :
  Scenarios.one_down_status !! py "kube502.home" = Some false.
Proof.
  apply (last_sample_decides (RT := Runtime.cpython)
           (Scenarios.vector Scenarios.one_down_samples)
           [Scenarios.sample "kube501.home" "1"; Scenarios.sample "kube502.home" "1";
            Scenarios.sample "kube503.home" "1"]
           (Scenarios.sample "kube502.home" "0")
           [Scenarios.sample "kube511.home" "1"]
           (py "kube502.home") (PStr (py "0")) 0 Scenarios.one_down_status).
  - vm_compute. reflexivity.
  - vm_compute. reflexivity.
  - vm_compute. reflexivity.
  - vm_compute. reflexivity.
  - repeat constructor. vm_compute. intros E. discriminate E.
  - vm_compute. reflexivity.
Defined.

(** ** The scan of the logs *)

Section Logs.
Context (w : world).

Lemma count_loop items acc (s : state manager) :
  for_each items acc (fun acc stream =>
    values <- lift (getitem stream (py "values")) ;;
    n <- lift (py_len values) ;;
    ret (acc + n))%py s
  = (rfold items acc (fun acc stream =>
       values <~ getitem stream (py "values") ;;
       n <~ py_len values ;;
       Return (acc + n))%py, s).
Proof.
  revert acc. induction items as [|stream items IH]; intros acc; [reflexivity|].
  cbn [for_each rfold]. unfold bind at 1 2 3, lift, ret, rbind at 1 2 3.
  destruct (getitem stream (py "values")) as [values|e]; [|reflexivity].
  destruct (py_len values) as [n|e]; [|reflexivity].
  apply IH.
Qed.

Lemma critical_pattern_run a b p s :
  critical_pattern w a b p s =
  let rq := loki_request (self s) a b p in
  let sent := mk_state (self s) (trace s ++ [Get rq]) in
  let caught e := if is_RequestException e then (Return tt, sent) else (Raise e, sent) in
  match http_get w rq with
  | Raise e => caught e
  | Return r =>
    if status_code r =? 200 then
      match match_count r with
      | Raise e => caught e
      | Return count =>
        if 0 <? count then
          (Return tt,
           mk_state (record_warning (found_entries count p) (self s))
             (trace s ++ [Get rq; warning_line (found_entries count p)]))
        else (Return tt, sent)
      end
    else (Return tt, sent)
  end.
Proof.
  unfold critical_pattern. cbv zeta.
  match goal with |- context [for_each _ 0 ?f] => set (body := f) end.
  unfold loki_request, match_count, streams_of. HealthProps.run.
  match goal with |- context [http_get w ?rq] => destruct (http_get w rq) as [r|e] end;
    [|destruct (is_RequestException e); reflexivity].
  destruct (status_code r =? 200); [|reflexivity].
  destruct (resp_json r) as [data|e]; cbn [rbind];
    [|destruct (is_RequestException e); reflexivity].
  destruct (getitem data (py "data")) as [d|e]; cbn [rbind];
    [|destruct (is_RequestException e); reflexivity].
  destruct (getitem d (py "result")) as [streams|e]; cbn [rbind];
    [|destruct (is_RequestException e); reflexivity].
  destruct (truthy streams); [|reflexivity].
  destruct (iter streams) as [items|e]; cbn [rbind];
    [|destruct (is_RequestException e); reflexivity].
  subst body. rewrite count_loop. unfold values_total.
  match goal with |- context [rfold items 0 ?f] => destruct (rfold items 0 f) as [count|e] end;
    [|destruct (is_RequestException e); reflexivity].
  destruct (0 <? count); [|reflexivity].
  rewrite HealthProps.add_warning_run. cbn [self trace]. unfold found_entries.
  rewrite <- !app_assoc. reflexivity.
Qed.

End Logs.

Section LogScan.
Context (w : world).

Lemma critical_pattern_respects (R : manager -> manager -> Prop) `{!PreOrder R} :
  (forall o m, R o (record_warning m o)) ->
  forall a b p, steps R (critical_pattern w a b p).
Proof.
  intros Hw a b p s. rewrite critical_pattern_run. cbv zeta.
  destruct (http_get w (loki_request (self s) a b p)) as [r|e];
    [|destruct (is_RequestException e); reflexivity].
  destruct (status_code r =? 200); [|reflexivity].
  destruct (match_count r) as [count|e];
    [|destruct (is_RequestException e); reflexivity].
  destruct (0 <? count); [apply Hw|reflexivity].
Qed.

Lemma critical_pattern_requests a b p s :
  requests_of (trace (snd (critical_pattern w a b p s)))
  = requests_of (trace s) ++ [loki_request (self s) a b p].
Proof.
  rewrite critical_pattern_run. cbv zeta.
  destruct (http_get w (loki_request (self s) a b p)) as [r|e];
    [|destruct (is_RequestException e); cbn [snd trace];
      rewrite ReporterProps.requests_of_app; reflexivity].
  destruct (status_code r =? 200);
    [|cbn [snd trace]; rewrite ReporterProps.requests_of_app; reflexivity].
  destruct (match_count r) as [count|e];
    [|destruct (is_RequestException e); cbn [snd trace];
      rewrite ReporterProps.requests_of_app; reflexivity].
  destruct (0 <? count); cbn [snd trace]; rewrite ReporterProps.requests_of_app; reflexivity.
Qed.

Lemma quiet_patterns a b o ps :
  (forall p, p ∈ ps ->
     match http_get w (loki_request o a b p) with
     | Raise e => is_RequestException e = true
     | Return r => status_code r <> 200
     end) ->
  forall t,
    for_each ps tt (fun _ pattern => critical_pattern w a b pattern) (mk_state o t)
    = (Return tt, mk_state o (t ++ List.map (fun p => Get (loki_request o a b p)) ps)).
Proof.
  induction ps as [|p ps IH]; intros Hq t.
  - cbn [for_each List.map]. rewrite app_nil_r. reflexivity.
  - cbn [for_each List.map]. unfold bind. rewrite critical_pattern_run. cbv zeta.
    cbn [self trace]. pose proof (Hq p (list_elem_of_here _ _)) as Hp.
    destruct (http_get w (loki_request o a b p)) as [r|e].
    + apply Z.eqb_neq in Hp. rewrite Hp.
      rewrite IH by (intros p' Hp'; apply Hq, list_elem_of_further, Hp').
      rewrite <- app_assoc. reflexivity.
    + rewrite Hp.
      rewrite IH by (intros p' Hp'; apply Hq, list_elem_of_further, Hp').
      rewrite <- app_assoc. reflexivity.
Qed.

Lemma loki_request_same o o' a b p :
  loki_url o' = loki_url o -> loki_request o' a b p = loki_request o a b p.
Proof. intros E. unfold loki_request. rewrite E. reflexivity. Qed.

Lemma pattern_loop_requests a b ps :
  forall s s',
    for_each ps tt (fun _ pattern => critical_pattern w a b pattern) s = (Return tt, s') ->
    requests_of (trace s')
    = requests_of (trace s) ++ List.map (loki_request (self s) a b) ps.
Proof.
  induction ps as [|p ps IH]; intros s s' E.
  - cbn [for_each] in E. unfold ret in E. injection E as <-.
    cbn [List.map]. rewrite app_nil_r. reflexivity.
  - cbn [for_each] in E. apply bind_returns in E. destruct E as ([] & s1 & E1 & E).
    apply IH in E. rewrite E.
    pose proof (critical_pattern_requests a b p s) as Hr. rewrite E1 in Hr.
    cbn [snd] in Hr. rewrite Hr.
    assert (loki_url (self s1) = loki_url (self s)) as Hl.
    { assert (PreOrder (fun o o' : manager => loki_url o' = loki_url o)) as HP.
      { split; [intros x; reflexivity|intros x y z H1 H2; congruence]. }
      pose proof (critical_pattern_respects (fun o o' => loki_url o' = loki_url o)
                    (PreOrder0 := HP) (fun o m => eq_refl) a b p s) as Hk.
      rewrite E1 in Hk. exact Hk. }
    cbn [List.map]. rewrite <- app_assoc.
    f_equal. cbn [app]. f_equal.
    apply map_ext. intros q. apply loki_request_same, Hl.
Qed.

End LogScan.

#[export] Instance warns_only_preorder : PreOrder warns_only.
Proof.
  split.
  - intros o. unfold warns_only. repeat split; auto.
  - intros x y z (I1 & W1 & S1) (I2 & W2 & S2). unfold warns_only.
    split; [congruence|]. split; [etransitivity; eassumption|].
    destruct S1 as [S1|[S1 S1']], S2 as [S2|[S2 S2']].
    + left. congruence.
    + right. split; congruence.
    + right. split; congruence.
    + exfalso. rewrite S1' in S2. destruct statuses_differ as (_ & Hw & _).
      apply Hw, S2.
Qed.

Lemma warns_only_record_warning o m : warns_only o (record_warning m o).
Proof.
  unfold warns_only. rewrite HealthProps.record_warning_issues, record_warning_warnings.
  split; [reflexivity|]. split; [apply prefix_app_r; reflexivity|].
  unfold record_warning.
  destruct (str_eqb (overall_status (health_report o)) (py "HEALTHY")) eqn:E.
  - right. apply str_eqb_eq in E. split; [exact E|reflexivity].
  - left. reflexivity.
Qed.

(** X8: The scan of the logs never records an issue, whatever the log backend
    answers and however the scan ends: it leaves the issues as they are,
    only appends to the warnings, and the one change of status it can make is
    from HEALTHY to WARNING. *)
Theorem log_scan_only_warns (w : world) a b s :
  warns_only (self s) (self (snd (check_critical_logs w a b s))).
Proof.
  revert s. change (steps warns_only (check_critical_logs w a b)).
  unfold check_critical_logs.
  repeat match goal with
         | |- steps _ (critical_pattern _ _ _ _) =>
           apply critical_pattern_respects; [exact _|exact warns_only_record_warning]
         | _ => step
         end.
Qed.

(** X9: A scan that completes has sent one request per pattern, in the order of
    the list and no other, each to the query-range endpoint with the window
    of the scan, limit 10 and timeout 10. *)
Theorem log_scan_requests (w : world) a b s s' :
  check_critical_logs w a b s = (Return tt, s') ->
  requests_of (trace s')
  = requests_of (trace s) ++ List.map (loki_request (self s) a b) critical_patterns
  /\ Forall (fun rq => req_timeout rq = 10
                       /\ assoc (py "limit") (req_params rq) = Some (PInt 10)
                       /\ assoc (py "start") (req_params rq) = Some (PInt a)
                       /\ assoc (py "end") (req_params rq) = Some (PInt b))
            (List.map (loki_request (self s) a b) critical_patterns).
Proof.
  intros E. split.
  - unfold check_critical_logs, bind at 1, print, emit in E.
    apply pattern_loop_requests in E. rewrite E. cbn [trace self].
    rewrite ReporterProps.requests_of_app. cbn [requests_of]. rewrite app_nil_r.
    reflexivity.
  - generalize critical_patterns. intros ps.
    induction ps as [|p ps IH]; cbn [List.map]; constructor; [|exact IH].
    repeat split; reflexivity.
Qed.

(** Against a log backend with entries the scan completes after five
    requests. *)
Lemma log_scan_requests_witness :
  length (requests_of
            (trace (snd (check_critical_logs Scenarios.noisy_logs
                           100 200 Scenarios.manager0)))) = 5%nat.
Proof.
  destruct (check_critical_logs Scenarios.noisy_logs 100 200
              Scenarios.manager0) as [[[]|e] s'] eqn:E.
  - destruct (log_scan_requests Scenarios.noisy_logs 100 200
                Scenarios.manager0 s' E) as [Hr _].
    cbn [snd]. rewrite Hr. reflexivity.
  - exfalso. apply (f_equal fst) in E. vm_compute in E. discriminate E.
Defined.

(** X10: A log backend that cannot be reached, or that answers with a status
    other than 200, changes nothing: each of the five requests is sent, its
    failure is passed over, nothing is recorded and nothing is printed after
    the banner. *)
Theorem quiet_log_backend_is_ignored (w : world) a b s :
  (forall p, p ∈ critical_patterns ->
     match http_get w (loki_request (self s) a b p) with
     | Raise e => is_RequestException e = true
     | Return r => status_code r <> 200
     end) ->
  check_critical_logs w a b s
  = (Return tt,
     mk_state (self s)
       (trace s ++ logs_banner
                   :: List.map (fun p => Get (loki_request (self s) a b p)) critical_patterns)).
Proof.
  intros Hq. unfold check_critical_logs, bind at 1, print, emit.
  rewrite (quiet_patterns w a b (self s) critical_patterns Hq).
  rewrite <- app_assoc. reflexivity.
Qed.

(** With every connection refused the scan returns and the report is as it
    was. *)
Lemma quiet_log_backend_is_ignored_witness :
  fst (check_critical_logs Scenarios.down_world 100 200
         Scenarios.manager0) = Return tt
  /\ self (snd (check_critical_logs Scenarios.down_world 100 200
                  Scenarios.manager0)) = self Scenarios.manager0.
Proof.
  rewrite (quiet_log_backend_is_ignored Scenarios.down_world 100 200
             Scenarios.manager0).
  - split; reflexivity.
  - intros p _. reflexivity.
Defined.

(** X11: A pattern whose query is answered with status 200 gives one warning
    exactly when the answer holds entries: the warning names the number of
    entries summed over all streams and the pattern.  An answer without
    streams, or with empty streams only, gives nothing. *)
Theorem log_entries_give_one_warning (w : world) a b p s r count :
  http_get w (loki_request (self s) a b p) = Return r ->
  status_code r = 200 ->
  match_count r = Return count ->
  exists s',
    critical_pattern w a b p s = (Return tt, s')
    /\ (0 < count ->
        self s' = record_warning (found_entries count p) (self s)
        /\ trace s' = trace s ++ [Get (loki_request (self s) a b p);
                                  warning_line (found_entries count p)])
    /\ (count <= 0 ->
        s' = mk_state (self s) (trace s ++ [Get (loki_request (self s) a b p)])).
Proof.
  intros Hr Hc Hm. rewrite critical_pattern_run. cbv zeta. rewrite Hr, Hc, Hm.
  cbn [Z.eqb Pos.eqb]. destruct (0 <? count) eqn:E; eexists; (split; [reflexivity|]).
  - cbn [self trace]. split; [intros _; split; reflexivity|].
    apply Z.ltb_lt in E. lia.
  - apply Z.ltb_ge in E. split; [lia|reflexivity].
Qed.

(** Two streams of two entries and of one give the warning for three. *)
Lemma log_entries_give_one_warning_witness :
  exists s',
    critical_pattern Scenarios.noisy_logs 100 200
      (py "kubelet.*failed") Scenarios.manager0 = (Return tt, s')
    /\ warnings (report_of s')
       = [py "Found 3 critical log entries for pattern: kubelet.*failed"].
Proof.
  destruct (log_entries_give_one_warning Scenarios.noisy_logs 100 200
              (py "kubelet.*failed") Scenarios.manager0
              (Scenarios.ok_response
                 (loki_request (self Scenarios.manager0) 100 200 (py "kubelet.*failed"))
                 Scenarios.two_streams) 3)
    as (s' & Hrun & Hpos & _).
  - vm_compute. reflexivity.
  - reflexivity.
  - vm_compute. reflexivity.
  - exists s'. split; [exact Hrun|].
    destruct Hpos as [Hs _]; [lia|]. unfold report_of. rewrite Hs.
    vm_compute. reflexivity.
Defined.

(** ** Which exceptions can end a run *)

Section Escapes.
Context {O : Type} (P : exn -> Prop).

Lemma ro_ret {A} (a : A) : raises_only P (@ret O A a).
Proof. intros s e s' E. discriminate E. Qed.

Lemma ro_get_self : raises_only P (@get_self O).
Proof. intros s e s' E. discriminate E. Qed.

Lemma ro_emit ev : raises_only P (@emit O ev).
Proof. intros s e s' E. discriminate E. Qed.

Lemma ro_lift {A} (r : res A) : fails_only P r -> raises_only P (@lift O A r).
Proof. intros Hr s e s' E. unfold lift in E. apply Hr. congruence. Qed.

Lemma ro_bind {A B} (m : M O A) (k : A -> M O B) :
  raises_only P m -> (forall a, raises_only P (k a)) -> raises_only P (bind m k).
Proof.
  intros Hm Hk s e s' E. unfold bind in E.
  destruct (m s) as [[a|x] s1] eqn:Em.
  - apply (Hk a s1 e s' E).
  - injection E as <- <-. apply (Hm s x s1 Em).
Qed.

Lemma ro_for_each {A B} (xs : list A) (body : B -> A -> M O B) :
  (forall acc x, raises_only P (body acc x)) ->
  forall acc, raises_only P (for_each xs acc body).
Proof.
  intros Hb. induction xs as [|x xs IH]; intros acc; cbn [for_each].
  - apply ro_ret.
  - apply ro_bind; [apply Hb|intros a; apply IH].
Qed.

Lemma fo_rbind {A B} (r : res A) (k : A -> res B) :
  fails_only P r -> (forall a, fails_only P (k a)) -> fails_only P (rbind r k).
Proof.
  intros Hr Hk e E. destruct r as [a|x]; cbn [rbind] in E.
  - apply (Hk a e E).
  - apply Hr. injection E as <-. reflexivity.
Qed.

Lemma fo_rfold {A B} (xs : list A) (body : B -> A -> res B) :
  (forall acc x, fails_only P (body acc x)) -> forall acc, fails_only P (rfold xs acc body).
Proof.
  intros Hb. induction xs as [|x xs IH]; intros acc; cbn [rfold].
  - intros e E. discriminate E.
  - apply fo_rbind; [apply Hb|intros a; apply IH].
Qed.

End Escapes.

(** What the transport raises inside a [try] of the health check does not
    leave it. *)
Lemma ro_try_transport {O A} (body : M O A) handler :
  (forall e, raises_only not_transport (handler e)) ->
  raises_only not_transport (try_except body is_RequestException handler).
Proof.
  intros Hh s e s' E. unfold try_except in E.
  destruct (body s) as [[a|x] s1]; [discriminate E|].
  destruct (is_RequestException x) eqn:C.
  - apply (Hh x s1 e s' E).
  - injection E as <- <-. exact C.
Qed.

Lemma fo_getitem v k : fails_only not_transport (getitem v k).
Proof.
  intros e E. destruct v as [| | | | | |d]; cbn [getitem] in E;
    try (injection E as <-; reflexivity).
  destruct (assoc k d); [discriminate E|injection E as <-; reflexivity].
Qed.

Lemma fo_getindex v i : fails_only not_transport (getindex v i).
Proof.
  intros e E. destruct v as [| | | |t|l|d]; cbn [getindex] in E;
    try (injection E as <-; reflexivity).
  - destruct (nth_error t i); [discriminate E|injection E as <-; reflexivity].
  - destruct (nth_error l i); [discriminate E|injection E as <-; reflexivity].
Qed.

Lemma fo_iter v : fails_only not_transport (iter v).
Proof.
  intros e E. destruct v; cbn [iter] in E;
    first [discriminate E|injection E as <-; reflexivity].
Qed.

Lemma fo_setitem d k b : fails_only not_transport (setitem d k b).
Proof.
  intros e E. destruct k; cbn [setitem] in E;
    first [discriminate E|injection E as <-; reflexivity].
Qed.

Lemma fo_samples_of result : fails_only not_transport (samples_of result).
Proof.
  unfold samples_of.
  apply fo_rbind; [apply fo_getitem|intros d].
  apply fo_rbind; [apply fo_getitem|intros rows]. apply fo_iter.
Qed.

Lemma fo_instance_of metric : fails_only not_transport (instance_of metric).
Proof.
  unfold instance_of. apply fo_rbind; [apply fo_getitem|intros m]. apply fo_getitem.
Qed.

Lemma fo_sample_value metric : fails_only not_transport (sample_value metric).
Proof.
  unfold sample_value. apply fo_rbind; [apply fo_getitem|intros m]. apply fo_getindex.
Qed.

Section RunEscapes.
Context {RT : PyRuntime} (w : world).
Hypothesis int_fails : forall v, fails_only not_transport (py_int v).
Hypothesis float_fails : forall v, fails_only not_transport (py_float v).

Lemma fo_up_status result : fails_only not_transport (up_status result).
Proof.
  unfold up_status. apply fo_rbind; [apply fo_samples_of|intros metrics].
  apply fo_rfold. intros acc metric. unfold up_sample.
  apply fo_rbind; [apply fo_instance_of|intros i].
  apply fo_rbind; [apply fo_sample_value|intros v].
  apply fo_rbind; [apply int_fails|intros z]. apply fo_setitem.
Qed.

Lemma ro_add_issue m : raises_only not_transport (add_issue m).
Proof. intros s e s' E. rewrite HealthProps.add_issue_run in E. discriminate E. Qed.

Lemma ro_add_warning m : raises_only not_transport (add_warning m).
Proof. intros s e s' E. rewrite HealthProps.add_warning_run in E. discriminate E. Qed.

Ltac esc :=
  match goal with
  | |- raises_only _ (bind _ _) => apply ro_bind; [|intros ?]
  | |- raises_only _ (try_except _ is_RequestException _) => apply ro_try_transport; intros ?
  | |- raises_only _ (for_each _ _ _) => apply ro_for_each; intros ? ?
  | |- raises_only _ (ret _) => apply ro_ret
  | |- raises_only _ get_self => apply ro_get_self
  | |- raises_only _ (emit _) => apply ro_emit
  | |- raises_only _ (print _) => apply ro_emit
  | |- raises_only _ (add_issue _) => apply ro_add_issue
  | |- raises_only _ (add_warning _) => apply ro_add_warning
  | |- raises_only _ (lift (samples_of _)) => apply ro_lift, fo_samples_of
  | |- raises_only _ (lift (instance_of _)) => apply ro_lift, fo_instance_of
  | |- raises_only _ (lift (sample_value _)) => apply ro_lift, fo_sample_value
  | |- raises_only _ (lift (up_status _)) => apply ro_lift, fo_up_status
  | |- raises_only _ (lift (py_float _)) => apply ro_lift, float_fails
  | |- raises_only _ (if ?b then _ else _) => destruct b
  | |- raises_only _ (match ?x with _ => _ end) => destruct x
  end.

Lemma ro_query_prometheus q : raises_only not_transport (query_prometheus w q).
Proof. unfold query_prometheus. repeat esc. Qed.

Lemma ro_check_node_resources : raises_only not_transport (check_node_resources w).
Proof.
  unfold check_node_resources, for_samples, cpu_sample, memory_sample.
  repeat match goal with
         | |- raises_only _ (query_prometheus _ _) => apply ro_query_prometheus
         | _ => esc
         end.
Qed.

Lemma ro_check_node_health : raises_only not_transport (check_node_health w).
Proof.
  unfold check_node_health, node_verdict.
  repeat match goal with
         | |- raises_only _ (query_prometheus _ _) => apply ro_query_prometheus
         | |- raises_only _ (check_node_resources _) => apply ro_check_node_resources
         | _ => esc
         end.
Qed.

Lemma ro_check_kubernetes_api : raises_only not_transport (check_kubernetes_api w).
Proof. unfold check_kubernetes_api. repeat esc. Qed.

Lemma ro_check_container_metrics : raises_only not_transport (check_container_metrics w).
Proof.
  unfold check_container_metrics, cadvisor_verdict.
  repeat match goal with
         | |- raises_only _ (query_prometheus _ _) => apply ro_query_prometheus
         | _ => esc
         end.
Qed.

Lemma ro_check_critical_logs a b : raises_only not_transport (check_critical_logs w a b).
Proof. unfold check_critical_logs, critical_pattern. repeat esc. Qed.

Lemma ro_run_health_check a b : raises_only not_transport (run_health_check w a b).
Proof.
  unfold run_health_check, print_bullets.
  repeat match goal with
         | |- raises_only _ (check_node_health _) => apply ro_check_node_health
         | |- raises_only _ (check_kubernetes_api _) => apply ro_check_kubernetes_api
         | |- raises_only _ (check_container_metrics _) => apply ro_check_container_metrics
         | |- raises_only _ (check_critical_logs _ _ _) => apply ro_check_critical_logs
         | _ => esc
         end.
Qed.

End RunEscapes.

Lemma cpython_conversions :
  (forall v, fails_only not_transport (@py_int Runtime.cpython v))
  /\ (forall v, fails_only not_transport (@py_float Runtime.cpython v)).
Proof.
  split; intros v e E; cbn [py_int py_float Runtime.cpython] in E.
  - unfold Runtime.int_of in E. destruct v as [| | |f|t| |];
      try (injection E as <-; reflexivity); try discriminate E.
    + destruct (Prim2SF f); first [discriminate E|injection E as <-; reflexivity].
    + destruct (Runtime.split_sign (strip t)) as [neg body].
      destruct (Runtime.digits_value body 0 0) as [[z n]|];
        first [discriminate E|injection E as <-; reflexivity].
  - unfold Runtime.float_of in E. destruct v as [| |z| |t| |];
      try (injection E as <-; reflexivity); try discriminate E.
    + destruct (Z.abs z <? 2 ^ 53); first [discriminate E|injection E as <-; reflexivity].
    + destruct (Runtime.split_sign (strip t)) as [neg body].
      destruct (Runtime.split_at 46%N body) as [ip fp].
      destruct (Runtime.digits_value _ 0 0) as [[m n]|];
        [destruct (_ && _)|]; first [discriminate E|injection E as <-; reflexivity].
Qed.

(** X12: A failure of the transport never ends the health check.  Provided
    that [int] and [float] raise no transport exception, an exception that
    ends a run is no [requests.RequestException]: every request, and every
    decoding of a body, stands in a [try] that catches those, so a run ends
    early only over an answer it cannot read. *)
Theorem transport_failures_never_escape {RT : PyRuntime} (w : world) now a b e :
  (forall v, fails_only not_transport (py_int v)) ->
  (forall v, fails_only not_transport (py_float v)) ->
  fst (main w now a b) = Raise e ->
  not_transport e.
Proof.
  intros Hint Hfloat E. unfold main in E.
  destruct ((report <- run_health_check w a b ;; ret (exit_code report))%py
              (mk_state (init now) [])) as [r s'] eqn:Em.
  cbn [fst] in E. subst r. revert Em.
  apply ro_bind; [apply ro_run_health_check; assumption|intros r; apply ro_ret].
Qed.

(** The run against the backend with the value 0.5 ends with the
    [ValueError] of [int], which is no transport exception. *)
Lemma transport_failures_never_escape_witness :
  not_transport (Runtime.invalid_int (py "0.5")).
Proof.
  destruct cpython_conversions as [Hi Hf].
  apply (transport_failures_never_escape (RT := Runtime.cpython) Scenarios.half_up
           Scenarios.now_iso 0 0 _ Hi Hf).
  vm_compute. reflexivity.
Defined.

(** ** The summary at the end of a run *)

Lemma print_bullets_run items (s : state manager) :
  print_bullets items s
  = (Return tt, mk_state (self s) (trace s ++ List.map bullet items)).
Proof.
  unfold print_bullets. revert s.
  induction items as [|item items IH]; intros s; cbn [for_each List.map].
  - rewrite app_nil_r. destruct s. reflexivity.
  - unfold bind, print, emit. rewrite IH. cbn [self trace].
    rewrite <- app_assoc. reflexivity.
Qed.

Lemma summary_section_run heading items (k : M manager HealthReport) s :
  ((if negb (Nat.eqb (length items) 0) then
      print (nl ++ heading) ;; print_bullets items
    else ret tt) ;; k)%py s
  = k (mk_state (self s) (trace s ++ summary_section heading items)).
Proof.
  destruct items as [|item items]; cbn [length Nat.eqb negb summary_section].
  - unfold bind, ret. rewrite app_nil_r. destruct s. reflexivity.
  - unfold bind at 1 2, print, emit. rewrite print_bullets_run. cbn [self trace].
    rewrite <- app_assoc. reflexivity.
Qed.

Lemma summary_run (s : state manager) :
  (print (repeat_str (py "=") 60) ;;
   o <- get_self ;;
   print (py "🎯 Overall Status: " ++ overall_status (health_report o)) ;;
   (if negb (Nat.eqb (length (issues (health_report o))) 0) then
      print (nl ++ py "❌ CRITICAL ISSUES:") ;;
      print_bullets (issues (health_report o))
    else ret tt) ;;
   (if negb (Nat.eqb (length (warnings (health_report o))) 0) then
      print (nl ++ py "⚠️  WARNINGS:") ;;
      print_bullets (warnings (health_report o))
    else ret tt) ;;
   (if negb (Nat.eqb (length (actions_taken (health_report o))) 0) then
      print (nl ++ py "🔧 ACTIONS TAKEN:") ;;
      print_bullets (actions_taken (health_report o))
    else ret tt) ;;
   ret (health_report o))%py s
  = (Return (report_of s), mk_state (self s) (trace s ++ summary_of (report_of s))).
Proof.
  unfold bind at 1 2 3, print at 1 2, emit, get_self. cbn [self trace].
  rewrite !summary_section_run. cbn [self trace]. unfold ret, summary_of, report_of.
  rewrite <- !app_assoc. reflexivity.
Qed.

(** X13: A run that completes ends its output with the summary of the report
    it returns: the rule, the line of the overall status, and the issues,
    the warnings and the actions, each list under its heading, complete and
    in the order of recording, and left out when empty.  The report returned
    is the one of the final state. *)
Theorem summary_lists_the_report {RT : PyRuntime} (w : world) a b s r s' :
  run_health_check w a b s = (Return r, s') ->
  r = report_of s'
  /\ exists t, trace s' = t ++ summary_of r.
Proof.
  intros E. unfold run_health_check in E.
  do 6 (apply bind_returns in E; destruct E as (? & ? & _ & E)).
  rewrite summary_run in E. injection E as <- <-.
  split; [reflexivity|]. eexists. reflexivity.
Qed.

(** The run with one node absent ends with the status line and the two
    warnings under their heading. *)
Lemma summary_lists_the_report_witness :
  exists t,
    trace (snd (run_health_check (RT := Runtime.cpython) Scenarios.one_absent 0 0
                  Scenarios.manager0))
    = t ++ [Print Stdout (repeat_str (py "=") 60);
            Print Stdout (py "🎯 Overall Status: WARNING");
            Print Stdout (nl ++ py "⚠️  WARNINGS:");
            bullet (py "No metrics found for kube511.home");
            bullet (py "cAdvisor not reporting from kube511.home")].
Proof.
  destruct (run_health_check (RT := Runtime.cpython) Scenarios.one_absent 0 0
              Scenarios.manager0) as [[r|e] s'] eqn:E.
  - destruct (summary_lists_the_report (RT := Runtime.cpython) Scenarios.one_absent 0 0
                Scenarios.manager0 r s' E) as (Hr & t & Ht).
    exists t. cbn [snd]. rewrite Ht. f_equal.
    apply (f_equal fst) in E. vm_compute in E. apply Return_inj in E. subst r.
    vm_compute. reflexivity.
  - exfalso. apply (f_equal fst) in E. vm_compute in E. discriminate E.
Defined.

End HealthRun.

(* ===================================================================== *)
(** * The reporter: gathering the facts                                   *)
(* ===================================================================== *)

Module ReporterFacts.
Import Py Eff ClusterHealthReporter Reasoning.

Ltac run := ReporterProps.run.

(** ** The alerts *)

Section Alerts.
Context (w : world).

Lemma get_alerts_run s :
  get_alerts w s =
  let rq := alerts_request (self s) in
  let failed e :=
    (Return [],
     mk_state (self s)
       (trace s ++ [Get rq; Print Stderr (py "Error getting alerts: " ++ exn_str e)])) in
  match http_get w rq with
  | Raise e => failed e
  | Return r =>
    match status_error r with
    | Some e => failed e
    | None =>
      match resp_json r with
      | Raise e => failed e
      | Return data =>
        match alert_entries data with
        | Raise e => failed e
        | Return alerts => (Return alerts, mk_state (self s) (trace s ++ [Get rq]))
        end
      end
    end
  end.
Proof.
  unfold get_alerts, alerts_request. run.
  match goal with |- context [http_get w ?rq] => destruct (http_get w rq) as [r|e] end; run.
  - destruct (status_error r) as [e|]; run.
    + rewrite <- !app_assoc. reflexivity.
    + destruct (resp_json r) as [data|e]; run.
      * destruct (alert_entries data) as [alerts|e]; run; [reflexivity|].
        rewrite <- !app_assoc. reflexivity.
      * rewrite <- !app_assoc. reflexivity.
  - rewrite <- !app_assoc. reflexivity.
Qed.

End Alerts.

(** X14: [get_alerts] never raises and sends one request.  When the request
    fails, when the status is an error status, when the body is no JSON, and
    when any one alert of the answer is malformed, it returns the empty list,
    so that every alert of the answer is dropped, and prints the error to
    stderr. *)
Theorem alerts_fail_soft (w : world) s :
  let rq := alerts_request (self s) in
  let failed e :=
    (Return [],
     mk_state (self s)
       (trace s ++ [Get rq; Print Stderr (py "Error getting alerts: " ++ exn_str e)])) in
  (exists alerts t,
     get_alerts w s = (Return alerts, mk_state (self s) t)
     /\ requests_of t = requests_of (trace s) ++ [rq])
  /\ (forall e, http_get w rq = Raise e -> get_alerts w s = failed e)
  /\ (forall r, http_get w rq = Return r -> 400 <= status_code r < 600 ->
        exists e, status_error r = Some e /\ get_alerts w s = failed e)
  /\ (forall r e, http_get w rq = Return r -> status_error r = None ->
        resp_json r = Raise e -> get_alerts w s = failed e)
  /\ (forall r data e, http_get w rq = Return r -> status_error r = None ->
        resp_json r = Return data -> alert_entries data = Raise e ->
        get_alerts w s = failed e).
Proof.
  cbv zeta. split; [|split; [|split; [|split]]].
  - rewrite get_alerts_run. cbv zeta.
    destruct (http_get w (alerts_request (self s))) as [r|e];
      [destruct (status_error r) as [e|];
       [|destruct (resp_json r) as [data|e];
         [destruct (alert_entries data) as [alerts|e]|]]|];
      do 2 eexists; (split; [reflexivity|]);
      rewrite ReporterProps.requests_of_app; reflexivity.
  - intros e He. rewrite get_alerts_run. cbv zeta. rewrite He. reflexivity.
  - intros r Hr Hc. destruct (ReporterProps.status_error_range r Hc) as [e He].
    exists e. split; [exact He|]. rewrite get_alerts_run. cbv zeta. rewrite Hr, He.
    reflexivity.
  - intros r e Hr Hs Hj. rewrite get_alerts_run. cbv zeta. rewrite Hr, Hs, Hj. reflexivity.
  - intros r data e Hr Hs Hj Ha. rewrite get_alerts_run. cbv zeta.
    rewrite Hr, Hs, Hj, Ha. reflexivity.
Qed.

(** A malformed alert after a firing one: both are dropped. *)
Lemma alerts_fail_soft_witness :
  get_alerts Scenarios.broken_alert Scenarios.reporter0
  = (Return [],
     mk_state (self Scenarios.reporter0)
       [Get (alerts_request (self Scenarios.reporter0));
        Print Stderr
          (py "Error getting alerts: 'NoneType' object has no attribute 'get'")]).
Proof.
  destruct (alerts_fail_soft Scenarios.broken_alert Scenarios.reporter0)
    as (_ & _ & _ & _ & H).
  rewrite (H (Scenarios.ok_response (alerts_request (self Scenarios.reporter0))
                (alerts_answer [Scenarios.firing_alert; Scenarios.null_labels_alert]))
             (alerts_answer [Scenarios.firing_alert; Scenarios.null_labels_alert])
             (mk_exn AttributeError (py "'NoneType' object has no attribute 'get'")));
    vm_compute; reflexivity.
Defined.

(** ** Which alerts are kept *)

Lemma alert_entries_answer items :
  alert_entries (alerts_answer items) = rfold items [] alert_step.
Proof. reflexivity. Qed.

Lemma alert_step_skip acc alert st :
  dict_get alert (py "state") PNone = Return st ->
  st <> PStr (py "firing") ->
  alert_step acc alert = Return acc.
Proof.
  intros Hs Hn. unfold alert_step. rewrite Hs. cbn [rbind].
  destruct (eq_str st (py "firing")) eqn:E; [|reflexivity].
  apply ReporterProps.eq_str_spec in E. contradiction.
Qed.

Lemma dict_get_absent d k default : assoc k d = None -> dict_get (PDict d) k default = Return default.
Proof. intros E. unfold dict_get. rewrite E. reflexivity. Qed.

Lemma dict_get_present d k default v :
  assoc k d = Some v -> dict_get (PDict d) k default = Return v.
Proof. intros E. unfold dict_get. rewrite E. reflexivity. Qed.

Lemma dict_get_default d k x :
  dict_get (PDict d) k x = Return (default x (assoc k d)).
Proof. unfold dict_get. destruct (assoc k d); reflexivity. Qed.

Lemma alert_step_firing acc d labels annotations :
  assoc (py "state") d = Some (PStr (py "firing")) ->
  default (PDict []) (assoc (py "labels") d) = PDict labels ->
  default (PDict []) (assoc (py "annotations") d) = PDict annotations ->
  alert_step acc (PDict d)
  = Return (acc ++ [firing_entry labels annotations (assoc (py "activeAt") d)]).
Proof.
  intros Hs Hl Ha. unfold alert_step.
  rewrite (dict_get_present _ _ _ _ Hs). cbn [rbind].
  replace (eq_str (PStr (py "firing")) (py "firing")) with true
    by (symmetry; apply ReporterProps.eq_str_spec; reflexivity).
  rewrite !(dict_get_default d), Hl, Ha. cbn [rbind].
  rewrite !dict_get_default. reflexivity.
Qed.

(** X15: Only firing alerts are kept.  An alert whose state is anything but the
    string [firing] (or is missing) can be taken out of the answer without
    changing what [get_alerts] gathers, at any place in the list; a firing
    alert adds one entry at the end, with the name [Unknown], the severity
    [info], an empty summary and an empty time for what it does not say. *)
Theorem only_firing_alerts_are_kept :
  (forall pre alert post st,
     dict_get alert (py "state") PNone = Return st ->
     st <> PStr (py "firing") ->
     alert_entries (alerts_answer (pre ++ alert :: post))
     = alert_entries (alerts_answer (pre ++ post)))
  /\ (forall pre d labels annotations kept,
        assoc (py "state") d = Some (PStr (py "firing")) ->
        default (PDict []) (assoc (py "labels") d) = PDict labels ->
        default (PDict []) (assoc (py "annotations") d) = PDict annotations ->
        alert_entries (alerts_answer pre) = Return kept ->
        alert_entries (alerts_answer (pre ++ [PDict d]))
        = Return (kept ++ [firing_entry labels annotations (assoc (py "activeAt") d)]))
  /\ firing_entry [] [] None
     = {| name := PStr (py "Unknown"); severity := PStr (py "info");
          summary := PStr []; since := PStr [] |}.
Proof.
  split; [|split].
  - intros pre alert post st Hs Hn. rewrite !alert_entries_answer, !HealthRun.rfold_app.
    destruct (rfold pre [] alert_step) as [acc|e]; cbn [rbind rfold]; [|reflexivity].
    rewrite (alert_step_skip acc alert st Hs Hn). reflexivity.
  - intros pre d labels annotations kept Hs Hl Ha Hk.
    rewrite alert_entries_answer in *. rewrite HealthRun.rfold_app, Hk. cbn [rbind rfold].
    rewrite (alert_step_firing kept d labels annotations Hs Hl Ha). reflexivity.
  - reflexivity.
Qed.

(** A pending alert between two firing ones leaves their two entries, the
    second with the defaults. *)
Lemma only_firing_alerts_are_kept_witness :
  alert_entries (alerts_answer [Scenarios.firing_alert; Scenarios.pending_alert;
                                Scenarios.bare_alert])
  = Return [{| name := PStr (py "KubeNodeNotReady"); severity := PStr (py "critical");
               summary := PStr (py "Node is not ready");
               since := PStr (py "2026-11-04T08:00:00Z") |};
            {| name := PStr (py "Unknown"); severity := PStr (py "info");
               summary := PStr []; since := PStr [] |}].
Proof.
  destruct only_firing_alerts_are_kept as (Hskip & Hfire & _).
  etransitivity;
    [apply (Hskip [Scenarios.firing_alert] Scenarios.pending_alert [Scenarios.bare_alert]
              (PStr (py "pending")));
     [vm_compute; reflexivity|vm_compute; intros E; discriminate E]|].
  etransitivity;
    [apply (Hfire [Scenarios.firing_alert] [(py "state", PStr (py "firing"))] [] []
              [{| name := PStr (py "KubeNodeNotReady"); severity := PStr (py "critical");
                  summary := PStr (py "Node is not ready");
                  since := PStr (py "2026-11-04T08:00:00Z") |}]);
     vm_compute; reflexivity|].
  reflexivity.
Defined.

(** ** A backend that answers nothing *)

Lemma empty_result_facts {RT : PyRuntime} :
  node_entries empty_result = Return []
  /\ usage_entries empty_result = Return []
  /\ pod_count empty_result = Return 0.
Proof. repeat split; vm_compute; reflexivity. Qed.

Lemma daily_lines_empty {RT : PyRuntime} stamp :
  rbind (daily_lines stamp [] no_usage no_pods []) (fun report => Return (join nl report))
  = Return (empty_report stamp).
Proof.
  unfold daily_lines. cbv zeta. cbn [rbind].
  assert (pod_section no_pods
          = [py "## Pod Status"; py "  Total: 0"; py "  Running: 0"; py "  Pending: 0";
             py "  Failed: 0"; []]) as -> by (vm_compute; reflexivity).
  assert (List.concat (List.map usage_section no_usage)
          = [py "### CPU"; []; py "### MEMORY"; []; py "### DISK"; []]) as ->
    by (vm_compute; reflexivity).
  reflexivity.
Qed.

Section Failing.
Context {RT : PyRuntime} (w : world).
Hypothesis all_fail : forall rq, fails w rq.

Lemma query_fails q s :
  exists line,
    query_prometheus w q s
    = (Return empty_result,
       mk_state (self s)
         (trace s ++ [Get (prometheus_request (self s) q); Print Stderr line])).
Proof.
  rewrite ReporterProps.reporter_query_run. cbv zeta.
  pose proof (all_fail (prometheus_request (self s) q)) as Hf. unfold fails in Hf.
  destruct (http_get w (prometheus_request (self s) q)) as [r|e]; [|eexists; reflexivity].
  destruct (status_error r) as [e|]; [eexists; reflexivity|contradiction].
Qed.

Lemma alerts_fail s :
  exists line,
    get_alerts w s
    = (Return [],
       mk_state (self s) (trace s ++ [Get (alerts_request (self s)); Print Stderr line])).
Proof.
  rewrite get_alerts_run. cbv zeta.
  pose proof (all_fail (alerts_request (self s))) as Hf. unfold fails in Hf.
  destruct (http_get w (alerts_request (self s))) as [r|e]; [|eexists; reflexivity].
  destruct (status_error r) as [e|]; [eexists; reflexivity|contradiction].
Qed.

Lemma usage_loop_fails (qs : list (pystr * pystr)) :
  forall (acc : list (pystr * list usage_entry)) o t0, exists t,
    for_each qs acc (fun usage mq =>
      result <- query_prometheus w (snd mq) ;;
      entries <- lift (usage_entries result) ;;
      ret (usage ++ [(fst mq, entries)]))%py (mk_state o t0)
    = (Return (acc ++ List.map (fun mq => (fst mq, [])) qs), mk_state o (t0 ++ t))
    /\ requests_of t = List.map (fun mq => prometheus_request o (snd mq)) qs.
Proof.
  destruct empty_result_facts as (_ & Hu & _).
  induction qs as [|mq qs IH]; intros acc o t0.
  - exists []. cbn [for_each List.map]. rewrite !app_nil_r. split; reflexivity.
  - cbn [for_each]. unfold bind at 1 2.
    destruct (query_fails (snd mq) (mk_state o t0)) as [line ->]. cbn [self trace].
    unfold bind, lift, ret. rewrite Hu.
    edestruct (IH (acc ++ [(fst mq, [])]) o) as (t & -> & Ht).
    eexists. rewrite <- !app_assoc. split; [reflexivity|].
    cbn [app requests_of List.map]. rewrite Ht. reflexivity.
Qed.

Lemma pod_loop_fails (qs : list (pystr * pystr)) :
  forall (acc : gmap pystr Z) o t0, exists t,
    for_each qs acc (fun status pq =>
      result <- query_prometheus w (snd pq) ;;
      n <- lift (pod_count result) ;;
      ret (<[fst pq := n]> status))%py (mk_state o t0)
    = (Return (fold_left (fun status pq => <[fst pq := 0]> status) qs acc),
       mk_state o (t0 ++ t))
    /\ requests_of t = List.map (fun pq => prometheus_request o (snd pq)) qs.
Proof.
  destruct empty_result_facts as (_ & _ & Hp).
  induction qs as [|pq qs IH]; intros acc o t0.
  - exists []. cbn [for_each List.map fold_left]. rewrite !app_nil_r. split; reflexivity.
  - cbn [for_each fold_left]. unfold bind at 1 2.
    destruct (query_fails (snd pq) (mk_state o t0)) as [line ->]. cbn [self trace].
    unfold bind, lift, ret. rewrite Hp.
    edestruct (IH (<[fst pq := 0]> acc) o) as (t & -> & Ht).
    eexists. rewrite <- !app_assoc. split; [reflexivity|].
    cbn [app requests_of List.map]. rewrite Ht. reflexivity.
Qed.

End Failing.

(** X16: When every request fails (the transport raises or the status is an
    error status), the daily report is still rendered, after the same nine
    requests: no node, no usage value, pod counts of 0 and no active alert.
    It reads as the report of an empty cluster; the failures go to stderr
    only. *)
Theorem failing_backend_gives_empty_report {RT : PyRuntime} (w : world) s :
  (forall rq, fails w rq) ->
  exists t,
    generate_daily_report w s
    = (Return (empty_report (timestamp (self s))), mk_state (self s) (trace s ++ t))
    /\ requests_of t
       = List.map (prometheus_request (self s))
           (node_query :: List.map snd usage_queries ++ List.map snd pod_queries)
         ++ [alerts_request (self s)].
Proof.
  intros Hf. destruct empty_result_facts as (Hn & _ & _).
  unfold generate_daily_report, get_node_status, get_resource_usage, get_pod_status.
  destruct s as [o t0]. cbn [self trace].
  unfold bind at 1 2. destruct (query_fails w Hf node_query (mk_state o t0)) as [l1 ->].
  cbn [self trace]. unfold lift at 1. rewrite Hn.
  unfold bind at 1.
  edestruct (usage_loop_fails w Hf usage_queries [] o) as (t2 & -> & H2).
  unfold bind at 1.
  edestruct (pod_loop_fails w Hf pod_queries ∅ o) as (t3 & -> & H3).
  unfold bind at 1.
  match goal with
  | |- context [get_alerts w ?s0] => destruct (alerts_fail w Hf s0) as [l4 ->]
  end.
  cbn [self trace].
  unfold bind, get_self, lift, ret. cbn [self app List.map].
  pose proof (daily_lines_empty (timestamp o)) as Hd.
  change (fold_left (fun status pq => <[fst pq := 0]> status) pod_queries ∅) with no_pods.
  change (List.map (fun mq => (fst mq, [])) usage_queries) with no_usage.
  destruct (daily_lines (timestamp o) [] no_usage no_pods []) as [report|e];
    cbn [rbind] in Hd; [|discriminate Hd].
  apply Return_inj in Hd. rewrite Hd.
  eexists. rewrite <- !app_assoc. split; [reflexivity|].
  cbn [app requests_of]. rewrite !ReporterProps.requests_of_app, H2, H3.
  cbn [requests_of alerts_request app]. rewrite !map_app, !map_map.
  rewrite <- !app_assoc. reflexivity.
Qed.

(** Against a backend that refuses every connection the report is the
    empty one. *)
Lemma failing_backend_gives_empty_report_witness :
  fst (generate_daily_report (RT := Runtime.cpython) Scenarios.down_world Scenarios.reporter0)
  = Return (empty_report (Scenarios.at_time 2026 11 3 23 59 58)).
Proof.
  destruct (failing_backend_gives_empty_report (RT := Runtime.cpython) Scenarios.down_world
              Scenarios.reporter0) as (t & -> & _).
  - intros rq. exact I.
  - reflexivity.
Defined.

(** ** What reaches the webhook *)

(** X17: The text of the payload is the content between two code fences: eight
    characters more than a report shorter than 1990 characters, and 2014
    characters for every longer report.  A report that was cut is therefore
    always sent as more than the 2000 characters the comment of line 231
    gives as the limit. *)
Theorem webhook_payload_length report :
  exists text,
    discord_payload (discord_content report) = PDict [(py "content", PStr text)]
    /\ length text
       = (if (length report <? 1990)%nat then length report + 8 else 2014)%nat
    /\ (length text <= 2014)%nat
    /\ ((1990 <= length report)%nat -> (2000 < length text)%nat).
Proof.
  unfold discord_payload. eexists. split; [reflexivity|].
  assert (length (py "```" ++ nl ++ discord_content report ++ nl ++ py "```")
          = (length (discord_content report) + 8)%nat) as ->.
  { rewrite !length_app. change (length (py "```")) with 3%nat.
    change (length nl) with 1%nat. lia. }
  destruct (length report <? 1990)%nat eqn:E.
  - apply Nat.ltb_lt in E. rewrite ReporterProps.discord_content_short by exact E.
    split; [reflexivity|]. split; lia.
  - apply Nat.ltb_ge in E. rewrite ReporterProps.discord_content_long by exact E.
    rewrite length_app, length_firstn, ReporterProps.truncation_suffix_length.
    split; [lia|]. split; lia.
Qed.

(** ** The configured URL *)

Lemma lstrip_char_repeat ch n s : lstrip_char ch (List.repeat ch n ++ s) = lstrip_char ch s.
Proof.
  induction n as [|n IH]; [reflexivity|].
  cbn [List.repeat app lstrip_char]. rewrite N.eqb_refl. exact IH.
Qed.

Lemma lstrip_char_head ch s : head (lstrip_char ch s) <> Some ch.
Proof.
  induction s as [|c s IH]; [discriminate|].
  cbn [lstrip_char]. destruct (c =? ch)%N eqn:E; [exact IH|].
  cbn [head]. intros H. injection H as ->. rewrite N.eqb_refl in E. discriminate E.
Qed.

Lemma lstrip_char_id ch s : head s <> Some ch -> lstrip_char ch s = s.
Proof.
  destruct s as [|c s]; [reflexivity|]. cbn [head lstrip_char]. intros H.
  destruct (c =? ch)%N eqn:E; [|reflexivity].
  apply N.eqb_eq in E. subst c. contradiction.
Qed.

Lemma rev_repeat {A} (x : A) n : rev (List.repeat x n) = List.repeat x n.
Proof.
  induction n as [|n IH]; [reflexivity|].
  cbn [List.repeat rev]. rewrite IH. symmetry. apply repeat_cons.
Qed.

Lemma last_rev_head {A} (l : list A) : last (rev l) = head l.
Proof. destruct l as [|x l]; [reflexivity|]. cbn [rev head]. apply last_snoc. Qed.

Lemma head_rev_last {A} (l : list A) : head (rev l) = last l.
Proof. rewrite <- (rev_involutive l) at 2. symmetry. apply last_rev_head. Qed.

(** X18: The reporter is the same for a URL with any number of trailing slashes
    and for the URL without them: the URL it keeps never ends in a slash, so
    the query paths are joined with exactly one; a URL that does not end in
    a slash is kept as it is. *)
Theorem trailing_slashes_are_dropped url report_type now :
  (forall n, init (url ++ List.repeat 0x2F%N n) report_type now = init url report_type now)
  /\ last (prometheus_url (init url report_type now)) <> Some 0x2F%N
  /\ (last url <> Some 0x2F%N -> prometheus_url (init url report_type now) = url)
  /\ (forall q,
        req_url (prometheus_request (init url report_type now) q)
        = rstrip_char 0x2F%N url ++ py "/api/v1/query").
Proof.
  unfold init. cbn [prometheus_url]. split; [|split; [|split]].
  - intros n. f_equal. unfold rstrip_char.
    rewrite rev_app_distr, rev_repeat, lstrip_char_repeat. reflexivity.
  - unfold rstrip_char. rewrite last_rev_head. apply lstrip_char_head.
  - intros H. unfold rstrip_char. rewrite lstrip_char_id; [apply rev_involutive|].
    rewrite head_rev_last. exact H.
  - intros q. reflexivity.
Qed.

(** ** Rows that cannot be read *)

Lemma rfold_collect {A B} (f : A -> res B) items :
  forall acc out,
    rfold items acc (fun acc item => e <~ f item ;; Return (acc ++ [e]))%py = Return out ->
    exists es, out = acc ++ es /\ Forall2 (fun item e => f item = Return e) items es.
Proof.
  induction items as [|item items IH]; intros acc out E; cbn [rfold] in E.
  - apply Return_inj in E. subst out. exists []. rewrite app_nil_r. split; [reflexivity|].
    constructor.
  - unfold rbind at 1 2 in E. destruct (f item) as [e|x] eqn:Ef; [|discriminate E].
    apply IH in E. destruct E as (es & -> & Hes).
    exists (e :: es). rewrite <- app_assoc. split; [reflexivity|].
    constructor; assumption.
Qed.

(** X19: The node and usage facts follow the rows of the answer one to one and
    in order: when the getters' loops return, the entry at each place is the
    one of the row at that place; a row whose labels hold no instance is
    named [unknown]. *)
Theorem entries_follow_rows {RT : PyRuntime} result rows items :
  result_rows result = Return rows ->
  iter rows = Return items ->
  (forall es, node_entries result = Return es ->
     Forall2 (fun item e => node_entry_of item = Return e) items es)
  /\ (forall es, usage_entries result = Return es ->
        Forall2 (fun item e => usage_entry_of item = Return e) items es)
  /\ (forall labels v,
        assoc (py "instance") labels = None ->
        item_node (PDict [(py "metric", PDict labels); (py "value", v)])
        = Return (PStr (py "unknown"))).
Proof.
  intros Hr Hi. split; [|split].
  - intros es E. unfold node_entries in E. rewrite Hr in E. cbn [rbind] in E.
    rewrite Hi in E. cbn [rbind] in E.
    apply rfold_collect in E. destruct E as (es' & -> & H). exact H.
  - intros es E. unfold usage_entries in E. rewrite Hr in E. cbn [rbind] in E.
    rewrite Hi in E. cbn [rbind] in E.
    apply rfold_collect in E. destruct E as (es' & -> & H). exact H.
  - intros labels v Hl. unfold item_node.
    replace (getitem (PDict [(py "metric", PDict labels); (py "value", v)]) (py "metric"))
      with (Return (PDict labels)) by (vm_compute; reflexivity).
    cbn [rbind]. apply dict_get_absent, Hl.
Qed.

(** The two rows of the scenario give two entries, the second one DOWN. *)
Lemma entries_follow_rows_witness :
  Forall2 (fun item e => node_entry_of item = Return e)
    [Scenarios.sample "kube501.home:9100" "1"; Scenarios.sample "kube502.home:9100" "0"]
    [{| node := PStr (py "kube501.home:9100"); status := py "UP" |};
     {| node := PStr (py "kube502.home:9100"); status := py "DOWN" |}].
Proof.
  apply (proj1 (entries_follow_rows (RT := Runtime.cpython)
                  (Scenarios.vector [Scenarios.sample "kube501.home:9100" "1";
                                     Scenarios.sample "kube502.home:9100" "0"])
                  (PList [Scenarios.sample "kube501.home:9100" "1";
                          Scenarios.sample "kube502.home:9100" "0"])
                  [Scenarios.sample "kube501.home:9100" "1";
                   Scenarios.sample "kube502.home:9100" "0"]
                  ltac:(vm_compute; reflexivity) ltac:(reflexivity)));
    vm_compute; reflexivity.
Defined.

(** X20: A row that cannot be read ends the report.  The query client catches
    what the request raises, and the getters that read its answer catch
    nothing: when the answer of the node query has a row from which no entry
    can be made (no value, no labels), [generate_daily_report] ends with that
    exception after the one request, and no report is rendered. *)
Theorem unreadable_row_ends_the_report {RT : PyRuntime} (w : world) s r result e :
  http_get w (prometheus_request (self s) node_query) = Return r ->
  status_error r = None ->
  resp_json r = Return result ->
  node_entries result = Raise e ->
  generate_daily_report w s
  = (Raise e,
     mk_state (self s) (trace s ++ [Get (prometheus_request (self s) node_query)])).
Proof.
  intros Hr Hs Hj He. unfold generate_daily_report, get_node_status.
  unfold bind at 1 2. rewrite ReporterProps.reporter_query_run. cbv zeta.
  rewrite Hr, Hs, Hj. unfold lift. rewrite He. reflexivity.
Qed.

(** A row without a value ends the daily report with a [KeyError]. *)
Lemma unreadable_row_ends_the_report_witness :
  fst (generate_daily_report (RT := Runtime.cpython) Scenarios.broken_rows
         Scenarios.reporter0)
  = Raise (mk_exn KeyError (py "'value'")).
Proof.
  rewrite (unreadable_row_ends_the_report (RT := Runtime.cpython) Scenarios.broken_rows
             Scenarios.reporter0
             (Scenarios.ok_response
                (prometheus_request (self Scenarios.reporter0) node_query)
                (Scenarios.vector [Scenarios.row_without_value]))
             (Scenarios.vector [Scenarios.row_without_value])
             (mk_exn KeyError (py "'value'")));
    vm_compute; reflexivity.
Defined.

(** ** The weekly report *)

(** X21: The weekly report gathers nothing of its own: it does what the daily
    report does, request for request and line for line of output, and
    returns the daily text, unchanged, between its own heading and its fixed
    summary; when the daily report raises, it raises the same. *)
Theorem weekly_report_wraps_daily {RT : PyRuntime} (w : world) now start s :
  minus_days now 7 = Return start ->
  snd (generate_weekly_report w now s) = snd (generate_daily_report w s)
  /\ (forall daily, fst (generate_daily_report w s) = Return daily ->
        fst (generate_weekly_report w now s)
        = Return (join nl
                    ([repeat_str (py "=") 60;
                      py "Kubernetes Cluster Health Report - Weekly";
                      py "Period: " ++ strftime_date start ++ py " to " ++ strftime_date now;
                      repeat_str (py "=") 60;
                      []]
                     ++ [daily; []]
                     ++ [py "## Weekly Summary";
                         py "  - Average uptime: Check Prometheus for detailed metrics";
                         py "  - Resource trends: See Grafana dashboards";
                         py "  - Incident summary: Review alert history";
                         []]
                     ++ [repeat_str (py "=") 60])))
  /\ (forall e, fst (generate_daily_report w s) = Raise e ->
        fst (generate_weekly_report w now s) = Raise e).
Proof.
  intros Hm. unfold generate_weekly_report. cbv zeta.
  unfold bind at 1 3 5, lift. rewrite Hm.
  unfold bind, ret.
  destruct (generate_daily_report w s) as [[daily|e] s1]; cbn [fst snd].
  - split; [reflexivity|]. split; [|intros e E; discriminate E].
    intros d E. apply Return_inj in E. subst d. reflexivity.
  - split; [reflexivity|]. split; [intros d E; discriminate E|].
    intros e' E. exact E.
Qed.

(** The weekly report of the scenario sends the nine requests of the daily
    one. *)
Lemma weekly_report_wraps_daily_witness :
  snd (generate_weekly_report (RT := Runtime.cpython) Scenarios.busy_cluster
         (Scenarios.at_time 2026 11 4 0 0 1) Scenarios.reporter0)
  = snd (generate_daily_report (RT := Runtime.cpython) Scenarios.busy_cluster
           Scenarios.reporter0).
Proof.
  apply (weekly_report_wraps_daily (RT := Runtime.cpython) Scenarios.busy_cluster
           (Scenarios.at_time 2026 11 4 0 0 1) (Scenarios.at_time 2026 10 28 0 0 1)
           Scenarios.reporter0).
  vm_compute. reflexivity.
Defined.

(** ** The range query *)

Lemma range_query_run (w : world) q start_ts end_ts s :
  query_prometheus_range w q start_ts end_ts s =
  let failed t e :=
    (Return empty_result,
     mk_state (self s)
       (trace s ++ t ++ [Print Stderr (py "Error querying Prometheus range: " ++ exn_str e)])) in
  match start_ts, end_ts with
  | Raise e, _ => failed [] e
  | Return _, Raise e => failed [] e
  | Return a, Return b =>
    let rq := range_request (self s) q a b in
    match http_get w rq with
    | Raise e => failed [Get rq] e
    | Return r =>
      match status_error r with
      | Some e => failed [Get rq] e
      | None =>
        match resp_json r with
        | Raise e => failed [Get rq] e
        | Return v => (Return v, mk_state (self s) (trace s ++ [Get rq]))
        end
      end
    end
  end.
Proof.
  unfold query_prometheus_range. run.
  destruct start_ts as [a|e]; run; [|reflexivity].
  destruct end_ts as [b|e]; run; [|reflexivity].
  destruct (http_get w (range_request (self s) q a b)) as [r|e]; run.
  - destruct (status_error r) as [e|]; run.
    + rewrite <- !app_assoc. reflexivity.
    + destruct (resp_json r) as [v|e]; run; [reflexivity|].
      rewrite <- !app_assoc. reflexivity.
  - rewrite <- !app_assoc. reflexivity.
Qed.

(** X22: The range query never raises and leaves the reporter as it is.  It
    sends one request, to the query-range endpoint with the two bounds, with
    a timeout of 30 and with the step [1h] exactly when the report type is
    [daily] and [1d] for any other; when a bound cannot be computed it sends
    none.  Whatever fails, it returns the empty result set. *)
Theorem range_query_fails_soft (w : world) q start_ts end_ts s :
  (exists v t,
     query_prometheus_range w q start_ts end_ts s = (Return v, mk_state (self s) t)
     /\ (forall a b, start_ts = Return a -> end_ts = Return b ->
           requests_of t = requests_of (trace s) ++ [range_request (self s) q a b])
     /\ ((forall a b, start_ts = Return a -> end_ts = Return b ->
            fails w (range_request (self s) q a b)) ->
         v = empty_result)
     /\ ((forall a, start_ts <> Return a) \/ (forall b, end_ts <> Return b) ->
         requests_of t = requests_of (trace s)))
  /\ (forall a b,
        req_timeout (range_request (self s) q a b) = 30
        /\ (assoc (py "step") (req_params (range_request (self s) q a b))
            = Some (PStr (py "1h")) <-> report_type (self s) = py "daily")
        /\ (assoc (py "step") (req_params (range_request (self s) q a b))
            = Some (PStr (py "1d")) <-> report_type (self s) <> py "daily")).
Proof.
  split.
  - rewrite range_query_run. cbv zeta.
    destruct start_ts as [a|e]; [destruct end_ts as [b|e]|].
    + destruct (http_get w (range_request (self s) q a b)) as [r|e] eqn:Eh;
        [destruct (status_error r) as [e|] eqn:Es; [|destruct (resp_json r) as [v|e]]|];
        do 2 eexists; (split; [reflexivity|]);
        (split; [intros a' b' Ea Eb; apply Return_inj in Ea, Eb; subst a' b';
                 rewrite !ReporterProps.requests_of_app; reflexivity|]);
        (split; [intros Hf;
                 first [reflexivity
                       |specialize (Hf a b eq_refl eq_refl); unfold fails in Hf;
                        rewrite Eh in Hf; exfalso; apply Hf; exact Es]|]);
        (intros [H|H]; exfalso; [apply (H a)|apply (H b)]; reflexivity).
    + do 2 eexists. split; [reflexivity|]. split; [intros a' b' _ Eb; discriminate Eb|].
      split; [reflexivity|]. intros _. rewrite ReporterProps.requests_of_app.
      cbn [app requests_of]. apply app_nil_r.
    + do 2 eexists. split; [reflexivity|]. split; [intros a' b' Ea; discriminate Ea|].
      split; [reflexivity|]. intros _. rewrite ReporterProps.requests_of_app.
      cbn [app requests_of]. apply app_nil_r.
  - intros a b. split; [reflexivity|].
    assert (assoc (py "step") (req_params (range_request (self s) q a b))
            = Some (PStr (range_step (self s)))) as -> by (vm_compute; reflexivity).
    unfold range_step.
    destruct (str_eqb (report_type (self s)) (py "daily")) eqn:E.
    + apply str_eqb_eq in E. split; split; intros H; try reflexivity; try exact E.
      * exfalso. vm_compute in H. discriminate H.
      * contradiction.
    + assert (report_type (self s) <> py "daily") as Hn
        by (intros H; apply str_eqb_eq in H; congruence).
      split; split; intros H; try reflexivity; try exact Hn.
      * exfalso. vm_compute in H. discriminate H.
      * contradiction.
Qed.

(** ** Saving and sending *)

Lemma drop_until_app ch (a b : pystr) :
  ch ∉ a -> drop_until ch (a ++ ch :: b) = ch :: b.
Proof.
  induction a as [|c a IH]; intros Hn; cbn [app drop_until].
  - rewrite N.eqb_refl. reflexivity.
  - destruct (c =? ch)%N eqn:E.
    + apply N.eqb_eq in E. subst c. exfalso. apply Hn, list_elem_of_here.
    + apply IH. intros H. apply Hn, list_elem_of_further, H.
Qed.

Lemma drop_until_none ch (a : pystr) : ch ∉ a -> drop_until ch a = [].
Proof.
  induction a as [|c a IH]; intros Hn; cbn [drop_until]; [reflexivity|].
  destruct (c =? ch)%N eqn:E.
  - apply N.eqb_eq in E. subst c. exfalso. apply Hn, list_elem_of_here.
  - apply IH. intros H. apply Hn, list_elem_of_further, H.
Qed.

Lemma not_elem_of_rev {A} (x : A) l : x ∉ l -> x ∉ rev l.
Proof.
  intros Hn H. apply Hn. apply list_elem_of_In. apply in_rev. apply list_elem_of_In, H.
Qed.

Section Main.
Context (fs : filesystem).

Lemma save_report_run report output s :
  save_report fs report output s =
  match makedirs fs (dirname output) with
  | Raise e => (Raise e, s)
  | Return _ =>
    match write_file fs output report with
    | Raise e => (Raise e, s)
    | Return _ =>
      (Return tt,
       mk_state (self s) (trace s ++ [Print Stdout (py "Report saved to: " ++ output)]))
    end
  end.
Proof.
  unfold save_report. run.
  destruct (makedirs fs (dirname output)) as [[]|e]; [|reflexivity].
  destruct (write_file fs output report) as [[]|e]; reflexivity.
Qed.

End Main.

(** X23: The directory of an output path as [save_report] computes it: empty
    for a bare file name, the part before the last slash for a file in a
    directory.  A bare file name therefore has [os.makedirs] called on the
    empty path, and when that raises (as it does in CPython) the run ends
    with the exception in the state the generation of the report left:
    nothing is written, printed or sent after it. *)
Theorem bare_output_name_has_no_directory {RT : PyRuntime} :
  (forall name, 0x2F%N ∉ name -> dirname name = [])
  /\ (forall dir c name,
        c <> 0x2F%N -> 0x2F%N ∉ name ->
        dirname (dir ++ c :: 0x2F%N :: name) = dir ++ [c])
  /\ (forall w fs args now now_weekly e,
        0x2F%N ∉ arg_output args ->
        makedirs fs [] = Raise e ->
        let generate :=
          if str_eqb (arg_type args) (py "daily")
          then generate_daily_report w else generate_weekly_report w now_weekly in
        let s0 := mk_state (init (arg_prometheus_url args) (arg_type args) now) [] in
        snd (main w fs args now now_weekly) = snd (generate s0)
        /\ fst (main w fs args now now_weekly)
           = rbind (fst (generate s0)) (fun _ => Raise e)).
Proof.
  assert (forall name, 0x2F%N ∉ name -> dirname name = []) as Hbare.
  { intros name Hn. unfold dirname.
    rewrite (drop_until_none _ _ (not_elem_of_rev _ _ Hn)). reflexivity. }
  split; [exact Hbare|]. split.
  - intros dir c name Hc Hn. unfold dirname.
    replace (rev (dir ++ c :: 0x2F%N :: name))
      with (rev name ++ 0x2F%N :: rev (dir ++ [c])).
    2:{ rewrite !rev_app_distr. cbn [rev app]. rewrite <- !app_assoc. reflexivity. }
    rewrite (drop_until_app _ _ _ (not_elem_of_rev _ _ Hn)).
    cbn [rev]. rewrite rev_involutive.
    rewrite length_app. cbn [length].
    replace (length (dir ++ [c]) + 1 =? 0)%nat with false
      by (symmetry; apply Nat.eqb_neq; lia).
    rewrite !forallb_app. cbn [forallb negb andb].
    replace (0x2F =? c)%N with false by (symmetry; apply N.eqb_neq; congruence).
    rewrite andb_false_r. cbn [negb andb].
    unfold rstrip_char. rewrite rev_app_distr. cbn [rev app lstrip_char].
    rewrite N.eqb_refl. rewrite rev_app_distr. cbn [rev app lstrip_char].
    replace (c =? 0x2F)%N with false by (symmetry; apply N.eqb_neq; congruence).
    cbn [rev]. rewrite rev_involutive. reflexivity.
  - intros w fs args now now_weekly e Hn He. cbv zeta. unfold main.
    set (s0 := mk_state _ []).
    set (generate := if str_eqb _ _ then _ else _).
    unfold bind at 1 3. destruct (generate s0) as [[report|x] s1].
    + unfold bind. rewrite save_report_run, (Hbare _ Hn), He. split; reflexivity.
    + split; reflexivity.
Qed.

(** With the output [report.txt] the run ends with the exception of
    [os.makedirs]. *)
Lemma bare_output_name_has_no_directory_witness :
  fst (main (RT := Runtime.cpython) Scenarios.busy_cluster Scenarios.plain_disk
         (Scenarios.daily_to "report.txt")
         (Scenarios.at_time 2026 11 3 23 59 58) (Scenarios.at_time 2026 11 3 23 59 59))
  = Raise Scenarios.no_such_file.
Proof.
  destruct (bare_output_name_has_no_directory (RT := Runtime.cpython)) as (_ & _ & H).
  destruct (H Scenarios.busy_cluster Scenarios.plain_disk (Scenarios.daily_to "report.txt")
              (Scenarios.at_time 2026 11 3 23 59 58) (Scenarios.at_time 2026 11 3 23 59 59)
              Scenarios.no_such_file) as [_ ->].
  - vm_compute. intros Hin. repeat (apply elem_of_cons in Hin; destruct Hin as [Hin|Hin];
      [discriminate Hin|]). inversion Hin.
  - reflexivity.
  - vm_compute. reflexivity.
Defined.

(** X24: The order of [main].  The report is generated first; an exception of
    the generation ends the run.  Then the file is written: when the
    directory cannot be made or the file cannot be written the run ends with
    that exception, before the line about the saved report and before the
    webhook.  Only after the file is written is the same text handed to the
    webhook sink, and whatever happens there the run completes. *)
Theorem report_is_saved_before_it_is_sent {RT : PyRuntime} (w : world) (fs : filesystem)
    args now now_weekly :
  let generate :=
    if str_eqb (arg_type args) (py "daily")
    then generate_daily_report w else generate_weekly_report w now_weekly in
  let s0 := mk_state (init (arg_prometheus_url args) (arg_type args) now) [] in
  (forall e s1, generate s0 = (Raise e, s1) ->
     main w fs args now now_weekly = (Raise e, s1))
  /\ (forall report s1 e,
        generate s0 = (Return report, s1) ->
        makedirs fs (dirname (arg_output args)) = Raise e
        \/ (makedirs fs (dirname (arg_output args)) = Return tt
            /\ write_file fs (arg_output args) report = Raise e) ->
        main w fs args now now_weekly = (Raise e, s1))
  /\ (forall report s1,
        generate s0 = (Return report, s1) ->
        makedirs fs (dirname (arg_output args)) = Return tt ->
        write_file fs (arg_output args) report = Return tt ->
        main w fs args now now_weekly
        = send_to_discord w report (arg_discord_webhook args)
            (mk_state (self s1)
               (trace s1 ++ [Print Stdout (py "Report saved to: " ++ arg_output args)]))
        /\ fst (main w fs args now now_weekly) = Return tt).
Proof.
  cbv zeta. unfold main.
  set (s0 := mk_state _ []).
  set (generate := if str_eqb _ _ then _ else _).
  split; [|split].
  - intros e s1 Eg. unfold bind at 1. rewrite Eg. reflexivity.
  - intros report s1 e Eg Hfail. unfold bind at 1. rewrite Eg.
    unfold bind. rewrite save_report_run.
    destruct Hfail as [->|[-> ->]]; reflexivity.
  - intros report s1 Eg Hm Hw.
    assert ((report <- generate ;;
             save_report fs report (arg_output args) ;;
             send_to_discord w report (arg_discord_webhook args))%py s0
            = send_to_discord w report (arg_discord_webhook args)
                (mk_state (self s1)
                   (trace s1 ++ [Print Stdout (py "Report saved to: " ++ arg_output args)])))
      as E.
    { unfold bind at 1. rewrite Eg. unfold bind. rewrite save_report_run, Hm, Hw.
      reflexivity. }
    split; [exact E|]. rewrite E, ReporterProps.send_to_discord_run.
    destruct (bool_decide (arg_discord_webhook args = [])); [reflexivity|]. cbv zeta.
    cbn [self].
    destruct (http_post w _ _) as [r|e]; [destruct (status_error r)|]; reflexivity.
Qed.

(** With a directory in the output path the run of the scenario completes,
    and the last thing it does is the call of the webhook. *)
Lemma report_is_saved_before_it_is_sent_witness :
  fst (main (RT := Runtime.cpython) Scenarios.busy_cluster Scenarios.plain_disk
         (Scenarios.daily_to "/var/reports/daily.txt")
         (Scenarios.at_time 2026 11 3 23 59 58) (Scenarios.at_time 2026 11 3 23 59 59))
  = Return tt.
Proof.
  destruct (generate_daily_report (RT := Runtime.cpython) Scenarios.busy_cluster
              (mk_state (init (py "http://prometheus.home/") (py "daily")
                           (Scenarios.at_time 2026 11 3 23 59 58)) []))
    as [[report|e] s1] eqn:Eg.
  - apply (proj2 (proj2 (report_is_saved_before_it_is_sent (RT := Runtime.cpython)
                           Scenarios.busy_cluster Scenarios.plain_disk
                           (Scenarios.daily_to "/var/reports/daily.txt")
                           (Scenarios.at_time 2026 11 3 23 59 58)
                           (Scenarios.at_time 2026 11 3 23 59 59))) report s1).
    + exact Eg.
    + vm_compute. reflexivity.
    + reflexivity.
  - exfalso. apply (f_equal fst) in Eg. vm_compute in Eg. discriminate Eg.
Defined.

(** ** The pod counts *)

Section Pods.
Context {RT : PyRuntime} (w : world).

Lemma query_keeps_self q s :
  self (snd (query_prometheus w q s)) = self s.
Proof.
  rewrite ReporterProps.reporter_query_run. cbv zeta.
  destruct (http_get w (prometheus_request (self s) q)) as [r|e]; [|reflexivity].
  destruct (status_error r); [reflexivity|]. destruct (resp_json r); reflexivity.
Qed.

Lemma pod_loop_lookup (qs : list (pystr * pystr)) :
  NoDup (List.map fst qs) ->
  forall (acc : gmap pystr Z) s pods s',
    for_each qs acc (fun status pq =>
      result <- query_prometheus w (snd pq) ;;
      n <- lift (pod_count result) ;;
      ret (<[fst pq := n]> status))%py s = (Return pods, s') ->
    self s' = self s
    /\ (forall k, k ∉ List.map fst qs -> pods !! k = acc !! k)
    /\ (forall k q, (k, q) ∈ qs ->
          exists v n, fst (query_prometheus w q s) = Return v
                      /\ pod_count v = Return n /\ pods !! k = Some n).
Proof.
  induction qs as [|[k0 q0] qs IH]; intros Hnd acc s pods s' E.
  - cbn [for_each] in E. unfold ret in E. injection E as <- <-.
    split; [reflexivity|]. split; [reflexivity|]. intros k q Hin. inversion Hin.
  - cbn [List.map fst] in Hnd. apply NoDup_cons in Hnd. destruct Hnd as [Hk0 Hnd].
    cbn [for_each] in E. apply bind_returns in E. destruct E as (acc1 & s1 & E1 & E).
    cbn [fst snd] in E1.
    apply bind_returns in E1. destruct E1 as (v0 & s0 & Eq & E1).
    apply bind_returns in E1. destruct E1 as (n0 & s0' & En & E1).
    unfold lift in En. injection En as En <-. unfold ret in E1. injection E1 as <- <-.
    assert (self s0 = self s) as Hs0
      by (pose proof (query_keeps_self q0 s) as H; rewrite Eq in H; exact H).
    destruct (IH Hnd _ _ _ _ E) as (Hs & Hout & Hin).
    split; [congruence|]. split.
    + intros k Hk. rewrite Hout.
      * apply lookup_insert_ne. intros ->. apply Hk. cbn [List.map fst].
        apply list_elem_of_here.
      * intros H. apply Hk. cbn [List.map fst]. apply list_elem_of_further, H.
    + intros k q Hkq. apply elem_of_cons in Hkq. destruct Hkq as [Heq|Hkq].
      * injection Heq as -> ->. exists v0, n0. rewrite Eq. split; [reflexivity|].
        split; [exact En|]. rewrite (Hout k0 Hk0). apply lookup_insert_eq.
      * destruct (Hin k q Hkq) as (v & n & Hv & Hn & Hl). exists v, n.
        split; [|split; assumption].
        rewrite <- Hv. apply (ReporterProps.rso_query_prometheus w q s s0). congruence.
Qed.

End Pods.

Lemma pod_phases_differ : NoDup (List.map fst pod_queries).
Proof.
  apply (bool_decide_unpack _). vm_compute. exact I.
Qed.

(** X25: The dict of the pod counts, when [get_pod_status] returns it, holds
    the four phases and nothing else, and under each phase the count read
    from the answer to the query of that phase.  A result without rows
    counts as 0; of a result with rows the first alone is read. *)
Theorem pod_counts_come_from_their_queries {RT : PyRuntime} (w : world) s pods s' :
  get_pod_status w s = (Return pods, s') ->
  (forall phase q, (phase, q) ∈ pod_queries ->
     exists v n, fst (query_prometheus w q s) = Return v
                 /\ pod_count v = Return n /\ pods !! phase = Some n)
  /\ (forall k, k ∉ List.map fst pod_queries -> pods !! k = None)
  /\ (forall result, result_rows result = Return (PList []) -> pod_count result = Return 0)
  /\ (forall result row rest,
        result_rows result = Return (PList (row :: rest)) ->
        pod_count result = rbind (item_value row) py_int).
Proof.
  intros E. unfold get_pod_status in E.
  destruct (pod_loop_lookup w pod_queries pod_phases_differ ∅ s pods s' E)
    as (_ & Hout & Hin).
  split; [exact Hin|]. split; [|split].
  - intros k Hk. rewrite (Hout k Hk). apply lookup_empty.
  - intros result Hr. unfold pod_count. rewrite Hr. reflexivity.
  - intros result row rest Hr. unfold pod_count. rewrite Hr. reflexivity.
Qed.

(** In the scenario the dict holds 8 running pods, and no other key. *)
Lemma pod_counts_come_from_their_queries_witness :
  exists pods,
    fst (get_pod_status (RT := Runtime.cpython) Scenarios.busy_cluster Scenarios.reporter0)
    = Return pods
    /\ pods !! py "running" = Some 8
    /\ pods !! py "swapped" = None.
Proof.
  destruct (get_pod_status (RT := Runtime.cpython) Scenarios.busy_cluster Scenarios.reporter0)
    as [[pods|e] s'] eqn:E.
  - destruct (pod_counts_come_from_their_queries (RT := Runtime.cpython)
                Scenarios.busy_cluster Scenarios.reporter0 pods s' E) as (Hin & Hout & _).
    exists pods. split; [reflexivity|]. split.
    + destruct (Hin (py "running")
                  (Scenarios.lookup_query "running" pod_queries)) as (v & n & Hv & Hn & Hl).
      * vm_compute. apply list_elem_of_here.
      * rewrite Hl. f_equal. vm_compute in Hv. apply Return_inj in Hv. subst v.
        vm_compute in Hn. apply Return_inj in Hn. symmetry. exact Hn.
    + apply Hout. vm_compute. intros H.
      repeat (apply elem_of_cons in H; destruct H as [H|H]; [discriminate H|]).
      inversion H.
  - exfalso. apply (f_equal fst) in E. vm_compute in E. discriminate E.
Defined.

End ReporterFacts.
